(** * nanolab-processing-base: metadata/schema-driven CSV parsing and dataset
      separation

    A shallow embedding of
      - [extras/datasets/nanolab_dataframe.py]  (header parsing, type
        coercion, schema registry access, per-experiment parsing), and
      - [hooks_utils.py]                        (batch separation),
    followed by the properties established about them.

    Python [str] values are modelled as [string]; every [ascii] stands for
    the code point of the same number (the Latin-1 range).  Exceptions are
    values of [exn]; a computation that may raise returns a [result]. *)

From Stdlib Require Import ZArith NArith List String Ascii Bool Lia PeanoNat.
From Stdlib Require Import Floats.SpecFloat Numbers.DecimalString.
From Stdlib Require Numbers.DecimalNat.
Import ListNotations.

Local Open Scope string_scope.
Local Open Scope list_scope.

(* ================================================================== *)
(** * Python built-ins used by the code                                  *)
(* ================================================================== *)

(** ** Exceptions and results *)

(** The [Exception] subclasses that the modelled code raises, catches or
    lets through, each with its message ([args[0]]).  A subclass that the
    code never tells apart from its parent is represented by the parent
    ([OSError] covers [PermissionError], [ValueError] covers the pandas
    parser errors derived from it). *)
Inductive exn : Type :=
| FileNotFoundError (msg : string)
| OSError (msg : string)
| ValueError (msg : string)
| KeyError (msg : string)
| IndexError (msg : string)
| TypeError (msg : string)
| Exception (msg : string).

Inductive result (A : Type) : Type :=
| Ok (a : A)
| Raise (e : exn).
Arguments Ok {A} a.
Arguments Raise {A} e.

(** [isinstance(e, ValueError)]. *)
Definition is_ValueError (e : exn) : bool :=
  match e with ValueError _ => true | _ => false end.

(** [isinstance(e, KeyError)]. *)
Definition is_KeyError (e : exn) : bool :=
  match e with KeyError _ => true | _ => false end.

(** [isinstance(e, FileNotFoundError)]. *)
Definition is_FileNotFoundError (e : exn) : bool :=
  match e with FileNotFoundError _ => true | _ => false end.

(** ** Strings *)

Module PyStr.

Definition LF : ascii := "010"%char.
Definition CR : ascii := "013"%char.
Definition TAB : ascii := "009"%char.

(** [str.isspace] on one character, for code points below 256. *)
Definition is_space (c : ascii) : bool :=
  let n := nat_of_ascii c in
  (((9 <=? n) && (n <=? 13)) || ((28 <=? n) && (n <=? 32))
   || (n =? 133) || (n =? 160))%nat.

Fixpoint lstrip (s : string) : string :=
  match s with
  | String c r => if is_space c then lstrip r else s
  | EmptyString => EmptyString
  end.

Fixpoint rstrip (s : string) : string :=
  match s with
  | String c r =>
      match rstrip r with
      | EmptyString => if is_space c then EmptyString else String c EmptyString
      | r' => String c r'
      end
  | EmptyString => EmptyString
  end.

(** [s.strip()] *)
Definition strip (s : string) : string := lstrip (rstrip s).

(** [s.startswith(p)] *)
Definition startswith (p s : string) : bool := prefix p s.

(** [s.endswith(p)] *)
Fixpoint endswith (p s : string) : bool :=
  (s =? p) ||
  match s with
  | String _ r => endswith p r
  | EmptyString => false
  end.

Fixpoint intersperse (new s : string) : string :=
  new ++ match s with
         | String c r => String c (intersperse new r)
         | EmptyString => EmptyString
         end.

(** Left-to-right scan for non-overlapping occurrences of a non-empty
    [old]; [skip] counts the characters of the current occurrence that
    are still to be passed over. *)
Fixpoint replace_scan (old new : string) (skip : nat) (s : string) : string :=
  match s with
  | EmptyString => EmptyString
  | String c r =>
      match skip with
      | S k => replace_scan old new k r
      | O =>
          if prefix old s
          then new ++ replace_scan old new (length old - 1) r
          else String c (replace_scan old new 0 r)
      end
  end.

(** [s.replace(old, new)] *)
Definition replace (old new s : string) : string :=
  match old with
  | EmptyString => intersperse new s
  | _ => replace_scan old new 0 s
  end.

Definition push_head (c : ascii) (l : list string) : list string :=
  match l with
  | seg :: rest => String c seg :: rest
  | [] => [String c EmptyString]
  end.

Definition limit_reached (maxsplit : option nat) : bool :=
  match maxsplit with Some O => true | _ => false end.

Definition limit_pred (maxsplit : option nat) : option nat :=
  match maxsplit with Some n => Some (pred n) | None => None end.

(** Splitting on a non-empty separator, at most [maxsplit] times
    ([None]: no limit). *)
Fixpoint split_scan (sep : string) (maxsplit : option nat) (skip : nat)
         (s : string) : list string :=
  match s with
  | EmptyString => [EmptyString]
  | String c r =>
      match skip with
      | S k => split_scan sep maxsplit k r
      | O =>
          if limit_reached maxsplit then [s]
          else if prefix sep s
          then EmptyString :: split_scan sep (limit_pred maxsplit) (length sep - 1) r
          else push_head c (split_scan sep maxsplit 0 r)
      end
  end.

(** [s.split(sep)] ([maxsplit = None]) and [s.split(sep, n)]
    ([maxsplit = Some n]) for a non-empty [sep]; every call site passes a
    non-empty literal. *)
Definition split (sep : string) (maxsplit : option nat) (s : string)
  : list string :=
  split_scan sep maxsplit 0 s.

(** [c in s] for a single character. *)
Fixpoint occurs (c : ascii) (s : string) : bool :=
  match s with
  | String c' r => Ascii.eqb c' c || occurs c r
  | EmptyString => false
  end.

Definition SQUOTE : ascii := "039"%char.
Definition DQUOTE : ascii := "034"%char.
Definition BACKSLASH : ascii := "092"%char.

(** [str.isprintable] on one character, for code points below 256. *)
Definition is_printable (c : ascii) : bool :=
  let n := nat_of_ascii c in
  (((32 <=? n) && (n <? 127)) || ((161 <=? n) && negb (n =? 173)))%nat.

Definition hex_digit (n : nat) : ascii :=
  ascii_of_nat (if (n <? 10)%nat then 48 + n else 87 + n).

(** One character as [repr] writes it between quotes [quote]. *)
Definition escaped (quote c : ascii) : string :=
  if Ascii.eqb c quote || Ascii.eqb c BACKSLASH
  then String BACKSLASH (String c EmptyString)
  else if Ascii.eqb c TAB then String BACKSLASH "t"
  else if Ascii.eqb c LF then String BACKSLASH "n"
  else if Ascii.eqb c CR then String BACKSLASH "r"
  else if is_printable c then String c EmptyString
  else let n := nat_of_ascii c in
       String BACKSLASH
         (String "x" (String (hex_digit (n / 16))
                             (String (hex_digit (n mod 16)) EmptyString))).

Fixpoint escape_all (quote : ascii) (s : string) : string :=
  match s with
  | String c r => escaped quote c ++ escape_all quote r
  | EmptyString => EmptyString
  end.

(** [repr(s)]: between apostrophes, or between double quotes when [s]
    holds an apostrophe and no double quote. *)
Definition repr (s : string) : string :=
  let quote := if occurs SQUOTE s && negb (occurs DQUOTE s)
               then DQUOTE else SQUOTE in
  String quote (escape_all quote s ++ String quote EmptyString).

End PyStr.

(** [str(e)] as interpolated by an f-string. [KeyError] prints the [repr]
    of its argument. *)
Definition exn_message (e : exn) : string :=
  match e with
  | FileNotFoundError m | OSError m | ValueError m
  | IndexError m | TypeError m | Exception m => m
  | KeyError m => PyStr.repr m
  end.

(** [str(n)] *)
Definition str_of_nat (n : nat) : string :=
  DecimalString.NilEmpty.string_of_uint (Nat.to_uint n).

(** ** Lists *)

Module PyList.

(** [l[i]], negative indices counting from the end. *)
Definition index {A : Type} (l : list A) (i : Z) : result A :=
  let n := Z.of_nat (List.length l) in
  let j := if (i <? 0)%Z then (i + n)%Z else i in
  if ((0 <=? j) && (j <? n))%Z
  then match nth_error l (Z.to_nat j) with
       | Some a => Ok a
       | None => Raise (IndexError "list index out of range")
       end
  else Raise (IndexError "list index out of range").

End PyList.

(** ** Numbers *)

Module PyNum.

(** The characters that [int()] and [float()] skip around a number: the
    ASCII blanks (tab to carriage return, and the space) and the spaces
    outside ASCII, which are turned into blanks first.  The separators
    U+001C to U+001F are whitespace for [str.strip] and not here. *)
Definition is_blank (c : ascii) : bool :=
  let n := nat_of_ascii c in
  (((9 <=? n) && (n <=? 13)) || (n =? 32) || (n =? 133) || (n =? 160))%nat.

Fixpoint skip_left (s : string) : string :=
  match s with
  | String c r => if is_blank c then skip_left r else s
  | EmptyString => EmptyString
  end.

Fixpoint skip_right (s : string) : string :=
  match s with
  | String c r =>
      match skip_right r with
      | EmptyString => if is_blank c then EmptyString else String c EmptyString
      | r' => String c r'
      end
  | EmptyString => EmptyString
  end.

(** The text between the leading and the trailing blanks. *)
Definition trim (s : string) : string := skip_left (skip_right s).

Definition digit_of (c : ascii) : option N :=
  let n := N_of_ascii c in
  if ((48 <=? n) && (n <=? 57))%N then Some (n - 48)%N else None.

(** The rest of a [digitpart] after its first digit:
    [(["_"] digit)*], accumulating the value and the number of digits. *)
Fixpoint digits_acc (acc : N) (cnt : nat) (s : string) : N * nat * string :=
  match s with
  | String c r =>
      match digit_of c with
      | Some d => digits_acc (10 * acc + d)%N (S cnt) r
      | None =>
          if Ascii.eqb c "_"
          then match r with
               | String c2 r2 =>
                   match digit_of c2 with
                   | Some d => digits_acc (10 * acc + d)%N (S cnt) r2
                   | None => (acc, cnt, s)
                   end
               | EmptyString => (acc, cnt, s)
               end
          else (acc, cnt, s)
      end
  | EmptyString => (acc, cnt, s)
  end.

(** [digitpart ::= digit (["_"] digit)*]: its value, its number of
    digits and the text after it. *)
Definition digitpart (s : string) : option (N * nat * string) :=
  match s with
  | String c r =>
      match digit_of c with
      | Some d => Some (digits_acc d 1 r)
      | None => None
      end
  | EmptyString => None
  end.

(** An optional sign: [true] for "-". *)
Definition sign (s : string) : bool * string :=
  match s with
  | String "-" r => (true, r)
  | String "+" r => (false, r)
  | _ => (false, s)
  end.

(** [sys.int_info.default_max_str_digits] *)
Definition max_str_digits : N := 4300.

(** The message of the error of [int()] on a malformed text: the [repr]
    is cut after 200 characters. *)
Definition invalid_literal (s : string) : exn :=
  ValueError ("invalid literal for int() with base 10: "
              ++ substring 0 200 (PyStr.repr s)).

Definition exceeds_limit (digits : nat) : exn :=
  ValueError ("Exceeds the limit (4300 digits) for integer string conversion: "
              ++ "value has " ++ str_of_nat digits
              ++ " digits; use sys.set_int_max_str_digits() to increase the limit").

(** [int(s)] for a string argument, base 10.  The digits are scanned up
    to the first character that is neither a digit nor an underscore; a
    misplaced underscore is an error at once, then the number of digits
    is checked against the limit, then the rest of the text. *)
Definition int (s : string) : result Z :=
  let '(neg, body) := sign (trim s) in
  match digitpart body with
  | Some (n, digits, rest) =>
      if prefix "_" rest then Raise (invalid_literal s)
      else if (max_str_digits <? N.of_nat digits)%N
      then Raise (exceeds_limit digits)
      else match rest with
           | EmptyString => Ok (if neg then (- Z.of_N n)%Z else Z.of_N n)
           | _ => Raise (invalid_literal s)
           end
  | None => Raise (invalid_literal s)
  end.

Definition lower (c : ascii) : ascii :=
  let n := nat_of_ascii c in
  if ((65 <=? n) && (n <=? 90))%nat then ascii_of_nat (n + 32) else c.

Fixpoint lowercase (s : string) : string :=
  match s with
  | String c r => String (lower c) (lowercase r)
  | EmptyString => EmptyString
  end.

(** [exponent ::= ("e" | "E") [sign] digitpart], absent when the text is
    over. *)
Definition exponent (s : string) : option Z :=
  match s with
  | EmptyString => Some 0%Z
  | String c r =>
      if Ascii.eqb (lower c) "e"
      then let '(neg, body) := sign r in
           match digitpart body with
           | Some (n, _, EmptyString) =>
               Some (if neg then (- Z.of_N n)%Z else Z.of_N n)
           | _ => None
           end
      else None
  end.

(** [floatnumber ::= ([digitpart] "." digitpart | digitpart ["."])
    [exponent]], read as a pair [(m, e)] standing for [m * 10^e]. *)
Definition floatnumber (s : string) : option (N * Z) :=
  match digitpart s with
  | Some (ip, _, String "." r) =>
      match digitpart r with
      | Some (fp, k, rest) =>
          match exponent rest with
          | Some e => Some ((ip * 10 ^ N.of_nat k + fp)%N, (e - Z.of_nat k)%Z)
          | None => None
          end
      | None =>
          match exponent r with
          | Some e => Some (ip, e)
          | None => None
          end
      end
  | Some (ip, _, rest) =>
      match exponent rest with
      | Some e => Some (ip, e)
      | None => None
      end
  | None =>
      match s with
      | String "." r =>
          match digitpart r with
          | Some (fp, k, rest) =>
              match exponent rest with
              | Some e => Some (fp, (e - Z.of_nat k)%Z)
              | None => None
              end
          | None => None
          end
      | _ => None
      end
  end.

(** Python floats are IEEE 754 binary64 numbers. *)
Definition prec : Z := 53.
Definition emax : Z := 1024.

(** The binary64 number nearest to [n / d] (ties to even). *)
Definition nearest (neg : bool) (n d : positive) : spec_float :=
  SFdiv prec emax (S754_finite neg n 0) (S754_finite false d 0).

(** The binary64 number nearest to [m * 10^e]. *)
Definition of_decimal (neg : bool) (m : N) (e : Z) : spec_float :=
  match m with
  | N0 => S754_zero neg
  | Npos p =>
      match e with
      | Zneg k => nearest neg p (10 ^ k)
      | Z0 => nearest neg p 1
      | Zpos k => nearest neg (p * 10 ^ k) 1
      end
  end.

(** The rational number that a finite float is, as a fraction. *)
Definition exact_ratio (f : spec_float) : option (Z * Z) :=
  match f with
  | S754_zero _ => Some (0, 1)%Z
  | S754_finite neg m e =>
      let sm := if neg then Zneg m else Zpos m in
      match e with
      | Zneg k => Some (sm, Zpos (2 ^ k))
      | _ => Some (sm * 2 ^ e, 1)%Z
      end
  | _ => None
  end.

(** [f] is exactly the rational [n / d]. *)
Definition is_ratio (f : spec_float) (n d : Z) : bool :=
  match exact_ratio f with
  | Some (a, b) => (a * d =? n * b)%Z
  | None => false
  end.

(** [float(s)] for a string argument. *)
Definition float (s : string) : result spec_float :=
  let '(neg, body) := sign (trim s) in
  let word := lowercase body in
  if (word =? "inf") || (word =? "infinity") then Ok (S754_infinity neg)
  else if word =? "nan" then Ok S754_nan
  else match floatnumber body with
       | Some (m, e) => Ok (of_decimal neg m e)
       | None => Raise (ValueError ("could not convert string to float: "
                                    ++ PyStr.repr s))
       end.

End PyNum.

(** ** Dictionaries *)

(** A [dict] with string keys keeps insertion order; assigning to a key
    that is present replaces its value in place. *)
Module PyDict.

Definition dict (V : Type) : Type := list (string * V).

Definition empty {V : Type} : dict V := [].

Fixpoint get {V : Type} (d : dict V) (k : string) : option V :=
  match d with
  | (k', v) :: r => if k' =? k then Some v else get r k
  | [] => None
  end.

(** [k in d] *)
Definition contains {V : Type} (d : dict V) (k : string) : bool :=
  match get d k with Some _ => true | None => false end.

(** [d[k]] *)
Definition getitem {V : Type} (d : dict V) (k : string) : result V :=
  match get d k with
  | Some v => Ok v
  | None => Raise (KeyError k)
  end.

(** [d[k] = v] *)
Fixpoint set {V : Type} (d : dict V) (k : string) (v : V) : dict V :=
  match d with
  | (k', v') :: r => if k' =? k then (k', v) :: r else (k', v') :: set r k v
  | [] => [(k, v)]
  end.

(** [list(d.keys())] *)
Definition keys {V : Type} (d : dict V) : list string := map fst d.

(** [a | b] *)
Definition union {V : Type} (a b : dict V) : dict V :=
  fold_left (fun acc kv => set acc (fst kv) (snd kv)) b a.

End PyDict.

Import PyDict.

(** [x in l] for a list of strings. *)
Definition list_contains (l : list string) (x : string) : bool :=
  existsb (String.eqb x) l.

(** ** Computations with state and exceptions *)

(** A computation over a state [S] ends with a value or a raised
    exception; what it did to the state before raising stays done. *)
Definition M (S A : Type) : Type := S -> result A * S.

Definition ret {S A : Type} (a : A) : M S A := fun s => (Ok a, s).

Definition raise {S A : Type} (e : exn) : M S A := fun s => (Raise e, s).

Definition bind {S A B : Type} (m : M S A) (k : A -> M S B) : M S B :=
  fun s =>
    match m s with
    | (Ok a, s') => k a s'
    | (Raise e, s') => (Raise e, s')
    end.

(** A pure computation that may raise. *)
Definition lift {S A : Type} (r : result A) : M S A := fun s => (r, s).

Definition gets {S A : Type} (f : S -> A) : M S A := fun s => (Ok (f s), s).

Definition modify {S : Type} (f : S -> S) : M S unit := fun s => (Ok tt, f s).

(** [try: body  except Exception as e: handler(e)] *)
Definition try_except {S A : Type} (body : M S A) (handler : exn -> M S A)
  : M S A :=
  fun s =>
    match body s with
    | (Ok a, s') => (Ok a, s')
    | (Raise e, s') => handler e s'
    end.

Declare Scope py_scope.
Delimit Scope py_scope with py.
Notation "x <- m ;; k" := (bind m (fun x => k))
  (at level 100, m at next level, right associativity) : py_scope.
Notation "' pat <- m ;; k" := (bind m (fun x => match x with pat => k end))
  (at level 100, pat pattern, m at next level, right associativity) : py_scope.
Notation "m ;;; k" := (bind m (fun _ => k))
  (at level 100, right associativity) : py_scope.

(** Sequencing of pure computations that may raise. *)
Definition and_then {A B : Type} (r : result A) (k : A -> result B) : result B :=
  match r with
  | Ok a => k a
  | Raise e => Raise e
  end.

(** ** pandas *)

(** What the code needs from pandas: timestamps made from epoch seconds,
    and the reader of the tabular body.  [read_csv files path header dtype]
    reads the file at [path] of the file system [files]. *)
Class Pandas : Type := {
  Timestamp : Type;
  DataFrame : Type;
  to_datetime : spec_float -> result Timestamp;
  read_csv : (string -> result string) -> string -> nat -> dict string
             -> result DataFrame
}.

(* ================================================================== *)
(** * extras/datasets/nanolab_dataframe.py                              *)
(* ================================================================== *)

Module Dataframe.

Import PyStr.
Local Open Scope py_scope.

(** ** The process and its surroundings *)

(** One entry of the procedures registry: the three mappings of the
    registry contract (key or column name to type tag). *)
Record procedure_definition : Type := {
  Parameters : dict string;
  Metadata : dict string;
  Data : dict string
}.

Definition registry : Type := dict procedure_definition.

(** What one run of [load_catalog_item] meets: the Kedro session or
    context cannot be created, or [catalog.load] returns the dataset
    ([None] is Python's [None]) or raises. *)
Inductive kedro_outcome : Type :=
| SessionFailed (e : exn)
| CatalogLoaded (dataset : option registry)
| CatalogFailed (e : exn).

Inductive event : Type :=
| LogInfo (msg : string)
| LogError (msg : string)
| UserWarning (msg : string).

(** The state the module works in.  [files] gives, for a path, the decoded
    text of the file or the exception that opening it raises.
    [kedro n name] is what the [n]-th run (from 0) of
    [load_catalog_item name] meets.  [cached_procedures] is the module
    global [_cached_procedures]; [catalog_loads] counts the runs of
    [load_catalog_item] so far; [emitted] lists log records and warnings,
    oldest first. *)
Record world : Type := {
  files : string -> result string;
  kedro : nat -> string -> kedro_outcome;
  cached_procedures : option registry;
  catalog_loads : nat;
  emitted : list event
}.

Definition emit (ev : event) : M world unit :=
  modify (fun w => {| files := files w; kedro := kedro w;
                      cached_procedures := cached_procedures w;
                      catalog_loads := catalog_loads w;
                      emitted := emitted w ++ [ev] |}).

Definition store_procedures (d : option registry) : M world unit :=
  modify (fun w => {| files := files w; kedro := kedro w;
                      cached_procedures := d;
                      catalog_loads := catalog_loads w;
                      emitted := emitted w |}).

Definition next_kedro_outcome (name : string) : M world kedro_outcome :=
  fun w => (Ok (kedro w (catalog_loads w) name),
            {| files := files w; kedro := kedro w;
               cached_procedures := cached_procedures w;
               catalog_loads := S (catalog_loads w);
               emitted := emitted w |}).

(** [open(path, 'r')] followed by reading. *)
Definition open_text (path : string) : M world string :=
  fun w => (files w path, w).

(** ** Text files *)

(** Universal newlines: "\r\n" and "\r" are read as "\n". *)
Fixpoint universal_newlines (s : string) : string :=
  match s with
  | String c r =>
      if Ascii.eqb c CR
      then String LF
             match r with
             | String c2 r2 =>
                 if Ascii.eqb c2 LF then universal_newlines r2
                 else universal_newlines r
             | EmptyString => EmptyString
             end
      else String c (universal_newlines r)
  | EmptyString => EmptyString
  end.

(** The lines of a text, each with its terminator. *)
Fixpoint keepends (s : string) : list string :=
  match s with
  | String c r =>
      if Ascii.eqb c LF then String c EmptyString :: keepends r
      else push_head c (keepends r)
  | EmptyString => []
  end.

(** [for line in file] *)
Definition file_lines (text : string) : list string :=
  keepends (universal_newlines text).

(** [file.readline()] on a freshly opened file. *)
Definition readline (text : string) : string :=
  match file_lines text with
  | line :: _ => line
  | [] => EmptyString
  end.

(** ** get_data_key *)

(** [os.path.join(a, b)] (POSIX). *)
Definition os_path_join (a b : string) : string :=
  if startswith "/" b then b
  else if (a =? "") || endswith "/" a then a ++ b
  else a ++ "/" ++ b.

Definition get_data_key (path : string) : result string :=
  let splitted_path := split "/" None path in
  and_then (PyList.index splitted_path (-1)) (fun last =>
  and_then (PyList.index (split "." None last) 0) (fun file_name =>
  and_then (PyList.index splitted_path (-2)) (fun folder =>
  Ok (os_path_join folder file_name)))).

(** ** load_catalog_item, get_procedures *)

Definition load_catalog_item (dataset_name : string) : M world (option registry) :=
  outcome <- next_kedro_outcome dataset_name ;;
  match outcome with
  | SessionFailed e => raise e
  | CatalogLoaded dataset =>
      emit (LogInfo ("Loaded dataset: " ++ dataset_name)) ;;;
      ret dataset
  | CatalogFailed e =>
      if is_KeyError e
      then emit (LogError ("Dataset '" ++ dataset_name
                           ++ "' not found in catalog.")) ;;;
           raise e
      else raise e
  end.

Definition get_procedures : M world (option registry) :=
  cached <- gets cached_procedures ;;
  match cached with
  | None =>
      loaded <- load_catalog_item "params:procedures" ;;
      store_procedures loaded
  | Some _ => ret tt
  end ;;;
  gets cached_procedures.

(** ** read_comment_lines *)

Definition unpack2 (l : list string) : result (string * string) :=
  match l with
  | [a; b] => Ok (a, b)
  | [] | [_] => Raise (ValueError "not enough values to unpack")
  | _ => Raise (ValueError "too many values to unpack")
  end.

(** [{k: i for k, i in (pair.split(": ", 1) for pair in list_of_lines)}],
    filling the dict from left to right. *)
Fixpoint dict_of_pairs (list_of_lines : list string) (acc : dict string)
  : result (dict string) :=
  match list_of_lines with
  | pair_ :: rest =>
      and_then (unpack2 (split ": " (Some 1) pair_)) (fun ki =>
      dict_of_pairs rest (set acc (fst ki) (snd ki)))
  | [] => Ok acc
  end.

Definition make_dict_from_parsed_data (list_of_lines : list string)
  : result (dict string) :=
  match dict_of_pairs list_of_lines empty with
  | Ok d => Ok d
  | Raise e =>
      if is_ValueError e
      then Raise (ValueError
                    "Each line must contain a key and a value separated by ': '.")
      else Raise e
  end.

Definition hash : string := "#".
Definition hash_tab : string := String "#" (String TAB EmptyString).

(** The body of [for line in file], on the two locals. *)
Fixpoint scan_lines (lines : list string) (comment_lines : list string)
         (current_line : nat) : list string * nat :=
  match lines with
  | line :: rest =>
      let current_line :=
        if startswith hash (strip line) then S current_line else current_line in
      let comment_lines :=
        if startswith hash_tab (strip line)
        then comment_lines ++ [replace hash_tab "" (strip line)]
        else comment_lines in
      scan_lines rest comment_lines current_line
  | [] => (comment_lines, current_line)
  end.

Definition read_comment_lines (file_path : string)
  : M world (dict string * nat) :=
  '(comment_lines, current_line) <-
     try_except
       (text <- open_text file_path ;;
        ret (scan_lines (file_lines text) [] 0))
       (fun e =>
          if is_FileNotFoundError e
          then raise (FileNotFoundError
                        ("The file '" ++ file_path ++ "' was not found."))
          else raise (Exception
                        ("An error occurred while processing the file: "
                         ++ exn_message e))) ;;
  match comment_lines with
  | _ :: _ =>
      d <- lift (make_dict_from_parsed_data comment_lines) ;;
      ret (d, current_line)
  | [] => ret (empty, 0)
  end.

(** The number of lines whose stripped form starts with "#". *)
Definition hash_lines (lines : list string) : nat :=
  List.length (filter (fun line => startswith hash (strip line)) lines).

(** The header entries of a file: its lines whose stripped form starts
    with "#" and a tab, stripped and without that marker, in order. *)
Definition header_entries (lines : list string) : list string :=
  map (fun line => replace hash_tab "" (strip line))
      (filter (fun line => startswith hash_tab (strip line)) lines).

(** ** determine_procedure *)

(** [.*?>] at the start of [s]: the characters before the first ">",
    none of them a newline. *)
Fixpoint lazy_until_gt (s : string) : option string :=
  match s with
  | String c r =>
      if Ascii.eqb c ">" then Some EmptyString
      else if Ascii.eqb c LF then None
      else match lazy_until_gt r with
           | Some g => Some (String c g)
           | None => None
           end
  | EmptyString => None
  end.

(** [re.search(r"<(.*?)>", s)], giving [match.group(1)]. *)
Fixpoint search_angle (s : string) : option string :=
  match s with
  | String c r =>
      if Ascii.eqb c "<"
      then match lazy_until_gt r with
           | Some g => Some g
           | None => search_angle r
           end
      else search_angle r
  | EmptyString => None
  end.

Definition determine_procedure (path : string) : M world string :=
  if negb (endswith ".csv" path)
  then raise (ValueError ("The file '" ++ path
                          ++ "' is not a CSV. Please provide a valid .csv file."))
  else
    text <- open_text path ;;
    let first_line := strip (readline text) in
    match search_angle first_line with
    | Some content => lift (PyList.index (split "." None content) (-1))
    | None =>
        emit (UserWarning "No content found between < and >") ;;;
        ret EmptyString
    end.

(** ** string_to_bool, parse_metadata *)

Definition string_to_bool (string_bool : string) : bool :=
  string_bool =? "True".

Section WithPandas.

Context {pd : Pandas}.

(** A coerced header value. *)
Inductive typed_value : Type :=
| VFloat (f : spec_float)
| VInt (z : Z)
| VBool (b : bool)
| VStr (s : string)
| VTimestamp (t : Timestamp).

(** [pd.Series(props_dict)]: labels and values, in order. *)
Definition Series : Type := dict typed_value.

Definition unix_time_to_datetime (unix_time_str : string) : result Timestamp :=
  match and_then (PyNum.float unix_time_str) to_datetime with
  | Ok t => Ok t
  | Raise e =>
      if is_ValueError e
      then Raise (ValueError ("Invalid Unix timestamp: " ++ unix_time_str))
      else Raise e
  end.

Definition parse_metadata (key value how_to_process : string) : result typed_value :=
  if how_to_process =? "float" then
    and_then (PyList.index (split " " None value) 0) (fun token =>
    and_then (PyNum.float token) (fun f => Ok (VFloat f)))
  else if how_to_process =? "int" then
    and_then (PyNum.int value) (fun z => Ok (VInt z))
  else if how_to_process =? "bool" then
    Ok (VBool (string_to_bool value))
  else if how_to_process =? "str" then
    Ok (VStr value)
  else if how_to_process =? "datetime" then
    and_then (unix_time_to_datetime value) (fun t => Ok (VTimestamp t))
  else if how_to_process =? "float_no_unit" then
    and_then (PyNum.float value) (fun f => Ok (VFloat f))
  else Raise (ValueError ("Unhandled metadata key: " ++ key)).

(** ** get_keys, make_props_data *)

(** [procedure not in procedures] and [procedures[procedure]] on what
    [get_procedures] returned. *)
Definition lookup_procedure (procedures : option registry) (procedure : string)
  : result procedure_definition :=
  match procedures with
  | Some reg => getitem reg procedure
  | None => Raise (TypeError "'NoneType' object is not subscriptable")
  end.

Definition get_keys (procedure : string) : M world (list string) :=
  procedures <- get_procedures ;;
  match procedures with
  | None => raise (TypeError "argument of type 'NoneType' is not iterable")
  | Some reg =>
      if negb (contains reg procedure)
      then raise (KeyError ("Procedure '" ++ procedure
                            ++ "' not found in procedures."))
      else
        definition <- lift (lookup_procedure procedures procedure) ;;
        let parameters := keys (Parameters definition) in
        let metadata := keys (Metadata definition) in
        (* both are lists: the [isinstance] test that follows never raises *)
        ret (parameters ++ metadata)
  end.

(** The loop [for key in dictionary_found_properties], over the items
    of the header in order, on the local [props_dict]. *)
Fixpoint coerce_properties (found : list (string * string))
         (keys : list string) (procedure_dict : dict string)
         (procedure : string) (props_dict : dict typed_value)
  : result (dict typed_value) :=
  match found with
  | (key, raw) :: rest =>
      if list_contains keys key
      then
        and_then (getitem procedure_dict key) (fun how =>
        and_then (parse_metadata key raw how) (fun v =>
        coerce_properties rest keys procedure_dict procedure
                          (set props_dict key v)))
      else Raise (KeyError ("Key '" ++ key
                            ++ "' is missing in the configuration file of "
                            ++ procedure ++ "."))
  | [] => Ok props_dict
  end.

Fixpoint join (sep : string) (l : list string) : string :=
  match l with
  | [] => EmptyString
  | [x] => x
  | x :: r => x ++ sep ++ join sep r
  end.

(** [str(d)] for a dict of strings. *)
Definition dict_str (d : dict string) : string :=
  "{" ++ join ", " (map (fun kv => (repr (fst kv) ++ ": " ++ repr (snd kv))%string) d)
      ++ "}".

Definition make_props_data (path : string) : M world (Series * DataFrame) :=
  '(dictionary_found_properties, header) <- read_comment_lines path ;;
  procedure <- determine_procedure path ;;
  procedures <- get_procedures ;;
  keys <- get_keys procedure ;;
  definition <- lift (lookup_procedure procedures procedure) ;;
  let procedure_dict := union (Parameters definition) (Metadata definition) in
  props_dict <- lift (coerce_properties dictionary_found_properties keys
                                        procedure_dict procedure empty) ;;
  data_key <- lift (get_data_key path) ;;
  let props_dict := set props_dict "data_key" (VStr data_key) in
  let props_dict := set props_dict "Procedure type" (VStr procedure) in
  let props_series : Series := props_dict in
  let dtype_mapping := Data definition in
  fs <- gets files ;;
  data <- lift (match read_csv fs path header dtype_mapping with
                | Ok data => Ok data
                | Raise e =>
                    if is_ValueError e
                    then Raise (ValueError
                                  ("Error in reading " ++ path
                                   ++ " with dtype mapping: "
                                   ++ dict_str dtype_mapping))
                    else Raise e
                end) ;;
  ret (props_series, data).

End WithPandas.

(** ** Sequences of schema accesses *)

(** [n] calls of [get_procedures] one after the other, by callers that
    carry on after an exception (as the batch loop does): what each call
    gave, and the state at the end. *)
Fixpoint accesses (n : nat) (w : world)
  : list (result (option registry)) * world :=
  match n with
  | S k =>
      let (r, w') := get_procedures w in
      let (rs, w'') := accesses k w' in
      (r :: rs, w'')
  | O => ([], w)
  end.

End Dataframe.

(* ================================================================== *)
(** * hooks_utils.py                                                    *)
(* ================================================================== *)

Module HooksUtils.

Local Open Scope py_scope.

Inductive log_record : Type :=
| Info (msg : string)
| Error (msg : string).

(** What [pd.DataFrame] does with a list of [Props]: it builds a table
    with one row per element, in order, or raises on a list that it
    cannot lay out as a table (a row whose labels cannot be aligned with
    the columns, for one).  [frame_error] is the exception that it raises
    on a list, if any. *)
Class Frames (Props : Type) : Type := {
  frame_error : list Props -> option exn
}.

Section Separate.

(** [W] is whatever the producers work on (files, caches, ...);
    [Props] and [Table] are what a producer hands back. *)
Context {W Props Table : Type} {frames : Frames Props}.

(** What a call of a producer returns, as [prop, data = ...] sees it: a
    pair, or something whose unpacking into two names raises
    [unpack_error]. *)
Inductive returned : Type :=
| ReturnedPair (prop : Props) (data : Table)
| ReturnedOther (unpack_error : exn).

(** A zero-argument callable. *)
Definition producer : Type := W -> result returned * W.

(** The producers' state and the records written to this module's
    logger, oldest first. *)
Record state : Type := {
  outside : W;
  log : list log_record
}.

Definition logger (r : log_record) : M state unit :=
  modify (fun s => {| outside := outside s; log := log s ++ [r] |}).

(** [experiment_callable()] *)
Definition call (experiment_callable : producer) : M state returned :=
  fun s =>
    let (r, w) := experiment_callable (outside s) in
    (r, {| outside := w; log := log s |}).

(** [prop, data = ...] *)
Definition unpack (r : returned) : M state (Props * Table) :=
  match r with
  | ReturnedPair prop data => ret (prop, data)
  | ReturnedOther e => raise e
  end.

(** The loop [for key, experiment_callable in experiments.items()],
    on the locals [props_list] and [indexed_data]. *)
Fixpoint for_each (items : list (string * producer))
         (props_list : list Props) (indexed_data : dict Table)
  : M state (list Props * dict Table) :=
  match items with
  | (key, experiment_callable) :: rest =>
      '(props_list, indexed_data) <-
         try_except
           (r <- call experiment_callable ;;
            '(prop, data) <- unpack r ;;
            let props_list := props_list ++ [prop] in
            let indexed_data := set indexed_data key data in
            logger (Info ("Processed experiment: " ++ key)) ;;;
            ret (props_list, indexed_data))
           (fun e =>
              logger (Error ("Error processing experiment " ++ key ++ ": "
                             ++ exn_message e)) ;;;
              ret (props_list, indexed_data)) ;;
      for_each rest props_list indexed_data
  | [] => ret (props_list, indexed_data)
  end.

(** A properties table, given by its rows from top to bottom. *)
Definition properties_table : Type := list Props.

(** [pd.DataFrame(props_list)]: one row per element, in order, unless
    pandas raises. *)
Definition pd_DataFrame (props_list : list Props) : result properties_table :=
  match frame_error props_list with
  | Some e => Raise e
  | None => Ok props_list
  end.

Definition separate_nanolab_dataset (experiments : dict producer)
  : M state (properties_table * dict Table) :=
  logger (Info ("Starting separation of NanoLab dataset with "
                ++ str_of_nat (List.length experiments) ++ " experiments.")) ;;;
  '(props_list, indexed_data) <- for_each experiments [] empty ;;
  consolidated_props <- lift (pd_DataFrame props_list) ;;
  logger (Info "Finished dataset separation.") ;;;
  ret (consolidated_props, indexed_data).

(** ** What happened to each entry *)

(** The entries in processing order, each with what its producer
    yielded when it was called in its turn. *)
Fixpoint outcomes (items : list (string * producer)) (w : W)
  : list (string * result (Props * Table)) :=
  match items with
  | (key, experiment_callable) :: rest =>
      let (r, w') := experiment_callable w in
      (key, match r with
            | Ok (ReturnedPair prop data) => Ok (prop, data)
            | Ok (ReturnedOther e) => Raise e
            | Raise e => Raise e
            end) :: outcomes rest w'
  | [] => []
  end.

(** The producers' state after all of them were called in order. *)
Fixpoint after_all (items : list (string * producer)) (w : W) : W :=
  match items with
  | (_, experiment_callable) :: rest =>
      after_all rest (snd (experiment_callable w))
  | [] => w
  end.

(** The entries that were processed successfully, in order. *)
Fixpoint successes (t : list (string * result (Props * Table)))
  : list (string * (Props * Table)) :=
  match t with
  | (key, Ok pd) :: rest => (key, pd) :: successes rest
  | (_, Raise _) :: rest => successes rest
  | [] => []
  end.

(** The entries that failed, in order, with the exception. *)
Fixpoint failures (t : list (string * result (Props * Table)))
  : list (string * exn) :=
  match t with
  | (_, Ok _) :: rest => failures rest
  | (key, Raise e) :: rest => (key, e) :: failures rest
  | [] => []
  end.

(** [indexed_data] after the tables of [done] were stored under their
    keys, in order. *)
Definition stored (done : list (string * (Props * Table))) (d : dict Table)
  : dict Table :=
  fold_left (fun acc x => set acc (fst x) (snd (snd x))) done d.

Definition record_of (o : string * result (Props * Table)) : log_record :=
  match o with
  | (key, Ok _) => Info ("Processed experiment: " ++ key)
  | (key, Raise e) =>
      Error ("Error processing experiment " ++ key ++ ": " ++ exn_message e)
  end.

End Separate.

Arguments returned : clear implicits.
Arguments producer : clear implicits.
Arguments state : clear implicits.
Arguments properties_table : clear implicits.

End HooksUtils.

(* ================================================================== *)
(** * extras/datasets/nanolab_dataset.py                                *)
(* ================================================================== *)

Module Dataset.

Import Dataframe.
Local Open Scope py_scope.

Section WithPandas.

Context {pd : Pandas}.

(** The attributes of a [NanoLabDataSet] that its methods read or write
    ([catalog] is stored and never used). *)
Record NanoLabDataSet : Type := {
  filepath : string;
  props : option Series;
  data : option DataFrame
}.

(** [NanoLabDataSet(filepath)] *)
Definition init (filepath : string) : NanoLabDataSet :=
  {| filepath := filepath; props := None; data := None |}.

(** [self._load()]: the object afterwards, and what is returned. *)
Definition _load (self : NanoLabDataSet)
  : M world (NanoLabDataSet * (Series * DataFrame)) :=
  procedures <- get_procedures ;;
  '(p, d) <- make_props_data (filepath self) ;;
  ret ({| filepath := filepath self; props := Some p; data := Some d |}, (p, d)).

(** [self._describe()] *)
Definition _describe (self : NanoLabDataSet) : dict string :=
  [("type", "NanoLab Data Frame"); ("filepath", filepath self)].

(** A zero-argument callable that loads the file at [path] through
    [_load] of a dataset made for it: what the batch is given for a
    partition. *)
Definition loader (path : string) : HooksUtils.producer world Series DataFrame :=
  fun w =>
    match _load (init path) w with
    | (Ok (_, (p, d)), w') => (Ok (HooksUtils.ReturnedPair p d), w')
    | (Raise e, w') => (Raise e, w')
    end.

End WithPandas.

End Dataset.

(* ================================================================== *)
(** * hooks.py                                                          *)
(* ================================================================== *)

Module Hooks.

Import PyStr HooksUtils.
Local Open Scope py_scope.

(** The two kinds of dataset that the hook registers
    ([PartitionedDataset] always with [dataset=CSVDataset]). *)
Inductive dataset_spec : Type :=
| CSVDataset (filepath : string)
| PartitionedDataset (path : string) (filename_suffix : string).

(** [try: body  finally: final] *)
Definition try_finally {S A : Type} (body : M S A) (final : M S unit) : M S A :=
  fun s =>
    let (r, s') := body s in
    match final s' with
    | (Ok _, s'') => (r, s'')
    | (Raise e, s'') => (Raise e, s'')
    end.

Section Hook.

Context {W Props Table : Type} {frames : Frames Props}.

(** What [catalog.save] is given. *)
Inductive payload : Type :=
| PropertiesTable (table : properties_table Props)
| IndexedData (indexed_data : dict Table).

(** What the hook needs from the Kedro [DataCatalog], which lives in the
    outside state [W]: [catalog.list()], [catalog.add(name, dataset)],
    [catalog.load(name)] (for a project: a mapping of producers) and
    [catalog.save(name, data)]. *)
Class DataCatalog : Type := {
  catalog_list : W -> list string;
  catalog_add : string -> dataset_spec -> W -> result unit * W;
  catalog_load : string -> W -> result (dict (producer W Props Table)) * W;
  catalog_save : string -> payload -> W -> result unit * W
}.

Context {catalog : DataCatalog}.

(** The attributes of a [DynamicDatasetHook]. *)
Record DynamicDatasetHook : Type := {
  projects : option (list string);
  is_processing : bool
}.

(** [DynamicDatasetHook()] *)
Definition init : DynamicDatasetHook :=
  {| projects := None; is_processing := false |}.

(** The hook object, the outside state together with the records of the
    logger of [hooks_utils], and the records of the logger of [hooks]. *)
Record hook_state : Type := {
  self : DynamicDatasetHook;
  separation : state W;
  records : list log_record
}.

Definition hook_logger (r : log_record) : M hook_state unit :=
  modify (fun st => {| self := self st; separation := separation st;
                       records := records st ++ [r] |}).

Definition set_projects (l : list string) : M hook_state unit :=
  modify (fun st => {| self := {| projects := Some l;
                                  is_processing := is_processing (self st) |};
                       separation := separation st;
                       records := records st |}).

Definition set_is_processing (b : bool) : M hook_state unit :=
  modify (fun st => {| self := {| projects := projects (self st);
                                  is_processing := b |};
                       separation := separation st;
                       records := records st |}).

(** A call into [hooks_utils]. *)
Definition in_hooks_utils {A : Type} (m : M (state W) A) : M hook_state A :=
  fun st =>
    let (r, sep) := m (separation st) in
    (r, {| self := self st; separation := sep; records := records st |}).

(** A call of a method of the catalog. *)
Definition on_catalog {A : Type} (op : W -> result A * W) : M hook_state A :=
  in_hooks_utils (fun sep =>
                    let (r, w) := op (outside sep) in
                    (r, {| outside := w; log := log sep |})).

Definition properties_path (project : string) : string :=
  "data/03_primary/properties_" ++ project ++ ".csv".

Definition data_path (project : string) : string :=
  "data/03_primary/data_" ++ project.

(** The body of the first loop. *)
Definition register (project : string) : M hook_state unit :=
  on_catalog (catalog_add ("properties_" ++ project)
                          (CSVDataset (properties_path project))) ;;;
  on_catalog (catalog_add ("data_" ++ project)
                          (PartitionedDataset (data_path project) ".csv")).

Fixpoint register_all (projects : list string) : M hook_state unit :=
  match projects with
  | project :: rest => register project ;;; register_all rest
  | [] => ret tt
  end.

(** The body of the second loop. *)
Definition process (project : string) : M hook_state unit :=
  hook_logger (Info ("Processing dataset: " ++ project)) ;;;
  dataset <- on_catalog (catalog_load project) ;;
  '(consolidated_props, indexed_data) <-
     in_hooks_utils (separate_nanolab_dataset dataset) ;;
  on_catalog (catalog_save ("properties_" ++ project)
                           (PropertiesTable consolidated_props)) ;;;
  hook_logger (Info ("Saved properties for " ++ project ++ " to "
                     ++ properties_path project)) ;;;
  on_catalog (catalog_save ("data_" ++ project) (IndexedData indexed_data)) ;;;
  hook_logger (Info ("Saved data partitions for " ++ project ++ " to "
                     ++ data_path project)).

Fixpoint process_all (projects : list string) : M hook_state unit :=
  match projects with
  | project :: rest => process project ;;; process_all rest
  | [] => ret tt
  end.

Definition after_catalog_created : M hook_state unit :=
  names <- gets (fun st => catalog_list (outside (separation st))) ;;
  let found := filter (startswith "project_") names in
  set_projects found ;;;
  register_all found ;;;
  busy <- gets (fun st => is_processing (self st)) ;;
  if busy
  then hook_logger (Info "Already processing datasets. Skipping this execution.")
  else
    set_is_processing true ;;;
    try_finally
      (try_except
         (process_all found)
         (fun e => hook_logger (Error ("Error processing datasets: "
                                       ++ exn_message e))))
      (set_is_processing false).

(** Whether a record is an error record. *)
Definition is_error (r : log_record) : bool :=
  match r with Error _ => true | Info _ => false end.

(** [st'] differs from [st] at most by calls into the catalog and into
    [hooks_utils] and by info records: the hook object is as it was, and
    the log of the hook has grown by info records only. *)
Definition quiet (st st' : hook_state) : Prop :=
  self st' = self st
  /\ exists infos,
      records st' = records st ++ infos
      /\ forallb (fun r => negb (is_error r)) infos = true.

End Hook.

Arguments DataCatalog : clear implicits.
Arguments hook_state : clear implicits.
Arguments payload : clear implicits.

End Hooks.

(* ================================================================== *)
(** * extras/datasets/nanolab_dataframe_backup.py                       *)
(* ================================================================== *)

(** The earlier variant of the module.  Its [read_comment_lines],
    [make_dict_from_parsed_data], [determine_procedure],
    [unix_time_to_datetime] and [string_to_bool] have the bodies of the
    current ones, which stand for them here. *)
Module Backup.

Import PyStr Dataframe.
Local Open Scope py_scope.

Section WithPandas.

Context {pd : Pandas}.

(** The module global [procedures], loaded from the catalog when the
    module is imported ([None] is Python's [None]). *)
Variable procedures : option registry.

Definition parse_metadata (key value how_to_process : string) : result typed_value :=
  if how_to_process =? "float" then
    and_then (PyList.index (split " " None value) 0) (fun token =>
    and_then (PyNum.float token) (fun f => Ok (VFloat f)))
  else if how_to_process =? "int" then
    and_then (PyNum.int value) (fun z => Ok (VInt z))
  else if how_to_process =? "bool" then
    Ok (VBool (string_to_bool value))
  else if how_to_process =? "str" then
    Ok (VStr value)
  else if how_to_process =? "datetime" then
    and_then (unix_time_to_datetime value) (fun t => Ok (VTimestamp t))
  else Raise (ValueError ("Unhandled metadata key: " ++ key)).

Definition get_keys (procedure : string) : result (list string) :=
  match procedures with
  | None => Raise (TypeError "argument of type 'NoneType' is not iterable")
  | Some reg =>
      if negb (contains reg procedure)
      then Raise (KeyError ("Procedure '" ++ procedure
                            ++ "' not found in procedures."))
      else
        and_then (lookup_procedure procedures procedure) (fun definition =>
        Ok (keys (Parameters definition) ++ keys (Metadata definition)))
  end.

(** The loop [for key in keys], on the local [props_dict]. *)
Fixpoint coerce_keys (keys : list string) (found : dict string)
         (procedure_dict : dict string) (props_dict : dict typed_value)
  : result (dict typed_value) :=
  match keys with
  | key :: rest =>
      if contains found key
      then
        and_then (getitem found key) (fun raw =>
        and_then (getitem procedure_dict key) (fun how =>
        and_then (parse_metadata key raw how) (fun v =>
        coerce_keys rest found procedure_dict (set props_dict key v))))
      else Raise (KeyError ("Key '" ++ key
                            ++ "' is missing in the parsed properties from the file."))
  | [] => Ok props_dict
  end.

Definition make_props_data (path : string) : M world (Series * DataFrame) :=
  '(dictionary_found_properties, header) <- read_comment_lines path ;;
  procedure <- determine_procedure path ;;
  keys <- lift (get_keys procedure) ;;
  definition <- lift (lookup_procedure procedures procedure) ;;
  let procedure_dict := union (Parameters definition) (Metadata definition) in
  props_dict <- lift (coerce_keys keys dictionary_found_properties
                                  procedure_dict empty) ;;
  let props_dict := set props_dict "file_path" (VStr path) in
  let props_series : Series := props_dict in
  let dtype_mapping := Data definition in
  fs <- gets files ;;
  data <- lift (match read_csv fs path header dtype_mapping with
                | Ok data => Ok data
                | Raise e =>
                    if is_ValueError e
                    then Raise (ValueError
                                  ("Error in reading " ++ path
                                   ++ " with dtype mapping: "
                                   ++ dict_str dtype_mapping))
                    else Raise e
                end) ;;
  ret (props_series, data).

End WithPandas.

End Backup.

(* ================================================================== *)
(** * Sample data                                                       *)
(* ================================================================== *)

Module Sample.

Import PyStr Dataframe HooksUtils.

Definition nl : string := String LF EmptyString.
Definition tab : string := String TAB EmptyString.

(** A pandas stand-in: timestamps are kept as epoch seconds and the
    table is the text of the file. *)
#[export] Instance pandas : Pandas := {|
  Timestamp := spec_float;
  DataFrame := string;
  to_datetime := fun f => Ok f;
  read_csv := fun fs path _ _ => fs path
|}.

Definition ITt : procedure_definition := {|
  Parameters := [("Voltage", "float"); ("Points", "int")];
  Metadata := [("Start time", "datetime"); ("Chip", "str")];
  Data := [("V", "float64"); ("I", "float64")]
|}.

Definition procedures : registry := [("ITt", ITt)].

(** A well-formed export. *)
Definition good_csv : string :=
  "#Procedure: <lab.instr.ITt>" ++ nl ++
  "#Parameters:" ++ nl ++
  "#" ++ tab ++ "Voltage: 36.5 V" ++ nl ++
  "#" ++ tab ++ "Points: 42" ++ nl ++
  "#Metadata:" ++ nl ++
  "#" ++ tab ++ "Chip: A1" ++ nl ++
  "#Data:" ++ nl ++
  "V,I" ++ nl ++ "1.0,2.0" ++ nl.

(** A header key that the schema does not know. *)
Definition extra_key_csv : string :=
  "#Procedure: <lab.instr.ITt>" ++ nl ++
  "#" ++ tab ++ "Voltage: 36.5 V" ++ nl ++
  "#" ++ tab ++ "Operator: Ana" ++ nl ++
  "V,I" ++ nl.

(** A value that does not coerce, ahead of a key that the schema does
    not know. *)
Definition bad_value_then_extra_key_csv : string :=
  "#Procedure: <lab.instr.ITt>" ++ nl ++
  "#" ++ tab ++ "Points: many" ++ nl ++
  "#" ++ tab ++ "Operator: Ana" ++ nl ++
  "V,I" ++ nl.

(** Comment lines, none of them a header entry. *)
Definition plain_comments_csv : string :=
  "#Procedure: <lab.instr.ITt>" ++ nl ++
  "#Data:" ++ nl ++
  "V,I" ++ nl.

(** The same key on two header lines. *)
Definition repeated_key_csv : string :=
  "#Procedure: <lab.instr.ITt>" ++ nl ++
  "#" ++ tab ++ "Chip: A1" ++ nl ++
  "#" ++ tab ++ "Points: 42" ++ nl ++
  "#" ++ tab ++ "Chip: B7" ++ nl ++
  "V,I" ++ nl.

(** No procedure between angle brackets on the first line. *)
Definition no_bracket_csv : string :=
  "Result: ITt" ++ nl ++ "V,I" ++ nl.

Definition bracket_csv : string :=
  "Result: <lab.instr.ITt>" ++ nl ++ "V,I" ++ nl.

Definition disk (path : string) : result string :=
  if path =? "raw/2024-11-29/good.csv" then Ok good_csv
  else if path =? "raw/2024-11-29/extra.csv" then Ok extra_key_csv
  else if path =? "raw/2024-11-29/bad.csv" then Ok bad_value_then_extra_key_csv
  else if path =? "raw/2024-11-29/plain.csv" then Ok plain_comments_csv
  else if path =? "raw/2024-11-29/repeated.csv" then Ok repeated_key_csv
  else if path =? "raw/2024-11-29/nobracket.csv" then Ok no_bracket_csv
  else if path =? "raw/2024-11-29/bracket.csv" then Ok bracket_csv
  else if path =? "raw/2024-11-29/notes.txt" then Ok bracket_csv
  else Raise (FileNotFoundError
                ("[Errno 2] No such file or directory: " ++ repr path)).

(** A catalog that always serves the registry. *)
Definition steady_kedro (n : nat) (name : string) : kedro_outcome :=
  if name =? "params:procedures" then CatalogLoaded (Some procedures)
  else CatalogFailed (KeyError name).

(** A catalog whose first load fails and whose later loads succeed. *)
Definition flaky_kedro (n : nat) (name : string) : kedro_outcome :=
  match n with
  | O => SessionFailed (OSError "session store is locked")
  | S _ => steady_kedro n name
  end.

Definition fresh (k : nat -> string -> kedro_outcome) : world := {|
  files := disk;
  kedro := k;
  cached_procedures := None;
  catalog_loads := 0;
  emitted := []
|}.

(** Three producers over a counter of calls; the second raises. *)
Definition first_ok : producer nat string string :=
  fun n => (Ok (ReturnedPair "props of 1" "table of 1"), S n).
Definition second_raises : producer nat string string :=
  fun n => (Raise (ValueError "bad header"), S n).
Definition third_ok : producer nat string string :=
  fun n => (Ok (ReturnedPair "props of 3" "table of 3"), S n).

Definition three_experiments : dict (producer nat string string) :=
  [("run/1", first_ok); ("run/2", second_raises); ("run/3", third_ok)].

Definition two_experiments : dict (producer nat string string) :=
  [("run/1", first_ok); ("run/3", third_ok)].

Definition start : state nat := {| outside := 0; log := [] |}.

(** pandas lays out any list of strings as a table of one column. *)
Definition text_frames : Frames string := {|
  frame_error := fun _ => None
|}.

End Sample.

(** ** More sample data *)

Module Cases.

Import PyStr Dataframe HooksUtils.

(** The sample disk with three more paths: a well-formed export under a
    bare file name, one whose table does not fit its column types, and a
    file that cannot be opened. *)
Definition disk (path : string) : result string :=
  if path =? "ITt.csv" then Ok Sample.good_csv
  else if path =? "raw/2024-11-29/table.csv" then Ok Sample.good_csv
  else if path =? "raw/2024-11-29/locked.csv"
  then Raise (OSError "[Errno 13] Permission denied: 'raw/2024-11-29/locked.csv'")
  else Sample.disk path.

(** A pandas stand-in whose reader rejects the table of one file. *)
#[export] Instance strict_pandas : Pandas := {|
  Timestamp := spec_float;
  DataFrame := string;
  to_datetime := fun f => Ok f;
  read_csv := fun fs path _ _ =>
                if path =? "raw/2024-11-29/table.csv"
                then Raise (ValueError "could not convert string to float: 'abc'")
                else fs path
|}.

Definition fresh (k : nat -> string -> kedro_outcome) : world := {|
  files := disk;
  kedro := k;
  cached_procedures := None;
  catalog_loads := 0;
  emitted := []
|}.

(** The state once the registry is cached. *)
Definition loaded : world := {|
  files := disk;
  kedro := Sample.steady_kedro;
  cached_procedures := Some Sample.procedures;
  catalog_loads := 1;
  emitted := [LogInfo "Loaded dataset: params:procedures"]
|}.

(** [l] holds a string twice. *)
Fixpoint repeats (l : list string) : bool :=
  match l with
  | x :: r => list_contains r x || repeats r
  | [] => false
  end.

(** Rows given as Series, by their labels and values in order.  pandas
    builds no table from a list in which a Series has a label twice: it
    cannot align the labels of that row with the columns, and raises
    [InvalidIndexError], a subclass of [Exception]. *)
Definition series_frames {V : Type} : Frames (list (string * V)) := {|
  frame_error := fun rows =>
    if existsb (fun row => repeats (map fst row)) rows
    then Some (Exception "Reindexing only valid with uniquely valued Index objects")
    else None
|}.

(** Three producers of Series; the second raises, the first hands back a
    Series with the label "Chip" twice. *)
Definition unaligned_experiments
  : dict (producer nat (list (string * string)) string) :=
  [("run/1", fun n => (Ok (ReturnedPair [("Chip", "A1"); ("Chip", "B7")]
                                        "table of 1"), S n));
   ("run/2", fun n => (Raise (ValueError "bad header"), S n));
   ("run/3", fun n => (Ok (ReturnedPair [("Chip", "C3")] "table of 3"), S n))].

(** A batch of three files, the second with a header key that the schema
    does not know. *)
Definition batch : dict (producer world (Series (pd := Sample.pandas)) string) :=
  [("2024-11-29/good", Dataset.loader (pd := Sample.pandas) "raw/2024-11-29/good.csv");
   ("2024-11-29/extra", Dataset.loader (pd := Sample.pandas) "raw/2024-11-29/extra.csv");
   ("2024-11-29/repeated",
    Dataset.loader (pd := Sample.pandas) "raw/2024-11-29/repeated.csv")].

(** A catalog kept as the journal of the calls made to it.  It lists two
    projects among other entries; loading the first gives the three sample
    producers, loading the second raises. *)
Definition journal_producer (r : result (returned string string))
  : producer (list string) string string :=
  fun j => (r, (j ++ ["call"])%list).

#[export] Instance journal_catalog : Hooks.DataCatalog (list string) string string := {|
  Hooks.catalog_list := fun _ => ["parameters"; "project_a"; "params:procedures";
                                  "project_b"; "projects"];
  Hooks.catalog_add := fun name _ j => (Ok tt, (j ++ [("add " ++ name)%string])%list);
  Hooks.catalog_load := fun name j =>
    (if name =? "project_a"
     then Ok [("run/1", journal_producer (Ok (ReturnedPair "props of 1" "table of 1")));
              ("run/2", journal_producer (Raise (ValueError "bad header")));
              ("run/3", journal_producer (Ok (ReturnedPair "props of 3" "table of 3")))]
     else Raise (Exception ("Failed while loading data from dataset " ++ name)%string),
     (j ++ [("load " ++ name)%string])%list);
  Hooks.catalog_save := fun name _ j => (Ok tt, (j ++ [("save " ++ name)%string])%list)
|}.

Definition idle : Hooks.hook_state (list string) := {|
  Hooks.self := Hooks.init;
  Hooks.separation := {| outside := []; log := [] |};
  Hooks.records := []
|}.

Definition busy : Hooks.hook_state (list string) := {|
  Hooks.self := {| Hooks.projects := None; Hooks.is_processing := true |};
  Hooks.separation := {| outside := []; log := [] |};
  Hooks.records := []
|}.

(** The same catalog, except that it refuses a name that was added
    before. *)
#[export] Instance strict_catalog : Hooks.DataCatalog (list string) string string := {|
  Hooks.catalog_list := Hooks.catalog_list (DataCatalog := journal_catalog);
  Hooks.catalog_add := fun name spec j =>
    if existsb (String.eqb ("add " ++ name)) j
    then (Raise (Exception ("Dataset '" ++ name
                            ++ "' has already been registered")%string), j)
    else Hooks.catalog_add (DataCatalog := journal_catalog) name spec j;
  Hooks.catalog_load := Hooks.catalog_load (DataCatalog := journal_catalog);
  Hooks.catalog_save := Hooks.catalog_save (DataCatalog := journal_catalog)
|}.

(** The same catalog, except that nothing can be loaded or saved. *)
#[export] Instance closed_catalog : Hooks.DataCatalog (list string) string string := {|
  Hooks.catalog_list := Hooks.catalog_list (DataCatalog := journal_catalog);
  Hooks.catalog_add := Hooks.catalog_add (DataCatalog := journal_catalog);
  Hooks.catalog_load := fun name j => (Raise (Exception "closed"), j);
  Hooks.catalog_save := fun name _ j => (Raise (Exception "closed"), j)
|}.

(** A numeral of 4301 digits, one more than [int()] accepts. *)
Definition long_numeral : Decimal.uint :=
  Decimal.D1 (Nat.iter 4300 Decimal.D1 Decimal.Nil).

(** A hook entered for the second time on one catalog. *)
Definition entered_again : Hooks.hook_state (list string) := {|
  Hooks.self := Hooks.init;
  Hooks.separation := {| outside := ["add properties_project_a";
                                     "add data_project_a"];
                         log := [] |};
  Hooks.records := []
|}.

End Cases.

(* ================================================================== *)
(** * Properties                                                        *)
(* ================================================================== *)

Import PyStr Dataframe HooksUtils.

(** ** Strings *)

Lemma occurs_app (c : ascii) (a b : string) :
  occurs c (a ++ b) = occurs c a || occurs c b.
Proof.
  induction a as [|x a IH]; simpl.
  - reflexivity.
  - rewrite IH. now rewrite orb_assoc.
Qed.

Lemma prefix_single (d c : ascii) (r : string) :
  prefix (String d EmptyString) (String c r) = Ascii.eqb c d.
Proof.
  simpl. destruct (ascii_dec d c) as [->|ne].
  - rewrite Ascii.eqb_refl. now destruct r.
  - symmetry. apply Ascii.eqb_neq. congruence.
Qed.

(** ** TypeCoercer: parse_metadata *)

Section Coercion.

Context {pd : Pandas}.

(** C5. For every key, [parse_metadata] turns "36.5 C" under [float] into
    the float 36.5 (the text before the first blank is parsed, the unit
    is ignored), "42" under [int] into 42, "True" under [bool] into true,
    "False" and "true" into false; under [bool] the result is true
    exactly when the raw value is the string "True". *)
Theorem parse_metadata_examples (k : string) :
  (exists f, parse_metadata k "36.5 C" "float" = Ok (VFloat f)
             /\ PyNum.is_ratio f 365 10 = true)
  /\ parse_metadata k "42" "int" = Ok (VInt 42)
  /\ parse_metadata k "True" "bool" = Ok (VBool true)
  /\ parse_metadata k "False" "bool" = Ok (VBool false)
  /\ parse_metadata k "true" "bool" = Ok (VBool false)
  /\ (forall raw, parse_metadata k raw "bool" = Ok (VBool true) <-> raw = "True").
Proof.
  repeat split.
  - exists (S754_finite false 5136918324969472 (-47)). split; reflexivity.
  - unfold parse_metadata; simpl. intro E. injection E as E.
    now apply String.eqb_eq.
  - intros ->. reflexivity.
Qed.

(** C6. For every key and raw value, a type tag other than [float],
    [float_no_unit], [int], [bool], [datetime] and [str] makes
    [parse_metadata] raise the error whose message names the key; no
    value is returned. *)
Theorem parse_metadata_unsupported (key raw tag : string) :
  ~ In tag ["float"; "float_no_unit"; "int"; "bool"; "datetime"; "str"] ->
  parse_metadata key raw tag
  = Raise (ValueError ("Unhandled metadata key: " ++ key)).
Proof.
  intro out. unfold parse_metadata.
  repeat match goal with
         | |- context [String.eqb tag ?lit] =>
             destruct (String.eqb_spec tag lit) as [->|_];
             [exfalso; apply out; simpl; tauto|]
         end.
  reflexivity.
Qed.

End Coercion.

Lemma parse_metadata_examples_witness :
  parse_metadata (pd := Sample.pandas) "Enabled" "True" "bool" = Ok (VBool true).
Proof.
  apply (proj2 (proj2 (proj2 (proj2 (proj2
           (parse_metadata_examples (pd := Sample.pandas) "Enabled"))))) "True").
  reflexivity.
Defined.

Lemma parse_metadata_unsupported_witness :
  ~ In "complex" ["float"; "float_no_unit"; "int"; "bool"; "datetime"; "str"]
  /\ parse_metadata (pd := Sample.pandas) "Gain" "1+2j" "complex"
     = Raise (ValueError "Unhandled metadata key: Gain").
Proof.
  assert (out : ~ In "complex"
                  ["float"; "float_no_unit"; "int"; "bool"; "datetime"; "str"]).
  { simpl. intros [e|[e|[e|[e|[e|[e|[]]]]]]]; discriminate e. }
  split; [exact out|].
  exact (parse_metadata_unsupported (pd := Sample.pandas) "Gain" "1+2j" "complex" out).
Defined.

(** ** Dictionaries *)

Lemma keys_set {V : Type} (d : dict V) (k : string) (v : V) (k' : string) :
  In k' (keys (set d k v)) <-> k' = k \/ In k' (keys d).
Proof.
  unfold keys. induction d as [|[k0 v0] d IH]; simpl.
  - intuition congruence.
  - destruct (String.eqb_spec k0 k) as [->|ne]; simpl.
    + intuition congruence.
    + rewrite IH. intuition congruence.
Qed.

Lemma get_set_same {V : Type} (d : dict V) (k : string) (v : V) :
  get (set d k v) k = Some v.
Proof.
  induction d as [|[k0 v0] d IH]; simpl.
  - now rewrite String.eqb_refl.
  - destruct (String.eqb_spec k0 k) as [->|ne]; simpl.
    + now rewrite String.eqb_refl.
    + destruct (String.eqb_spec k0 k); [contradiction|exact IH].
Qed.

Lemma get_set_other {V : Type} (d : dict V) (k k' : string) (v : V) :
  k' <> k -> get (set d k v) k' = get d k'.
Proof.
  intro ne. induction d as [|[k0 v0] d IH]; simpl.
  - destruct (String.eqb_spec k k'); [congruence|reflexivity].
  - destruct (String.eqb_spec k0 k) as [->|ne0]; simpl.
    + destruct (String.eqb_spec k k'); [congruence|reflexivity].
    + destruct (String.eqb_spec k0 k'); [reflexivity|exact IH].
Qed.

Lemma get_In_keys {V : Type} (d : dict V) (k : string) :
  In k (keys d) <-> exists v, get d k = Some v.
Proof.
  unfold keys. induction d as [|[k0 v0] d IH]; simpl.
  - split; [tauto|]. intros [v e]; discriminate e.
  - destruct (String.eqb_spec k0 k) as [->|ne].
    + split; [eauto|tauto].
    + rewrite <- IH. intuition congruence.
Qed.

(** ** DatasetSeparator: separate_nanolab_dataset *)

Section Separation.

Context {W Props Table : Type} {frames : Frames Props}.

Implicit Types (experiments items : list (string * producer W Props Table)).
Implicit Types (s : state W).

Lemma outcomes_keys items (w : W) :
  map fst (outcomes items w) = keys items.
Proof.
  revert w. unfold keys. induction items as [|[k p] items IH]; intro w; simpl.
  - reflexivity.
  - destruct (p w) as [r w']. simpl. now rewrite IH.
Qed.

Lemma successes_incl (t : list (string * result (Props * Table))) (k : string) :
  In k (map fst (successes t)) -> In k (map fst t).
Proof.
  induction t as [|[k0 [x|e]] t IH]; simpl; tauto.
Qed.

Lemma successes_all (t : list (string * result (Props * Table))) :
  failures t = [] -> map fst (successes t) = map fst t.
Proof.
  induction t as [|[k0 [x|e]] t IH]; simpl; intro none.
  - reflexivity.
  - now rewrite IH.
  - discriminate none.
Qed.

Lemma stored_keys (done : list (string * (Props * Table))) (d : dict Table)
      (k : string) :
  In k (keys (stored done d)) <-> In k (keys d) \/ In k (map fst done).
Proof.
  unfold stored. revert d. induction done as [|x done IH]; intro d; simpl.
  - tauto.
  - rewrite IH, keys_set. intuition congruence.
Qed.

(** The loop: a row and a table for every success, a record for every
    entry, nothing raised. *)
Lemma for_each_run items :
  forall (props_list : list Props) (indexed_data : dict Table) s,
    let t := outcomes items (outside s) in
    for_each items props_list indexed_data s
    = (Ok (props_list ++ map (fun x => fst (snd x)) (successes t),
           stored (successes t) indexed_data),
       {| outside := after_all items (outside s);
          log := log s ++ map record_of t |}).
Proof.
  induction items as [|[key p] items IH]; intros pl idx s; simpl.
  - rewrite !app_nil_r. now destruct s.
  - unfold bind, try_except, call at 1. simpl.
    destruct (p (outside s)) as [[[prop data|e]|e] w']; simpl;
      rewrite IH; simpl; rewrite <- ?app_assoc; reflexivity.
Qed.

Lemma separate_run experiments s :
  let t := outcomes experiments (outside s) in
  let rows := map (fun x => fst (snd x)) (successes t) in
  let called :=
    {| outside := after_all experiments (outside s);
       log := log s
              ++ [Info ("Starting separation of NanoLab dataset with "
                        ++ str_of_nat (List.length experiments)
                        ++ " experiments.")]
              ++ map record_of t |} in
  separate_nanolab_dataset experiments s
  = match frame_error rows with
    | Some e => (Raise e, called)
    | None =>
        (Ok (rows, stored (successes t) empty),
         {| outside := outside called;
            log := log called ++ [Info "Finished dataset separation."] |})
    end.
Proof.
  unfold separate_nanolab_dataset, bind, logger, modify. simpl.
  rewrite for_each_run. simpl. unfold lift, pd_DataFrame.
  destruct (frame_error _) as [e|]; simpl; rewrite <- ?app_assoc; reflexivity.
Qed.

(** C2. [separate_nanolab_dataset] never raises what a producer raised:
    every entry is called in its turn, an entry whose producer raises (or
    returns something that is not a pair) gets an error record in the log
    and no row and no table, and the entries after it are processed all
    the same.  What it raises, if anything, is what [pd.DataFrame] raises
    on the rows of the successful entries, after all of them were
    processed; when [pd.DataFrame] accepts these rows it returns them as
    the table, with the table-map.  In particular, with three entries of
    which the second fails and the others succeed with rows that
    [pd.DataFrame] accepts, the properties table has the two rows of the
    first and the third and the table-map has their two keys. *)
Theorem separate_never_raises experiments s :
  let t := outcomes experiments (outside s) in
  let rows := map (fun x => fst (snd x)) (successes t) in
  let r := separate_nanolab_dataset experiments s in
  map fst t = keys experiments
  /\ outside (snd r) = after_all experiments (outside s)
  /\ (exists tail,
         log (snd r) = log s
                       ++ [Info ("Starting separation of NanoLab dataset with "
                                 ++ str_of_nat (List.length experiments)
                                 ++ " experiments.")]
                       ++ map record_of t ++ tail)
  /\ (forall e, frame_error rows = Some e -> fst r = Raise e)
  /\ (frame_error rows = None ->
      fst r = Ok (rows, stored (successes t) empty)
      /\ log (snd r) = log s
                       ++ [Info ("Starting separation of NanoLab dataset with "
                                 ++ str_of_nat (List.length experiments)
                                 ++ " experiments.")]
                       ++ map record_of t
                       ++ [Info "Finished dataset separation."])
  /\ (forall k1 k2 k3 x1 e x3,
         t = [(k1, Ok x1); (k2, Raise e); (k3, Ok x3)] ->
         k1 <> k3 ->
         frame_error [fst x1; fst x3] = None ->
         exists s',
           separate_nanolab_dataset experiments s
           = (Ok ([fst x1; fst x3], [(k1, snd x1); (k3, snd x3)]), s')
           /\ In (Error ("Error processing experiment " ++ k2 ++ ": "
                         ++ exn_message e)) (log s')).
Proof.
  intros t rows r. split; [apply outcomes_keys|].
  pose proof (separate_run experiments s) as run. cbv zeta in run.
  fold t in run. fold rows in run. fold r in run.
  split; [|split; [|split; [|split]]].
  - rewrite run. now destruct (frame_error rows).
  - rewrite run. destruct (frame_error rows); simpl.
    + exists []. now rewrite app_nil_r.
    + exists [Info "Finished dataset separation."]. now rewrite <- !app_assoc.
  - intros e bad. rewrite run, bad. reflexivity.
  - intro fine. rewrite run, fine. simpl. split; [reflexivity|].
    now rewrite <- !app_assoc.
  - intros k1 k2 k3 x1 e x3 shape distinct fine.
    assert (accepted : frame_error rows = None).
    { unfold rows. rewrite shape. exact fine. }
    eexists. unfold r in run. rewrite run, accepted.
    split; [f_equal|].
    + unfold rows. rewrite shape.
      cbn [successes map fst snd stored fold_left set empty].
      destruct (String.eqb_spec k1 k3) as [same|_]; [contradiction|reflexivity].
    + cbn [log outside]. rewrite shape, !in_app_iff.
      cbn [map record_of In]. tauto.
Qed.

(** C3. [separate_nanolab_dataset] returns exactly when [pd.DataFrame]
    accepts the rows of the successful entries, and whenever it returns,
    the keys of the returned table-map are keys of the input; when no
    entry failed they are all the keys of the input; the properties table
    has one row for each successfully processed entry, in processing
    order. *)
Theorem separate_keys_and_rows experiments s :
  let t := outcomes experiments (outside s) in
  (frame_error (map (fun x => fst (snd x)) (successes t)) = None
   <-> exists table indexed_data s',
         separate_nanolab_dataset experiments s = (Ok (table, indexed_data), s'))
  /\ forall (table : properties_table Props) (indexed_data : dict Table) s',
      separate_nanolab_dataset experiments s = (Ok (table, indexed_data), s') ->
      (forall k, In k (keys indexed_data) -> In k (keys experiments))
      /\ (failures t = [] ->
          forall k, In k (keys indexed_data) <-> In k (keys experiments))
      /\ table = map (fun x => fst (snd x)) (successes t)
      /\ List.length table = List.length (successes t).
Proof.
  intro t. pose proof (separate_run experiments s) as run. cbv zeta in run.
  fold t in run. split.
  - rewrite run. destruct (frame_error _) as [e|].
    + split; [discriminate|]. intros (table & indexed_data & s' & E).
      discriminate E.
    + split; [eauto|reflexivity].
  - intros table indexed_data s' returned. rewrite run in returned.
    destruct (frame_error _); [discriminate returned|].
    injection returned as <- <- _.
    assert (sub : forall k, In k (keys (stored (successes t) empty))
                            -> In k (keys experiments)).
    { intros k ink. apply stored_keys in ink as [[]|ink].
      rewrite <- (outcomes_keys experiments (outside s)).
      now apply successes_incl. }
    split; [exact sub|]. split; [|split; [reflexivity|now rewrite length_map]].
    intros none k. split; [apply sub|].
    intro ink. apply stored_keys. right.
    rewrite (successes_all t none). unfold t.
    now rewrite outcomes_keys.
Qed.

End Separation.

Lemma separate_keys_and_rows_witness :
  (forall k, In k (keys [("run/1", "table of 1"); ("run/3", "table of 3")])
             <-> In k (keys Sample.two_experiments))
  /\ List.length ["props of 1"; "props of 3"] = 2.
Proof.
  assert (run : separate_nanolab_dataset (frames := Sample.text_frames)
                  Sample.two_experiments Sample.start
                = (Ok (["props of 1"; "props of 3"],
                       [("run/1", "table of 1"); ("run/3", "table of 3")]),
                   {| outside := 2;
                      log := [Info "Starting separation of NanoLab dataset with 2 experiments.";
                              Info "Processed experiment: run/1";
                              Info "Processed experiment: run/3";
                              Info "Finished dataset separation."] |}))
    by reflexivity.
  destruct (proj2 (separate_keys_and_rows (frames := Sample.text_frames)
                                          Sample.two_experiments Sample.start)
                  _ _ _ run)
    as (_ & all & _ & rows).
  split.
  - apply all. reflexivity.
  - exact rows.
Defined.

Lemma separate_never_raises_witness :
  exists s',
    separate_nanolab_dataset (frames := Sample.text_frames)
      Sample.three_experiments Sample.start
    = (Ok (["props of 1"; "props of 3"],
           [("run/1", "table of 1"); ("run/3", "table of 3")]), s')
    /\ In (Error "Error processing experiment run/2: bad header") (log s').
Proof.
  refine (proj2 (proj2 (proj2 (proj2 (proj2
            (separate_never_raises (frames := Sample.text_frames)
                                   Sample.three_experiments Sample.start)))))
                "run/1" "run/2" "run/3" ("props of 1", "table of 1")
                (ValueError "bad header") ("props of 3", "table of 3") _ _ _).
  - reflexivity.
  - discriminate.
  - reflexivity.
Defined.

(** Three producers of which the second raises and the others succeed,
    and no table: the first row has a label twice, [pd.DataFrame] raises
    on the two rows, outside the [try], and the exception leaves
    [separate_nanolab_dataset] after all three entries were processed. *)
Lemma separate_raises_without_table :
  outcomes Cases.unaligned_experiments 0
  = [("run/1", Ok ([("Chip", "A1"); ("Chip", "B7")], "table of 1"));
     ("run/2", Raise (ValueError "bad header"));
     ("run/3", Ok ([("Chip", "C3")], "table of 3"))]
  /\ separate_nanolab_dataset (frames := Cases.series_frames)
       Cases.unaligned_experiments Sample.start
     = (Raise (Exception "Reindexing only valid with uniquely valued Index objects"),
        {| outside := 3;
           log := [Info "Starting separation of NanoLab dataset with 3 experiments.";
                   Info "Processed experiment: run/1";
                   Error "Error processing experiment run/2: bad header";
                   Info "Processed experiment: run/3"] |}).
Proof. split; reflexivity. Qed.

(** Three producers of which the second raises: two rows, the tables of the
    first and the third, one error record. *)
Example separate_three :
  separate_nanolab_dataset (frames := Sample.text_frames)
    Sample.three_experiments Sample.start
  = (Ok (["props of 1"; "props of 3"],
         [("run/1", "table of 1"); ("run/3", "table of 3")]),
     {| outside := 3;
        log := [Info "Starting separation of NanoLab dataset with 3 experiments.";
                Info "Processed experiment: run/1";
                Error "Error processing experiment run/2: bad header";
                Info "Processed experiment: run/3";
                Info "Finished dataset separation."] |}).
Proof. reflexivity. Qed.

(** ** SchemaRegistry access: get_procedures *)

(** With a registry in the cache, an access returns it and touches
    nothing: no load, no record. *)
Lemma get_procedures_cached (w : world) (reg : registry) :
  cached_procedures w = Some reg ->
  get_procedures w = (Ok (Some reg), w).
Proof.
  destruct w as [fs k c n ev]; simpl. intros ->. reflexivity.
Qed.

(** With an empty cache, an access runs the loader once; the cache
    afterwards holds what the loader returned, and nothing if it raised. *)
Lemma get_procedures_empty (w : world) :
  cached_procedures w = None ->
  let w' := snd (get_procedures w) in
  kedro w' = kedro w
  /\ catalog_loads w' = S (catalog_loads w)
  /\ cached_procedures w'
     = match kedro w (catalog_loads w) "params:procedures" with
       | CatalogLoaded d => d
       | _ => None
       end.
Proof.
  destruct w as [fs k c n ev]; simpl. intros ->.
  unfold get_procedures, bind, gets, load_catalog_item, bind,
    next_kedro_outcome; simpl.
  destruct (k n "params:procedures") as [e|d|e]; simpl; auto.
  destruct (is_KeyError e); simpl; auto.
Qed.

(** What an access returns is what the cache holds afterwards. *)
Lemma get_procedures_returns_cache (w w' : world) (r : option registry) :
  get_procedures w = (Ok r, w') -> cached_procedures w' = r.
Proof.
  destruct w as [fs k c n ev].
  unfold get_procedures, bind, gets, load_catalog_item, bind,
    next_kedro_outcome; simpl.
  destruct c as [reg|]; simpl.
  - intro E. injection E as <- <-. reflexivity.
  - destruct (k n "params:procedures") as [e|d|e]; simpl.
    + discriminate.
    + intro E. injection E as <- <-. reflexivity.
    + destruct (is_KeyError e); discriminate.
Qed.

Lemma accesses_cached (n : nat) (w : world) (reg : registry) :
  cached_procedures w = Some reg ->
  accesses n w = (repeat (Ok (Some reg)) n, w).
Proof.
  intro hit. induction n as [|n IH]; simpl.
  - reflexivity.
  - now rewrite (get_procedures_cached w reg hit), IH.
Qed.

(** C9, as the code has it. Over any sequence of accesses: once the cache
    holds a registry, every access returns that registry and changes
    nothing, so the loader is not run again; and among the runs of the
    loader made during the sequence, only the last one can have returned a
    registry, which is then the one cached.  A run that raises, or returns
    [None], leaves the cache empty and the next access runs the loader
    again. *)
Theorem registry_loaded_once (n : nat) (w : world) :
  (forall reg, cached_procedures w = Some reg ->
               accesses n w = (repeat (Ok (Some reg)) n, w))
  /\ (forall i reg,
         catalog_loads w <= i < catalog_loads (snd (accesses n w)) ->
         kedro w i "params:procedures" = CatalogLoaded (Some reg) ->
         catalog_loads (snd (accesses n w)) = S i
         /\ cached_procedures (snd (accesses n w)) = Some reg)
  /\ (cached_procedures w = None ->
      (forall reg, kedro w (catalog_loads w) "params:procedures"
                   <> CatalogLoaded (Some reg)) ->
      cached_procedures (snd (get_procedures w)) = None
      /\ catalog_loads (snd (accesses 2 w)) = S (S (catalog_loads w))).
Proof.
  split; [intros reg hit; now apply accesses_cached|]. split.
  - revert w. induction n as [|n IH]; intros w i reg range loaded; simpl in *.
    + lia.
    + destruct (cached_procedures w) as [reg0|] eqn:C.
      * rewrite (get_procedures_cached w reg0 C) in *.
        rewrite (accesses_cached n w reg0 C) in *. simpl in range. lia.
      * pose proof (get_procedures_empty w C) as step.
        destruct (get_procedures w) as [r w1] eqn:E1. simpl in step.
        destruct step as (sk & sn & sc).
        destruct (accesses n w1) as [rs w2] eqn:E2. simpl in *.
        specialize (IH w1). rewrite E2 in IH. simpl in IH.
        destruct (Nat.eq_dec i (catalog_loads w)) as [->|later].
        -- rewrite loaded in sc.
           pose proof (accesses_cached n w1 reg sc) as stay.
           rewrite E2 in stay. injection stay as _ ->. auto.
        -- apply IH; [lia|]. now rewrite sk.
  - intros C none.
    pose proof (get_procedures_empty w C) as step. simpl.
    destruct (get_procedures w) as [r w1] eqn:E1. simpl in step.
    destruct step as (sk & sn & sc).
    assert (C1 : cached_procedures w1 = None).
    { rewrite sc. destruct (kedro w (catalog_loads w) "params:procedures")
        as [e|[reg|]|e]; try reflexivity. now elim (none reg). }
    split; [exact C1|].
    pose proof (get_procedures_empty w1 C1) as step1.
    destruct (get_procedures w1) as [r1 w2] eqn:E2. simpl in *.
    destruct step1 as (_ & sn1 & _). lia.
Qed.

Lemma registry_loaded_once_witness :
  accesses 3 (snd (get_procedures (Sample.fresh Sample.steady_kedro)))
  = (repeat (Ok (Some Sample.procedures)) 3,
     snd (get_procedures (Sample.fresh Sample.steady_kedro)))
  /\ (catalog_loads (snd (accesses 3 (Sample.fresh Sample.flaky_kedro))) = 2
      /\ cached_procedures (snd (accesses 3 (Sample.fresh Sample.flaky_kedro)))
         = Some Sample.procedures)
  /\ (cached_procedures (snd (get_procedures (Sample.fresh Sample.flaky_kedro)))
      = None
      /\ catalog_loads (snd (accesses 2 (Sample.fresh Sample.flaky_kedro))) = 2).
Proof.
  split; [|split].
  - apply (proj1 (registry_loaded_once
                    3 (snd (get_procedures (Sample.fresh Sample.steady_kedro))))).
    reflexivity.
  - apply (proj1 (proj2 (registry_loaded_once 3 (Sample.fresh Sample.flaky_kedro)))
                 1 Sample.procedures).
    + vm_compute. lia.
    + reflexivity.
  - apply (proj2 (proj2 (registry_loaded_once 0 (Sample.fresh Sample.flaky_kedro)))).
    + reflexivity.
    + intros reg. discriminate.
Defined.

(** The first access meets a failing load and raises; the second access
    runs the loader again. *)
Lemma registry_loaded_twice :
  accesses 2 (Sample.fresh Sample.flaky_kedro)
  = ([Raise (OSError "session store is locked"); Ok (Some Sample.procedures)],
     snd (accesses 2 (Sample.fresh Sample.flaky_kedro)))
  /\ catalog_loads (snd (accesses 2 (Sample.fresh Sample.flaky_kedro))) = 2.
Proof. split; reflexivity. Qed.

(** ** MetadataParser: read_comment_lines *)

Lemma scan_lines_run (lines : list string) :
  forall (comment_lines : list string) (current_line : nat),
    scan_lines lines comment_lines current_line
    = (comment_lines ++ header_entries lines, current_line + hash_lines lines).
Proof.
  unfold header_entries, hash_lines.
  induction lines as [|line lines IH]; intros cl n; simpl.
  - now rewrite app_nil_r, Nat.add_0_r.
  - rewrite IH.
    destruct (startswith hash (strip line)), (startswith hash_tab (strip line));
      simpl; rewrite <- ?app_assoc, ?Nat.add_succ_r; reflexivity.
Qed.

Lemma hash_tab_is_hash (s : string) :
  startswith hash_tab s = true -> startswith hash s = true.
Proof.
  unfold startswith, hash_tab, hash. destruct s as [|c r]; cbn [prefix].
  - discriminate.
  - destruct (ascii_dec "#" c); [|discriminate]. now destruct r.
Qed.

Lemma no_hash_no_entries (lines : list string) :
  hash_lines lines = 0 -> header_entries lines = [].
Proof.
  unfold hash_lines, header_entries.
  induction lines as [|line lines IH]; simpl; [reflexivity|].
  destruct (startswith hash_tab (strip line)) eqn:T.
  - rewrite (hash_tab_is_hash _ T). simpl. discriminate.
  - destruct (startswith hash (strip line)); simpl; [discriminate|exact IH].
Qed.

(** What [read_comment_lines] does on a file that can be read. *)
Lemma read_comment_lines_run (w : world) (path text : string) :
  files w path = Ok text ->
  read_comment_lines path w
  = match header_entries (file_lines text) with
    | [] => (Ok (empty, 0), w)
    | entries =>
        match make_dict_from_parsed_data entries with
        | Ok d => (Ok (d, hash_lines (file_lines text)), w)
        | Raise e => (Raise e, w)
        end
    end.
Proof.
  intro readable.
  unfold read_comment_lines, bind, try_except, open_text. rewrite readable.
  simpl. rewrite scan_lines_run. simpl.
  destruct (header_entries (file_lines text)) as [|e es]; [reflexivity|].
  unfold lift. destruct (make_dict_from_parsed_data (e :: es)); reflexivity.
Qed.

(** C4, as the code has it. On a readable file with at least one header
    entry (a line whose stripped form starts with "#" and a tab), all of
    them of the shape [key: value], the offset returned is the number of
    lines whose stripped form starts with "#"; on a file without any
    header entry, whatever the number of its "#" lines, and so on a file
    without "#" lines, the result is the empty header and offset 0. *)
Theorem read_comment_lines_offset (w : world) (path text : string) :
  files w path = Ok text ->
  let lines := file_lines text in
  (header_entries lines = [] -> read_comment_lines path w = (Ok (empty, 0), w))
  /\ (header_entries lines <> [] ->
      forall d, make_dict_from_parsed_data (header_entries lines) = Ok d ->
                read_comment_lines path w = (Ok (d, hash_lines lines), w))
  /\ (hash_lines lines = 0 -> read_comment_lines path w = (Ok (empty, 0), w)).
Proof.
  intros readable lines. rewrite (read_comment_lines_run w path text readable).
  fold lines. repeat split.
  - now intros ->.
  - intros some d built. destruct (header_entries lines); [contradiction|].
    now rewrite built.
  - intro none. now rewrite (no_hash_no_entries lines none).
Qed.

Lemma read_comment_lines_offset_witness :
  read_comment_lines "raw/2024-11-29/good.csv" (Sample.fresh Sample.steady_kedro)
  = (Ok ([("Voltage", "36.5 V"); ("Points", "42"); ("Chip", "A1")], 7),
     Sample.fresh Sample.steady_kedro)
  /\ read_comment_lines "raw/2024-11-29/plain.csv" (Sample.fresh Sample.steady_kedro)
     = (Ok (empty, 0), Sample.fresh Sample.steady_kedro)
  /\ read_comment_lines "raw/2024-11-29/nobracket.csv"
                        (Sample.fresh Sample.steady_kedro)
     = (Ok (empty, 0), Sample.fresh Sample.steady_kedro).
Proof.
  split; [|split].
  - apply (proj1 (proj2 (read_comment_lines_offset
                           (Sample.fresh Sample.steady_kedro)
                           "raw/2024-11-29/good.csv" Sample.good_csv eq_refl))).
    + discriminate.
    + reflexivity.
  - apply (proj1 (read_comment_lines_offset
                    (Sample.fresh Sample.steady_kedro)
                    "raw/2024-11-29/plain.csv" Sample.plain_comments_csv eq_refl)).
    reflexivity.
  - apply (proj2 (proj2 (read_comment_lines_offset
                           (Sample.fresh Sample.steady_kedro)
                           "raw/2024-11-29/nobracket.csv" Sample.no_bracket_csv
                           eq_refl))).
    reflexivity.
Defined.

(** Two lines start with "#", none is a header entry: the offset returned
    is 0, not 2. *)
Lemma read_comment_lines_offset_zero :
  hash_lines (file_lines Sample.plain_comments_csv) = 2
  /\ read_comment_lines "raw/2024-11-29/plain.csv" (Sample.fresh Sample.steady_kedro)
     = (Ok (empty, 0), Sample.fresh Sample.steady_kedro).
Proof. split; reflexivity. Qed.

(** An entry [key: value] whose key holds no colon splits into that key
    and that value. *)
Lemma split_key_value (k v : string) :
  occurs ":" k = false ->
  split ": " (Some 1) (k ++ ": " ++ v)%string = [k; v].
Proof.
  unfold split. induction k as [|c r IH]; intro none.
  - cbn. now destruct v.
  - simpl in none. apply orb_false_iff in none as [cn rn].
    cbn [append split_scan limit_reached]. cbn [prefix].
    destruct (ascii_dec ":" c) as [<-|_]; [discriminate cn|].
    specialize (IH rn). cbn [append] in IH. now rewrite IH.
Qed.

(** The dict built from lines that all split into a key and a value: a key
    that no line carries keeps what [acc] had, and a key carried by some
    line gets the value of the last line that carries it. *)
Lemma dict_of_pairs_last (lines : list string) :
  forall acc : dict string,
    (forall e, In e lines -> exists k v, split ": " (Some 1) e = [k; v]) ->
    exists d,
      dict_of_pairs lines acc = Ok d
      /\ (forall k, (forall e v, In e lines -> split ": " (Some 1) e <> [k; v]) ->
                    get d k = get acc k)
      /\ (forall before e after k v,
             lines = before ++ e :: after ->
             split ": " (Some 1) e = [k; v] ->
             (forall e' v', In e' after -> split ": " (Some 1) e' <> [k; v']) ->
             get d k = Some v).
Proof.
  induction lines as [|e0 lines IH]; intros acc shaped.
  - exists acc. split; [reflexivity|]. split; [reflexivity|].
    intros [|x before] e after k v E; discriminate E.
  - destruct (shaped e0 (or_introl eq_refl)) as (k0 & v0 & S0).
    destruct (IH (set acc k0 v0) (fun e ine => shaped e (or_intror ine)))
      as (d & built & untouched & last).
    exists d. simpl. rewrite S0. simpl. split; [exact built|]. split.
    + intros k absent. rewrite untouched.
      * apply get_set_other. intros ->. exact (absent e0 v0 (or_introl eq_refl) S0).
      * intros e v ine. apply absent. now right.
    + intros [|x before] e after k v E Se later; simpl in E;
        injection E as -> ->.
      * rewrite untouched by exact later.
        rewrite S0 in Se. injection Se as -> ->. apply get_set_same.
      * exact (last before e after k v eq_refl Se later).
Qed.

(** C10. On a readable file whose header entries all have the shape
    [key: value], [read_comment_lines] returns, however many entries share
    a key, and the header maps each key to the value of the last entry
    that carries it. *)
Theorem read_comment_lines_last_wins (w : world) (path text : string) :
  files w path = Ok text ->
  let entries := header_entries (file_lines text) in
  (forall e, In e entries -> exists k v, split ": " (Some 1) e = [k; v]) ->
  exists d n,
    read_comment_lines path w = (Ok (d, n), w)
    /\ forall before e after k v,
        entries = before ++ e :: after ->
        split ": " (Some 1) e = [k; v] ->
        (forall e' v', In e' after -> split ": " (Some 1) e' <> [k; v']) ->
        get d k = Some v.
Proof.
  intros readable entries shaped.
  rewrite (read_comment_lines_run w path text readable). fold entries.
  destruct (dict_of_pairs_last entries empty shaped) as (d & built & _ & last).
  destruct entries as [|e es] eqn:E.
  - exists empty, 0. split; [reflexivity|].
    intros [|x before] e after k v F; discriminate F.
  - unfold make_dict_from_parsed_data. rewrite built.
    exists d, (hash_lines (file_lines text)). split; [reflexivity|exact last].
Qed.

Lemma read_comment_lines_last_wins_witness :
  exists d n,
    read_comment_lines "raw/2024-11-29/repeated.csv"
                       (Sample.fresh Sample.steady_kedro)
    = (Ok (d, n), Sample.fresh Sample.steady_kedro)
    /\ get d "Chip" = Some "B7".
Proof.
  destruct (read_comment_lines_last_wins
              (Sample.fresh Sample.steady_kedro)
              "raw/2024-11-29/repeated.csv" Sample.repeated_key_csv eq_refl)
    as (d & n & run & last).
  - intros e [<-|[<-|[<-|[]]]]; do 2 eexists; reflexivity.
  - exists d, n. split; [exact run|].
    apply (last ["Chip: A1"; "Points: 42"] "Chip: B7" [] "Chip" "B7").
    + reflexivity.
    + reflexivity.
    + intros e' v' [].
Defined.

(** The file with "Chip" on two header lines. *)
Example read_comment_lines_repeated_key :
  read_comment_lines "raw/2024-11-29/repeated.csv" (Sample.fresh Sample.steady_kedro)
  = (Ok ([("Chip", "B7"); ("Points", "42")], 4), Sample.fresh Sample.steady_kedro).
Proof. reflexivity. Qed.

(** ** ExperimentParser: make_props_data *)

Lemma list_contains_In (l : list string) (x : string) :
  list_contains l x = true <-> In x l.
Proof.
  unfold list_contains. rewrite existsb_exists. split.
  - intros (y & iny & same). apply String.eqb_eq in same. now subst.
  - intro inx. exists x. split; [exact inx|apply String.eqb_refl].
Qed.

Lemma union_keys {V : Type} (a b : dict V) (k : string) :
  In k (keys (union a b)) <-> In k (keys a) \/ In k (keys b).
Proof.
  unfold union. revert a. induction b as [|[k0 v0] b IH]; intro a; simpl.
  - tauto.
  - rewrite IH, keys_set. unfold keys at 3. simpl. intuition congruence.
Qed.

Section Parsing.

Context {pd : Pandas}.

(** A header key outside the schema's keys stops the loop with an
    exception, whatever comes before or after it. *)
Lemma coerce_properties_unknown (found : list (string * string))
      (schema_keys : list string) (procedure_dict : dict string)
      (procedure key : string) :
  In key (keys found) -> ~ In key schema_keys ->
  forall props_dict,
  exists e,
    coerce_properties found schema_keys procedure_dict procedure props_dict
    = Raise e.
Proof.
  intros present unknown.
  induction found as [|[k raw] found IH]; intro acc; simpl in *.
  - contradiction.
  - destruct (list_contains schema_keys k) eqn:known; [|eauto].
    destruct (getitem procedure_dict k) as [how|e]; simpl; [|eauto].
    destruct (parse_metadata k raw how) as [v|e]; simpl; [|eauto].
    apply IH. destruct present as [->|later]; [|exact later].
    apply list_contains_In in known. contradiction.
Qed.

(** When the entries before it coerce, the first key outside the schema's
    keys is the one reported. *)
Lemma coerce_properties_first_unknown (before after : list (string * string))
      (key raw : string) (schema_keys : list string)
      (procedure_dict : dict string) (procedure : string) :
  ~ In key schema_keys ->
  (forall k v, In (k, v) before ->
               In k schema_keys
               /\ exists how tv, get procedure_dict k = Some how
                                 /\ parse_metadata k v how = Ok tv) ->
  forall props_dict,
    coerce_properties (before ++ (key, raw) :: after) schema_keys
                      procedure_dict procedure props_dict
    = Raise (KeyError ("Key '" ++ key
                       ++ "' is missing in the configuration file of "
                       ++ procedure ++ ".")).
Proof.
  intros unknown. induction before as [|[k v] before IH]; intros fine acc; simpl.
  - destruct (list_contains schema_keys key) eqn:known; [|reflexivity].
    apply list_contains_In in known. contradiction.
  - destruct (fine k v (or_introl eq_refl)) as (known & how & tv & typed & coerced).
    apply list_contains_In in known. rewrite known.
    unfold getitem. rewrite typed. simpl. rewrite coerced. simpl.
    apply IH. intros k' v' inb. apply fine. now right.
Qed.

(** The steps of [make_props_data] up to the loop over the header. *)
Lemma make_props_data_run (path : string) (w w1 w2 w3 : world)
      (found : dict string) (header : nat) (procedure : string)
      (reg : registry) (definition : procedure_definition) :
  read_comment_lines path w = (Ok (found, header), w1) ->
  determine_procedure path w1 = (Ok procedure, w2) ->
  get_procedures w2 = (Ok (Some reg), w3) ->
  get reg procedure = Some definition ->
  forall e,
    coerce_properties found
                      (keys (Parameters definition) ++ keys (Metadata definition))
                      (union (Parameters definition) (Metadata definition))
                      procedure empty
    = Raise e ->
    make_props_data path w = (Raise e, w3).
Proof.
  intros read determined loaded resolved e stopped.
  pose proof (get_procedures_returns_cache w2 w3 (Some reg) loaded) as hit.
  unfold make_props_data, bind. rewrite read, determined, loaded.
  unfold get_keys, bind. rewrite (get_procedures_cached w3 reg hit).
  unfold contains, lift, lookup_procedure, getitem. rewrite resolved. simpl.
  rewrite stopped. reflexivity.
Qed.

(** C1, as the code has it. When the header of a file has a key outside
    the key set of the resolved schema, [make_props_data] raises and
    returns nothing; and when every header entry before the first such
    key coerces, what it raises is the key-validation error whose message
    names that key and the procedure.  (The header is validated and
    coerced entry by entry, in order.) *)
Theorem make_props_data_unknown_key (path : string) (w w1 w2 w3 : world)
        (found : dict string) (header : nat) (procedure : string)
        (reg : registry) (definition : procedure_definition) :
  read_comment_lines path w = (Ok (found, header), w1) ->
  determine_procedure path w1 = (Ok procedure, w2) ->
  get_procedures w2 = (Ok (Some reg), w3) ->
  get reg procedure = Some definition ->
  let schema_keys := keys (Parameters definition) ++ keys (Metadata definition) in
  let procedure_dict := union (Parameters definition) (Metadata definition) in
  (forall key, In key (keys found) -> ~ In key schema_keys ->
               exists e, make_props_data path w = (Raise e, w3))
  /\ (forall before key raw after,
         found = before ++ (key, raw) :: after ->
         ~ In key schema_keys ->
         (forall k v, In (k, v) before ->
                      exists how tv, get procedure_dict k = Some how
                                     /\ parse_metadata k v how = Ok tv) ->
         make_props_data path w
         = (Raise (KeyError ("Key '" ++ key
                             ++ "' is missing in the configuration file of "
                             ++ procedure ++ ".")), w3)).
Proof.
  intros read determined loaded resolved schema_keys procedure_dict. split.
  - intros key present unknown.
    destruct (coerce_properties_unknown found schema_keys procedure_dict
                procedure key present unknown empty) as (e & stopped).
    exists e.
    exact (make_props_data_run path w w1 w2 w3 found header procedure reg
             definition read determined loaded resolved e stopped).
  - intros before key raw after -> unknown fine.
    apply (make_props_data_run path w w1 w2 w3 _ header procedure reg
             definition read determined loaded resolved).
    apply coerce_properties_first_unknown; [exact unknown|].
    intros k v inb. destruct (fine k v inb) as (how & tv & typed & coerced).
    split; [|eauto].
    assert (ink : In k (keys procedure_dict)) by (apply get_In_keys; eauto).
    apply union_keys in ink. apply in_or_app. exact ink.
Qed.

End Parsing.

Lemma make_props_data_unknown_key_witness :
  make_props_data (pd := Sample.pandas) "raw/2024-11-29/extra.csv"
                  (Sample.fresh Sample.steady_kedro)
  = (Raise (KeyError "Key 'Operator' is missing in the configuration file of ITt."),
     snd (get_procedures (Sample.fresh Sample.steady_kedro))).
Proof.
  refine (proj2 (make_props_data_unknown_key
                   (pd := Sample.pandas)
                   "raw/2024-11-29/extra.csv"
                   (Sample.fresh Sample.steady_kedro)
                   (Sample.fresh Sample.steady_kedro)
                   (Sample.fresh Sample.steady_kedro)
                   (snd (get_procedures (Sample.fresh Sample.steady_kedro)))
                   [("Voltage", "36.5 V"); ("Operator", "Ana")] 3 "ITt"
                   Sample.procedures Sample.ITt _ _ _ _)
                [("Voltage", "36.5 V")] "Operator" "Ana" [] _ _ _).
  - reflexivity.
  - reflexivity.
  - reflexivity.
  - reflexivity.
  - reflexivity.
  - simpl. intros [e|[e|[e|[e|[]]]]]; discriminate e.
  - intros k v [e|[]]. injection e as <- <-.
    exists "float", (VFloat (S754_finite false 5136918324969472 (-47))).
    split; reflexivity.
Defined.

(** The header of this file has the key "Operator", which the schema does
    not know, after an entry whose value is no integer: the error raised is
    that of the integer, not the key-validation error. *)
Lemma make_props_data_other_error :
  fst (read_comment_lines "raw/2024-11-29/bad.csv" (Sample.fresh Sample.steady_kedro))
  = Ok ([("Points", "many"); ("Operator", "Ana")], 3)
  /\ ~ In "Operator" (keys (Parameters Sample.ITt) ++ keys (Metadata Sample.ITt))
  /\ fst (make_props_data (pd := Sample.pandas) "raw/2024-11-29/bad.csv"
                          (Sample.fresh Sample.steady_kedro))
     = Raise (ValueError "invalid literal for int() with base 10: 'many'").
Proof.
  split; [reflexivity|]. split; [|reflexivity].
  simpl. intros [e|[e|[e|[e|[]]]]]; discriminate e.
Qed.

(** ** MetadataParser: determine_procedure *)

Local Open Scope string_scope.

Lemma endswith_suffix (p s : string) :
  endswith p s = true <-> exists a, s = a ++ p.
Proof.
  split.
  - induction s as [|c r IH]; cbn [endswith].
    + rewrite orb_false_r. intro same. apply String.eqb_eq in same.
      exists EmptyString. now subst.
    + intro hit. apply orb_true_iff in hit as [same|deeper].
      * apply String.eqb_eq in same. exists EmptyString. now subst.
      * destruct (IH deeper) as (a & ->). now exists (String c a).
  - intros (a & ->). induction a as [|c a IH].
    + destruct p; cbn [endswith append]; now rewrite String.eqb_refl.
    + cbn [endswith append]. rewrite IH. apply orb_true_r.
Qed.

Lemma is_space_LF : is_space LF = true.
Proof. reflexivity. Qed.

Lemma rstrip_trailing_space (a : string) (c : ascii) :
  is_space c = true -> rstrip (a ++ String c EmptyString) = rstrip a.
Proof.
  intro blank. induction a as [|x a IH]; simpl.
  - now rewrite blank.
  - now rewrite IH.
Qed.

Lemma occurs_rstrip (c : ascii) (s : string) :
  occurs c s = false -> occurs c (rstrip s) = false.
Proof.
  induction s as [|x r IH]; simpl; [reflexivity|].
  intro none. apply orb_false_iff in none as [nx nr].
  specialize (IH nr). destruct (rstrip r) as [|y r'].
  - destruct (is_space x); simpl; [reflexivity|now rewrite nx].
  - simpl in *. now rewrite nx, IH.
Qed.

Lemma occurs_lstrip (c : ascii) (s : string) :
  occurs c s = false -> occurs c (lstrip s) = false.
Proof.
  induction s as [|x r IH]; simpl; [reflexivity|].
  intro none. destruct (is_space x).
  - apply IH. now apply orb_false_iff in none.
  - exact none.
Qed.

(** A line of a text holds no newline, except possibly as its last
    character. *)
Lemma keepends_head (t : string) :
  match keepends t with
  | line :: _ =>
      occurs LF line = false
      \/ exists a, line = a ++ String LF EmptyString /\ occurs LF a = false
  | [] => True
  end.
Proof.
  induction t as [|c r IH]; simpl; [exact I|].
  destruct (Ascii.eqb_spec c LF) as [->|other].
  - right. now exists EmptyString.
  - apply Ascii.eqb_neq in other.
    destruct (keepends r) as [|line rest]; simpl.
    + left. now rewrite other.
    + destruct IH as [none|(a & -> & none)].
      * left. now rewrite other.
      * right. exists (String c a). simpl. now rewrite other.
Qed.

(** The stripped first line holds no newline. *)
Lemma first_line_no_LF (text : string) :
  occurs LF (strip (readline text)) = false.
Proof.
  unfold strip, readline, file_lines.
  pose proof (keepends_head (universal_newlines text)) as shape.
  destruct (keepends (universal_newlines text)) as [|line rest]; [reflexivity|].
  apply occurs_lstrip. destruct shape as [none|(a & -> & none)].
  - now apply occurs_rstrip.
  - rewrite (rstrip_trailing_space a LF is_space_LF). now apply occurs_rstrip.
Qed.

Lemma lazy_until_gt_found (body post : string) :
  occurs ">" body = false -> occurs LF body = false ->
  lazy_until_gt (body ++ String ">" post) = Some body.
Proof.
  induction body as [|c r IH]; simpl; [reflexivity|].
  intros ngt nlf.
  apply orb_false_iff in ngt as [cg rg]. apply orb_false_iff in nlf as [cl rl].
  now rewrite cg, cl, (IH rg rl).
Qed.

Lemma lazy_until_gt_none (s : string) :
  occurs LF s = false -> lazy_until_gt s = None -> occurs ">" s = false.
Proof.
  induction s as [|c r IH]; simpl; [reflexivity|].
  intros nlf. apply orb_false_iff in nlf as [cl rl]. rewrite cl.
  destruct (Ascii.eqb c ">"); [discriminate|].
  destruct (lazy_until_gt r); [discriminate|]. intros _. now apply IH.
Qed.

(** The match starts at the first "<" and ends at the first ">" after
    it. *)
Lemma search_angle_found (pre body post : string) :
  occurs "<" pre = false -> occurs ">" body = false -> occurs LF body = false ->
  search_angle (pre ++ String "<" (body ++ String ">" post)) = Some body.
Proof.
  intros nlt ngt nlf. induction pre as [|c r IH]; simpl.
  - now rewrite (lazy_until_gt_found body post ngt nlf).
  - simpl in nlt. apply orb_false_iff in nlt as [cl rl]. rewrite cl. now apply IH.
Qed.

(** No match, on a text without newline, only when no ">" comes after a
    "<". *)
Lemma search_angle_none (s : string) :
  occurs LF s = false -> search_angle s = None ->
  forall pre body post, s <> pre ++ String "<" (body ++ String ">" post).
Proof.
  induction s as [|c r IH]; intros nlf none pre body post E.
  - destruct pre; discriminate E.
  - simpl in nlf. apply orb_false_iff in nlf as [cl rl]. simpl in none.
    destruct pre as [|x pre]; simpl in E; injection E as -> ->.
    + simpl in none. destruct (lazy_until_gt (body ++ String ">" post)) eqn:L;
        [discriminate|].
      apply (lazy_until_gt_none _ rl) in L. rewrite occurs_app in L. simpl in L.
      now rewrite orb_true_r in L.
    + apply (IH rl) with (pre := pre) (body := body) (post := post);
        [|reflexivity].
      destruct (Ascii.eqb x "<"); [|exact none].
      destruct (lazy_until_gt (pre ++ String "<" (body ++ String ">" post)));
        [discriminate|exact none].
Qed.

(** Splitting on one character. *)
Lemma split_char_step (d c : ascii) (r : string) :
  split (String d EmptyString) None (String c r)
  = if Ascii.eqb c d then EmptyString :: split (String d EmptyString) None r
    else push_head c (split (String d EmptyString) None r).
Proof.
  unfold split. cbn [split_scan limit_reached].
  rewrite prefix_single. reflexivity.
Qed.

Lemma split_char_nonempty (d : ascii) (s : string) :
  split (String d EmptyString) None s <> [].
Proof.
  induction s as [|c r IH].
  - discriminate.
  - rewrite split_char_step. destruct (Ascii.eqb c d); [discriminate|].
    destruct (split (String d EmptyString) None r); [contradiction|discriminate].
Qed.

Lemma split_char_absent (d : ascii) (s : string) :
  occurs d s = false -> split (String d EmptyString) None s = [s].
Proof.
  induction s as [|c r IH]; [reflexivity|]. simpl. intro none.
  apply orb_false_iff in none as [cd rd].
  now rewrite split_char_step, cd, (IH rd).
Qed.

(** The last segment is the text after the last separator. *)
Lemma split_char_last (d : ascii) (a b : string) :
  occurs d b = false ->
  exists front,
    split (String d EmptyString) None (a ++ String d b) = (front ++ [b])%list
    /\ front <> [].
Proof.
  intro none. induction a as [|c r (front & E & some)].
  - exists [EmptyString]. simpl. rewrite split_char_step, Ascii.eqb_refl.
    rewrite (split_char_absent d b none). split; [reflexivity|discriminate].
  - simpl. rewrite split_char_step, E. destruct (Ascii.eqb c d).
    + exists (EmptyString :: front). split; [reflexivity|discriminate].
    + destruct front as [|x front]; [contradiction|].
      exists (String c x :: front). split; [reflexivity|discriminate].
Qed.

Lemma index_last {A : Type} (front : list A) (x : A) :
  PyList.index (front ++ [x])%list (-1) = Ok x.
Proof.
  unfold PyList.index. rewrite length_app, Nat.add_comm. cbn [List.length Nat.add].
  change (-1 <? 0)%Z with true. cbv iota.
  replace (-1 + Z.of_nat (S (List.length front)))%Z
    with (Z.of_nat (List.length front)) by lia.
  rewrite Nat2Z.id, nth_error_app2, Nat.sub_diag by lia. cbn [nth_error].
  destruct ((0 <=? Z.of_nat (List.length front))%Z
            && (Z.of_nat (List.length front) <? Z.of_nat (S (List.length front)))%Z)
    eqn:range; [reflexivity|].
  apply andb_false_iff in range as [low|high].
  - apply Z.leb_gt in low. lia.
  - apply Z.ltb_ge in high. lia.
Qed.

(** The text after the last "." of [content], all of it when it has no
    ".": what [content.split(".")[-1]] gives. *)
Lemma last_dot_segment (content : string) :
  (forall a b, content = a ++ String "." b -> occurs "." b = false ->
               PyList.index (split "." None content) (-1) = Ok b)
  /\ (occurs "." content = false ->
      PyList.index (split "." None content) (-1) = Ok content).
Proof.
  split.
  - intros a b -> none.
    destruct (split_char_last "." a b none) as (front & -> & _).
    apply index_last.
  - intro none. rewrite (split_char_absent "." content none).
    exact (index_last [] content).
Qed.

Lemma lazy_until_gt_sound (s g : string) :
  lazy_until_gt s = Some g ->
  occurs ">" g = false /\ exists post, s = g ++ String ">" post.
Proof.
  revert g. induction s as [|c r IH]; simpl; intros g L; [discriminate|].
  destruct (Ascii.eqb_spec c ">") as [->|other].
  - injection L as <-. split; [reflexivity|now exists r].
  - destruct (Ascii.eqb c LF); [discriminate|].
    destruct (lazy_until_gt r) as [g'|]; [|discriminate].
    injection L as <-. destruct (IH g' eq_refl) as (none & post & ->).
    split; [|now exists post].
    simpl. rewrite none. apply Ascii.eqb_neq in other. now rewrite other.
Qed.

Lemma search_angle_no_gt (s : string) :
  occurs ">" s = false -> search_angle s = None.
Proof.
  induction s as [|c r IH]; simpl; [reflexivity|].
  intro none. apply orb_false_iff in none as [_ none].
  destruct (Ascii.eqb c "<"); [|now apply IH].
  destruct (lazy_until_gt r) as [g|] eqn:L; [|now apply IH].
  destruct (lazy_until_gt_sound r g L) as (_ & post & ->).
  rewrite occurs_app in none. simpl in none. now rewrite orb_true_r in none.
Qed.

(** On a text without newline, what is matched stands between the first
    "<" and the next ">". *)
Lemma search_angle_sound (s g : string) :
  occurs LF s = false -> search_angle s = Some g ->
  exists pre post,
    s = pre ++ String "<" (g ++ String ">" post)
    /\ occurs "<" pre = false /\ occurs ">" g = false.
Proof.
  induction s as [|c r IH]; simpl; intros nlf S; [discriminate|].
  apply orb_false_iff in nlf as [_ nlf].
  destruct (Ascii.eqb_spec c "<") as [->|other].
  - destruct (lazy_until_gt r) as [g'|] eqn:L.
    + injection S as ->. destruct (lazy_until_gt_sound r g L) as (none & post & ->).
      now exists EmptyString, post.
    + rewrite (search_angle_no_gt r (lazy_until_gt_none r nlf L)) in S.
      discriminate S.
  - destruct (IH nlf S) as (pre & post & -> & nlt & ngt).
    exists (String c pre), post. split; [reflexivity|]. split; [|exact ngt].
    simpl. rewrite nlt. apply Ascii.eqb_neq in other. now rewrite other.
Qed.

(** C7. [determine_procedure] raises for every path that does not end in
    ".csv".  For a ".csv" file it looks at the stripped first line: when a
    ">" follows a "<" there, it returns the text after the last "." of
    what stands between the first "<" and the next ">" (all of it when it
    has no "."), and warns of nothing; when no ">" follows a "<", it
    returns the empty string and emits one warning, raising nothing. *)
Theorem determine_procedure_result (w : world) (path : string) :
  ((forall a, path <> a ++ ".csv") ->
   determine_procedure path w
   = (Raise (ValueError ("The file '" ++ path
                         ++ "' is not a CSV. Please provide a valid .csv file.")),
      w))
  /\ (forall a text,
         path = a ++ ".csv" -> files w path = Ok text ->
         let first_line := strip (readline text) in
         (forall pre body post,
             first_line = pre ++ String "<" (body ++ String ">" post) ->
             exists pre' body' post',
               first_line = pre' ++ String "<" (body' ++ String ">" post')
               /\ occurs "<" pre' = false /\ occurs ">" body' = false)
         /\ (forall pre body post,
                first_line = pre ++ String "<" (body ++ String ">" post) ->
                occurs "<" pre = false -> occurs ">" body = false ->
                (forall x y, body = x ++ String "." y -> occurs "." y = false ->
                             determine_procedure path w = (Ok y, w))
                /\ (occurs "." body = false ->
                    determine_procedure path w = (Ok body, w)))
         /\ ((forall pre body post,
                 first_line <> pre ++ String "<" (body ++ String ">" post)) ->
             determine_procedure path w
             = (Ok EmptyString,
                snd (emit (UserWarning "No content found between < and >") w)))).
Proof.
  split.
  - intro other. unfold determine_procedure.
    destruct (endswith ".csv" path) eqn:E; [|reflexivity].
    apply endswith_suffix in E as (a & ->). now elim (other a).
  - intros a text is_csv readable first_line.
    assert (E : endswith ".csv" path = true)
      by (apply endswith_suffix; now exists a).
    assert (run : determine_procedure path w
                  = match search_angle first_line with
                    | Some content =>
                        (PyList.index (split "." None content) (-1), w)
                    | None =>
                        (Ok EmptyString,
                         snd (emit (UserWarning "No content found between < and >")
                                   w))
                    end).
    { unfold determine_procedure. rewrite E. cbn [negb].
      unfold bind, open_text. rewrite readable. fold first_line.
      destruct (search_angle first_line); reflexivity. }
    pose proof (first_line_no_LF text) as nlf. fold first_line in nlf.
    split; [|split].
    + intros pre body post shape.
      destruct (search_angle first_line) as [content|] eqn:S.
      * destruct (search_angle_sound first_line content nlf S)
          as (pre' & post' & shape' & nlt & ngt).
        now exists pre', content, post'.
      * now elim (search_angle_none first_line nlf S pre body post).
    + intros pre body post shape nlt ngt.
      assert (nlf_body : occurs LF body = false).
      { rewrite shape, occurs_app in nlf. apply orb_false_iff in nlf as [_ nlf].
        simpl in nlf. rewrite occurs_app in nlf.
        apply orb_false_iff in nlf as [nlf _]. exact nlf. }
      rewrite run, shape, (search_angle_found pre body post nlt ngt nlf_body).
      destruct (last_dot_segment body) as [dotted plain]. split.
      * intros x y Eb none. now rewrite (dotted x y Eb none).
      * intro none. now rewrite (plain none).
    + intro none. rewrite run.
      destruct (search_angle first_line) as [content|] eqn:S; [|reflexivity].
      destruct (search_angle_sound first_line content nlf S)
        as (pre & post & shape & _).
      now elim (none pre content post).
Qed.

Lemma determine_procedure_result_witness :
  determine_procedure "raw/2024-11-29/notes.txt" (Sample.fresh Sample.steady_kedro)
  = (Raise (ValueError ("The file 'raw/2024-11-29/notes.txt' is not a CSV. "
                        ++ "Please provide a valid .csv file.")),
     Sample.fresh Sample.steady_kedro)
  /\ determine_procedure "raw/2024-11-29/bracket.csv"
                         (Sample.fresh Sample.steady_kedro)
     = (Ok "ITt", Sample.fresh Sample.steady_kedro)
  /\ determine_procedure "raw/2024-11-29/nobracket.csv"
                         (Sample.fresh Sample.steady_kedro)
     = (Ok "",
        snd (emit (UserWarning "No content found between < and >")
                  (Sample.fresh Sample.steady_kedro))).
Proof.
  split; [|split].
  - apply (proj1 (determine_procedure_result
                    (Sample.fresh Sample.steady_kedro) "raw/2024-11-29/notes.txt")).
    intros a E.
    assert (hit : endswith ".csv" "raw/2024-11-29/notes.txt" = true)
      by (apply endswith_suffix; now exists a).
    discriminate hit.
  - apply (proj1 (proj1 (proj2 (proj2 (determine_procedure_result
                    (Sample.fresh Sample.steady_kedro)
                    "raw/2024-11-29/bracket.csv")
                    "raw/2024-11-29/bracket" Sample.bracket_csv eq_refl eq_refl))
                    "Result: " "lab.instr.ITt" "" eq_refl eq_refl eq_refl)
                 "lab.instr" "ITt" eq_refl eq_refl).
  - apply (proj2 (proj2 (proj2 (determine_procedure_result
                    (Sample.fresh Sample.steady_kedro)
                    "raw/2024-11-29/nobracket.csv")
                    "raw/2024-11-29/nobracket" Sample.no_bracket_csv
                    eq_refl eq_refl))).
    intros pre body post E.
    assert (hit : occurs "<" (strip (readline Sample.no_bracket_csv)) = true).
    { rewrite E, occurs_app. simpl. apply orb_true_r. }
    discriminate hit.
Defined.

(** The first line "Result: <lab.instr.ITt>" gives "ITt". *)
Example determine_procedure_ITt :
  fst (determine_procedure "raw/2024-11-29/bracket.csv"
                           (Sample.fresh Sample.steady_kedro))
  = Ok "ITt".
Proof. reflexivity. Qed.

(** ** MetadataParser: get_data_key *)

Lemma index_first {A : Type} (x : A) (l : list A) :
  PyList.index (x :: l) 0 = Ok x.
Proof.
  unfold PyList.index. cbn [List.length]. change (0 <? 0)%Z with false.
  cbv iota. change (0 <=? 0)%Z with true.
  replace (0 <? Z.of_nat (S (List.length l)))%Z with true; [reflexivity|].
  symmetry. apply Z.ltb_lt. lia.
Qed.

Lemma index_last_but_one {A : Type} (front : list A) (x y : A) :
  PyList.index (front ++ [x; y])%list (-2) = Ok x.
Proof.
  unfold PyList.index. rewrite length_app, Nat.add_comm. cbn [List.length Nat.add].
  change (-2 <? 0)%Z with true. cbv iota.
  replace (-2 + Z.of_nat (S (S (List.length front))))%Z
    with (Z.of_nat (List.length front)) by lia.
  rewrite Nat2Z.id, nth_error_app2, Nat.sub_diag by lia. cbn [nth_error].
  destruct ((0 <=? Z.of_nat (List.length front))%Z
            && (Z.of_nat (List.length front)
                <? Z.of_nat (S (S (List.length front))))%Z)
    eqn:range; [reflexivity|].
  apply andb_false_iff in range as [low|high].
  - apply Z.leb_gt in low. lia.
  - apply Z.ltb_ge in high. lia.
Qed.

(** The first segment is the text before the first separator. *)
Lemma split_char_first (d : ascii) (a b : string) :
  occurs d a = false ->
  exists back, split (String d EmptyString) None (a ++ String d b) = a :: back.
Proof.
  induction a as [|c r IH]; simpl; intro none.
  - rewrite split_char_step, Ascii.eqb_refl. eauto.
  - apply orb_false_iff in none as [cd rd]. destruct (IH rd) as (back & E).
    rewrite split_char_step, cd, E. simpl. eauto.
Qed.

Lemma append_assoc (a b c : string) : (a ++ b) ++ c = a ++ (b ++ c).
Proof.
  induction a as [|x a IH]; simpl; [reflexivity|now rewrite IH].
Qed.

(** The last two segments of [dir ++ folder ++ "/" ++ file], where [dir]
    is empty or ends with the separator. *)
Lemma split_char_last_two (d : ascii) (dir folder file : string) :
  dir = EmptyString \/ (exists p, dir = p ++ String d EmptyString) ->
  occurs d folder = false -> occurs d file = false ->
  exists front,
    split (String d EmptyString) None (dir ++ folder ++ String d file)
    = (front ++ [folder; file])%list.
Proof.
  intros shape nfolder nfile.
  assert (tail : split (String d EmptyString) None (folder ++ String d file)
                 = [folder; file]).
  { clear shape. induction folder as [|c r IH]; simpl.
    - now rewrite split_char_step, Ascii.eqb_refl, (split_char_absent d file nfile).
    - simpl in nfolder. apply orb_false_iff in nfolder as [cd rd].
      now rewrite split_char_step, cd, (IH rd). }
  destruct shape as [->|(p & ->)].
  - exists []. exact tail.
  - rewrite append_assoc. simpl.
    assert (deep : exists front,
               split (String d EmptyString) None
                     (p ++ String d (folder ++ String d file))
               = (front ++ [folder; file])%list /\ front <> []).
    { induction p as [|c r (front & E & some)]; simpl.
      - exists [EmptyString].
        rewrite split_char_step, Ascii.eqb_refl, tail.
        split; [reflexivity|discriminate].
      - rewrite split_char_step, E. destruct (Ascii.eqb c d).
        + exists (EmptyString :: front). split; [reflexivity|discriminate].
        + destruct front as [|x front]; [contradiction|].
          exists (String c x :: front). split; [reflexivity|discriminate]. }
    destruct deep as (front & E & _). now exists front.
Qed.

Lemma os_path_join_plain (folder name : string) :
  folder <> EmptyString -> occurs "/" folder = false -> occurs "/" name = false ->
  os_path_join folder name = folder ++ "/" ++ name.
Proof.
  intros some nfolder nname. unfold os_path_join, startswith.
  assert (E1 : prefix "/" name = false).
  { destruct name as [|c r]; [reflexivity|]. rewrite prefix_single.
    simpl in nname. now apply orb_false_iff in nname. }
  assert (E2 : (folder =? "") = false) by now apply String.eqb_neq.
  assert (E3 : endswith "/" folder = false).
  { destruct (endswith "/" folder) eqn:E; [|reflexivity].
    apply endswith_suffix in E as (a & ->).
    rewrite occurs_app in nfolder. simpl in nfolder.
    now rewrite orb_true_r in nfolder. }
  now rewrite E1, E2, E3.
Qed.

(** What [get_data_key] returns: the last but one segment of the path,
    joined with the text of the last segment before its first "."; and
    nothing for a path without separator. *)
Lemma get_data_key_segments (dir folder name rest : string) :
  dir = EmptyString \/ (exists p, dir = p ++ "/") ->
  occurs "/" folder = false ->
  occurs "/" name = false -> occurs "." name = false ->
  occurs "/" rest = false ->
  rest = EmptyString \/ (exists r, rest = String "." r) ->
  get_data_key (dir ++ folder ++ "/" ++ name ++ rest)
  = Ok (os_path_join folder name).
Proof.
  intros shape nfolder nname dotless nrest ext.
  assert (nfile : occurs "/" (name ++ rest) = false)
    by now rewrite occurs_app, nname, nrest.
  destruct (split_char_last_two "/" dir folder (name ++ rest) shape nfolder nfile)
    as (front & E).
  unfold get_data_key. cbn [append] in *. rewrite E.
  replace (front ++ [folder; (name ++ rest)%string])%list
    with ((front ++ [folder]) ++ [(name ++ rest)%string])%list
    by now rewrite <- app_assoc.
  rewrite index_last. cbn [and_then].
  assert (first : PyList.index (split "." None (name ++ rest)) 0 = Ok name).
  { destruct ext as [->|(r & ->)].
    - replace (name ++ "") with name by (clear; induction name; simpl; congruence).
      rewrite (split_char_absent "." name dotless). apply index_first.
    - destruct (split_char_first "." name r dotless) as (back & ->).
      apply index_first. }
  rewrite first. cbn [and_then]. rewrite <- app_assoc. cbn [app].
  now rewrite index_last_but_one.
Qed.

Lemma get_data_key_one_segment (path : string) :
  occurs "/" path = false ->
  get_data_key path = Raise (IndexError "list index out of range").
Proof.
  intro none. unfold get_data_key. rewrite (split_char_absent "/" path none).
  pose proof (index_last [] path) as last. cbn [app] in last.
  rewrite last. cbn [and_then].
  destruct (split "." None path) as [|x l] eqn:S;
    [now elim (split_char_nonempty "." path)|].
  rewrite index_first. reflexivity.
Qed.

(** C8, on file names with more than one dot. The docstring of
    [get_data_key] promises the folder name and the file name without
    extension; the code cuts the file name at its first ".": for
    "a/b/c.d.csv" the key is "b/c", not "b/c.d", a file name that carries
    decimal numbers loses all that follows the first of them, and two
    files of one folder that differ after the first dot get the same
    key. *)
Theorem get_data_key_cuts_at_first_dot :
  get_data_key "a/b/c.d.csv" = Ok "b/c"
  /\ get_data_key "raw/2024-11-29/ITt_0.5V_1.5s.csv" = Ok "2024-11-29/ITt_0"
  /\ get_data_key "raw/2024-11-29/x.1.csv" = get_data_key "raw/2024-11-29/x.2.csv".
Proof. repeat split. Qed.

(** The path of the docstring. *)
Example get_data_key_docstring :
  get_data_key ("/home/user/documents/nanolab_processing_base/data/01_raw/"
                ++ "project_name/2024-11-29/ITt2024-11-29_1.csv")
  = Ok "2024-11-29/ITt2024-11-29_1".
Proof. reflexivity. Qed.

(** ** A whole file *)

(** A well-formed export is parsed into its typed properties, to which the
    data key and the procedure are added; the registry is loaded on the
    way and stays cached. *)
Example make_props_data_good :
  let run := make_props_data (pd := Sample.pandas) "raw/2024-11-29/good.csv"
                             (Sample.fresh Sample.steady_kedro) in
  fst run
  = Ok ([("Voltage", VFloat (S754_finite false 5136918324969472 (-47)));
         ("Points", VInt 42);
         ("Chip", VStr "A1");
         ("data_key", VStr "2024-11-29/good");
         ("Procedure type", VStr "ITt")],
        Sample.good_csv)
  /\ cached_procedures (snd run) = Some Sample.procedures
  /\ catalog_loads (snd run) = 1.
Proof. repeat split. Qed.

(* ================================================================== *)
(** * Further properties                                                *)
(* ================================================================== *)

(** ** get_data_key *)

Lemma split_char_two (d : ascii) (s : string) :
  occurs d s = true ->
  exists front x y, split (String d EmptyString) None s = (front ++ [x; y])%list.
Proof.
  induction s as [|c r IH]; simpl; [discriminate|].
  rewrite split_char_step. intro present.
  destruct (Ascii.eqb c d) eqn:E.
  - destruct (occurs d r) eqn:deeper.
    + destruct (IH eq_refl) as (front & x & y & ->).
      now exists (EmptyString :: front), x, y.
    + rewrite (split_char_absent d r deeper). now exists [], EmptyString, r.
  - simpl in present. destruct (IH present) as (front & x & y & ->).
    destruct front as [|f front]; simpl.
    + now exists [], (String c x), y.
    + now exists (String c f :: front), x, y.
Qed.

(** X1. [get_data_key] uses the last two segments of the path and nothing
    else: for a path [dir ++ folder ++ "/" ++ name ++ rest], where [rest]
    is empty or starts at the first "." of the file name, the key is
    [folder] joined to [name], whatever [dir] is; joined with a "/" when
    [folder] is not empty, and [name] alone when it is (a file directly
    under the root, or after a doubled separator). *)
Theorem get_data_key_last_two_segments (dir folder name rest : string) :
  dir = EmptyString \/ (exists p, dir = p ++ "/") ->
  occurs "/" folder = false ->
  occurs "/" name = false -> occurs "." name = false ->
  occurs "/" rest = false ->
  rest = EmptyString \/ (exists r, rest = String "." r) ->
  get_data_key (dir ++ folder ++ "/" ++ name ++ rest) = Ok (os_path_join folder name)
  /\ (folder <> EmptyString -> os_path_join folder name = folder ++ "/" ++ name)
  /\ (folder = EmptyString -> os_path_join folder name = name).
Proof.
  intros shape nfolder nname dotless nrest ext. split; [|split].
  - now apply get_data_key_segments.
  - intro some. now apply os_path_join_plain.
  - intros ->. unfold os_path_join, startswith.
    destruct name as [|c r]; [reflexivity|]. rewrite prefix_single.
    simpl in nname. apply orb_false_iff in nname as [-> _]. reflexivity.
Qed.

Lemma get_data_key_last_two_segments_witness :
  get_data_key "/home/user/2024-11-29/ITt_1.v2.csv" = Ok "2024-11-29/ITt_1"
  /\ get_data_key "/ITt_1.csv" = Ok "ITt_1".
Proof.
  split.
  - pose proof (get_data_key_last_two_segments
                  "/home/user/" "2024-11-29" "ITt_1" ".v2.csv"
                  (or_intror (ex_intro _ "/home/user" eq_refl))
                  eq_refl eq_refl eq_refl eq_refl
                  (or_intror (ex_intro _ "v2.csv" eq_refl)))
      as (run & plain & _).
    rewrite plain in run by discriminate. exact run.
  - pose proof (get_data_key_last_two_segments
                  "" "" "ITt_1" ".csv" (or_introl eq_refl)
                  eq_refl eq_refl eq_refl eq_refl
                  (or_intror (ex_intro _ "csv" eq_refl)))
      as (run & _ & bare).
    rewrite (bare eq_refl) in run. exact run.
Defined.

(** X2. [get_data_key] returns a key for every path that holds a "/", and
    raises [IndexError] for every path that holds none (a bare file
    name). *)
Theorem get_data_key_needs_separator (path : string) :
  (occurs "/" path = true -> exists key, get_data_key path = Ok key)
  /\ (occurs "/" path = false ->
      get_data_key path = Raise (IndexError "list index out of range")).
Proof.
  split; [|apply get_data_key_one_segment].
  intro present. destruct (split_char_two "/" path present) as (front & x & y & E).
  unfold get_data_key. rewrite E.
  replace (front ++ [x; y])%list with ((front ++ [x]) ++ [y])%list
    by now rewrite <- app_assoc.
  rewrite index_last. cbn [and_then].
  destruct (split "." None y) as [|z l] eqn:S;
    [now elim (split_char_nonempty "." y)|].
  rewrite index_first. cbn [and_then].
  rewrite <- app_assoc. cbn [app]. rewrite index_last_but_one.
  eexists. reflexivity.
Qed.

Lemma get_data_key_needs_separator_witness :
  (exists key, get_data_key "run/ITt.csv" = Ok key)
  /\ get_data_key "ITt.csv" = Raise (IndexError "list index out of range").
Proof.
  split.
  - now apply (proj1 (get_data_key_needs_separator "run/ITt.csv")).
  - now apply (proj2 (get_data_key_needs_separator "ITt.csv")).
Defined.

(** ** make_dict_from_parsed_data *)

Lemma prefix_colon_blank (s : string) :
  prefix ": " s = true <-> exists r, s = String ":" (String " " r).
Proof.
  destruct s as [|c [|c2 r]]; cbn [prefix].
  - split; [discriminate|intros (r & E); discriminate E].
  - destruct (ascii_dec ":" c); (split; [discriminate|intros (r & E); discriminate E]).
  - destruct (ascii_dec ":" c) as [<-|n1].
    + destruct (ascii_dec " " c2) as [<-|n2].
      * split; [now exists r|now destruct r].
      * split; [discriminate|]. intros (r' & E). injection E as E _. congruence.
    + split; [discriminate|]. intros (r' & E). injection E as E _. congruence.
Qed.

(** [pair.split(": ", 1)] gives the text itself when it holds no ": ", and
    otherwise the two parts around one ": ". *)
Lemma split_once_cases (s : string) :
  split ": " (Some 1) s = [s]
  \/ exists k v, split ": " (Some 1) s = [k; v] /\ s = k ++ ": " ++ v.
Proof.
  unfold split. induction s as [|c r IH]; [now left|].
  cbn [split_scan limit_reached].
  destruct (prefix ": " (String c r)) eqn:P.
  - right. apply prefix_colon_blank in P as (r' & E). injection E as -> ->.
    exists EmptyString, r'. split; [|reflexivity]. cbn. now destruct r'.
  - destruct IH as [->|(k & v & -> & ->)].
    + now left.
    + right. now exists (String c k), v.
Qed.

Lemma split_once_found (k v : string) :
  exists k' v', split ": " (Some 1) (k ++ ": " ++ v) = [k'; v'].
Proof.
  unfold split. induction k as [|c r (k' & v' & IH)].
  - exists EmptyString, v. cbn. now destruct v.
  - cbn [append split_scan limit_reached].
    destruct (prefix ": " (String c (r ++ String ":" (String " " v)))) eqn:P.
    + apply prefix_colon_blank in P as (r' & E). injection E as _ E.
      rewrite E. exists EmptyString, r'. cbn. now destruct r'.
    + cbn [append] in IH. rewrite IH. now exists (String c k'), v'.
Qed.

Lemma split_once_absent (s : string) :
  (forall k v, s <> k ++ ": " ++ v) -> split ": " (Some 1) s = [s].
Proof.
  intro none. destruct (split_once_cases s) as [E|(k & v & _ & E)];
    [exact E|now elim (none k v)].
Qed.

Lemma dict_of_pairs_fails (lines : list string) :
  (exists e, In e lines /\ forall k v, e <> k ++ ": " ++ v) ->
  forall acc, exists m, dict_of_pairs lines acc = Raise (ValueError m).
Proof.
  intros (e & ine & none). induction lines as [|e0 lines IH]; intro acc.
  - contradiction.
  - simpl. destruct (split_once_cases e0) as [->|(k & v & -> & E0)].
    + simpl. eauto.
    + simpl. destruct ine as [->|later]; [now elim (none k v)|]. now apply IH.
Qed.

Lemma dict_of_pairs_succeeds (lines : list string) :
  (forall e, In e lines -> exists k v, e = k ++ ": " ++ v) ->
  forall acc, exists d, dict_of_pairs lines acc = Ok d.
Proof.
  induction lines as [|e0 lines IH]; intros shaped acc; simpl.
  - eauto.
  - destruct (shaped e0 (or_introl eq_refl)) as (k & v & ->).
    destruct (split_once_found k v) as (k' & v' & ->). simpl.
    apply IH. intros e ine. apply shaped. now right.
Qed.

(** X3. [make_dict_from_parsed_data] returns a dict exactly when every
    line holds a ": "; as soon as one line holds none it raises the
    [ValueError] "Each line must contain a key and a value separated by
    ': '.", wherever that line stands. *)
Theorem make_dict_from_parsed_data_shape (list_of_lines : list string) :
  ((forall e, In e list_of_lines -> exists k v, e = k ++ ": " ++ v) ->
   exists d, make_dict_from_parsed_data list_of_lines = Ok d)
  /\ ((exists e, In e list_of_lines /\ forall k v, e <> k ++ ": " ++ v) ->
      make_dict_from_parsed_data list_of_lines
      = Raise (ValueError
                 "Each line must contain a key and a value separated by ': '.")).
Proof.
  unfold make_dict_from_parsed_data. split.
  - intro shaped.
    destruct (dict_of_pairs_succeeds list_of_lines shaped empty) as (d & ->).
    now exists d.
  - intro broken.
    destruct (dict_of_pairs_fails list_of_lines broken empty) as (m & ->).
    reflexivity.
Qed.

Lemma make_dict_from_parsed_data_shape_witness :
  (exists d, make_dict_from_parsed_data ["Chip: A1"; "Note: a: b"] = Ok d)
  /\ make_dict_from_parsed_data ["Chip: A1"; "Comment:"; "Points: 3"]
     = Raise (ValueError
                "Each line must contain a key and a value separated by ': '.").
Proof.
  split.
  - apply (proj1 (make_dict_from_parsed_data_shape ["Chip: A1"; "Note: a: b"])).
    intros e [<-|[<-|[]]].
    + now exists "Chip", "A1".
    + now exists "Note", "a: b".
  - apply (proj2 (make_dict_from_parsed_data_shape
                    ["Chip: A1"; "Comment:"; "Points: 3"])).
    exists "Comment:". split; [simpl; tauto|].
    intros k v E.
    assert (blank : occurs " " "Comment:" = true).
    { rewrite E, occurs_app. simpl. apply orb_true_r. }
    discriminate blank.
Defined.

Lemma keys_set_fresh {V : Type} (d : dict V) (k : string) (v : V) :
  ~ In k (keys d) -> set d k v = (d ++ [(k, v)])%list.
Proof.
  unfold keys. induction d as [|[k0 v0] d IH]; simpl; intro fresh.
  - reflexivity.
  - destruct (String.eqb_spec k0 k) as [->|_]; [tauto|].
    rewrite IH by tauto. reflexivity.
Qed.

Lemma keys_set_present {V : Type} (d : dict V) (k : string) (v : V) :
  In k (keys d) -> keys (set d k v) = keys d.
Proof.
  unfold keys. induction d as [|[k0 v0] d IH]; simpl; intro present.
  - contradiction.
  - destruct (String.eqb_spec k0 k) as [->|ne]; simpl; [reflexivity|].
    rewrite IH; [reflexivity|]. destruct present; [contradiction|assumption].
Qed.

Lemma set_NoDup {V : Type} (d : dict V) (k : string) (v : V) :
  NoDup (keys d) -> NoDup (keys (set d k v)).
Proof.
  intro nd. destruct (in_dec string_dec k (keys d)) as [present|fresh].
  - now rewrite keys_set_present.
  - rewrite (keys_set_fresh d k v fresh). unfold keys in *. rewrite map_app.
    simpl. apply NoDup_app; [exact nd|repeat constructor; tauto|].
    intros x inx [<-|[]]. contradiction.
Qed.

Lemma dict_of_pairs_keys (lines : list string) :
  forall acc d,
    dict_of_pairs lines acc = Ok d ->
    NoDup (keys acc) ->
    NoDup (keys d)
    /\ forall k, In k (keys d) ->
                 In k (keys acc)
                 \/ exists e v, In e lines /\ e = k ++ ": " ++ v.
Proof.
  induction lines as [|e0 lines IH]; intros acc d; simpl.
  - intros E nd. injection E as <-. split; [exact nd|tauto].
  - destruct (split_once_cases e0) as [->|(k0 & v0 & -> & E0)]; simpl;
      [discriminate|].
    intros built nd.
    destruct (IH _ _ built (set_NoDup acc k0 v0 nd)) as (ndd & from).
    split; [exact ndd|]. intros k ink.
    destruct (from k ink) as [inset|(e & v & ine & shape)].
    + apply keys_set in inset as [->|inacc]; [|now left].
      right. exists e0, v0. split; [now left|exact E0].
    + right. exists e, v. split; [now right|exact shape].
Qed.

(** X4. The dict that [make_dict_from_parsed_data] returns has no key
    twice, and each of its keys is the text before a ": " of one of the
    lines. *)
Theorem make_dict_from_parsed_data_keys (list_of_lines : list string)
        (d : dict string) :
  make_dict_from_parsed_data list_of_lines = Ok d ->
  NoDup (keys d)
  /\ forall k, In k (keys d) ->
               exists e v, In e list_of_lines /\ e = k ++ ": " ++ v.
Proof.
  unfold make_dict_from_parsed_data.
  destruct (dict_of_pairs list_of_lines empty) as [d'|e] eqn:built.
  - intro E. injection E as <-.
    destruct (dict_of_pairs_keys list_of_lines empty d' built (NoDup_nil _))
      as (nd & from).
    split; [exact nd|]. intros k ink. destruct (from k ink) as [[]|found].
    exact found.
  - destruct (is_ValueError e); discriminate.
Qed.

Lemma make_dict_from_parsed_data_keys_witness :
  NoDup (keys [("Chip", "B7"); ("Points", "42")])
  /\ forall k, In k (keys [("Chip", "B7"); ("Points", "42")]) ->
               exists e v, In e ["Chip: A1"; "Points: 42"; "Chip: B7"]
                           /\ e = k ++ ": " ++ v.
Proof.
  apply (make_dict_from_parsed_data_keys ["Chip: A1"; "Points: 42"; "Chip: B7"]).
  reflexivity.
Defined.

Lemma dict_of_pairs_written (d : dict string) :
  forall acc,
    NoDup (keys acc ++ keys d)%list ->
    (forall k, In k (keys d) -> occurs ":" k = false) ->
    dict_of_pairs (map (fun kv => fst kv ++ ": " ++ snd kv) d) acc
    = Ok (acc ++ d)%list.
Proof.
  induction d as [|[k v] d IH]; intros acc nd plain;
    cbn [map dict_of_pairs fst snd].
  - now rewrite app_nil_r.
  - rewrite (split_key_value k v) by (apply plain; now left).
    cbn [unpack2 and_then fst snd].
    unfold keys in *. simpl in nd.
    assert (fresh : ~ In k (map fst acc)).
    { apply NoDup_remove_2 in nd. intro ink. apply nd.
      apply in_or_app. now left. }
    rewrite (keys_set_fresh acc k v fresh).
    rewrite IH.
    + now rewrite <- app_assoc.
    + rewrite map_app. simpl. rewrite <- app_assoc. exact nd.
    + intros k' ink. apply plain. now right.
Qed.

(** X5. Writing a header out and reading it back gives the header: for a
    dict without repeated keys whose keys hold no colon,
    [make_dict_from_parsed_data] applied to its lines [key: value], in
    order, returns that dict. *)
Theorem make_dict_from_parsed_data_round_trip (d : dict string) :
  NoDup (keys d) ->
  (forall k, In k (keys d) -> occurs ":" k = false) ->
  make_dict_from_parsed_data (map (fun kv => fst kv ++ ": " ++ snd kv) d) = Ok d.
Proof.
  intros nd plain. unfold make_dict_from_parsed_data.
  now rewrite (dict_of_pairs_written d empty nd plain).
Qed.

Lemma make_dict_from_parsed_data_round_trip_witness :
  make_dict_from_parsed_data ["Voltage: 36.5 V"; "Note: see: log"; "Chip: A1"]
  = Ok [("Voltage", "36.5 V"); ("Note", "see: log"); ("Chip", "A1")].
Proof.
  apply (make_dict_from_parsed_data_round_trip
           [("Voltage", "36.5 V"); ("Note", "see: log"); ("Chip", "A1")]).
  - repeat constructor; simpl; intuition discriminate.
  - intros k [<-|[<-|[<-|[]]]]; reflexivity.
Defined.

(** ** read_comment_lines on a file that cannot be read *)

Lemma read_comment_lines_state (path : string) (w : world) :
  snd (read_comment_lines path w) = w.
Proof.
  destruct (files w path) as [text|e] eqn:F.
  - rewrite (read_comment_lines_run w path text F).
    destruct (header_entries (file_lines text)); [reflexivity|].
    destruct (make_dict_from_parsed_data (s :: l)); reflexivity.
  - unfold read_comment_lines, bind, try_except, open_text. rewrite F. simpl.
    destruct (is_FileNotFoundError e); reflexivity.
Qed.

(** X6. When the file cannot be opened, [read_comment_lines] replaces the
    exception: a [FileNotFoundError] by a [FileNotFoundError] that names
    the path, anything else by a plain [Exception] that quotes the
    original message.  And whatever the file, it leaves the state of the
    process as it was. *)
Theorem read_comment_lines_unreadable (w : world) (path : string) :
  snd (read_comment_lines path w) = w
  /\ forall e,
      files w path = Raise e ->
      fst (read_comment_lines path w)
      = Raise (if is_FileNotFoundError e
               then FileNotFoundError ("The file '" ++ path ++ "' was not found.")
               else Exception ("An error occurred while processing the file: "
                               ++ exn_message e)).
Proof.
  split; [apply read_comment_lines_state|].
  intros e F. unfold read_comment_lines, bind, try_except, open_text.
  rewrite F. simpl. destruct (is_FileNotFoundError e); reflexivity.
Qed.

Lemma read_comment_lines_unreadable_witness :
  fst (read_comment_lines "raw/2024-11-29/absent.csv"
                          (Cases.fresh Sample.steady_kedro))
  = Raise (FileNotFoundError "The file 'raw/2024-11-29/absent.csv' was not found.")
  /\ fst (read_comment_lines "raw/2024-11-29/locked.csv"
                             (Cases.fresh Sample.steady_kedro))
     = Raise (Exception
                ("An error occurred while processing the file: "
                 ++ "[Errno 13] Permission denied: 'raw/2024-11-29/locked.csv'")).
Proof.
  split.
  - exact (proj2 (read_comment_lines_unreadable
                    (Cases.fresh Sample.steady_kedro) "raw/2024-11-29/absent.csv")
                 _ eq_refl).
  - exact (proj2 (read_comment_lines_unreadable
                    (Cases.fresh Sample.steady_kedro) "raw/2024-11-29/locked.csv")
                 _ eq_refl).
Defined.

(** ** parse_metadata *)

Lemma float_raises_ValueError (s : string) (e : exn) :
  PyNum.float s = Raise e -> is_ValueError e = true.
Proof.
  unfold PyNum.float. destruct (PyNum.sign (PyNum.trim s)) as [neg body].
  destruct ((PyNum.lowercase body =? "inf") || (PyNum.lowercase body =? "infinity"));
    [discriminate|].
  destruct (PyNum.lowercase body =? "nan"); [discriminate|].
  destruct (PyNum.floatnumber body) as [[m x]|]; [discriminate|].
  intro E. injection E as <-. reflexivity.
Qed.

Lemma int_raises_ValueError (s : string) (e : exn) :
  PyNum.int s = Raise e -> is_ValueError e = true.
Proof.
  unfold PyNum.int. destruct (PyNum.sign (PyNum.trim s)) as [neg body].
  destruct (PyNum.digitpart body) as [[[n k] rest]|];
    [|intro E; injection E as <-; reflexivity].
  destruct (prefix "_" rest); [intro E; injection E as <-; reflexivity|].
  destruct (PyNum.max_str_digits <? N.of_nat k)%N;
    [intro E; injection E as <-; reflexivity|].
  destruct rest; [discriminate|intro E; injection E as <-; reflexivity].
Qed.

Lemma first_token (value : string) :
  exists token rest, split " " None value = token :: rest.
Proof.
  destruct (split " " None value) as [|token rest] eqn:S.
  - now elim (split_char_nonempty " " value).
  - now exists token, rest.
Qed.

Section CoercionMore.

Context {pd : Pandas}.

(** X7. Under [float] the text after the first blank is ignored: a value
    without blank, followed by a blank and any unit text, coerces to what
    the value alone coerces to under [float_no_unit]; and for a value
    without blank the two tags agree. *)
Theorem parse_metadata_float_ignores_unit (key value unit_text : string) :
  occurs " " value = false ->
  parse_metadata key (value ++ " " ++ unit_text) "float"
  = parse_metadata key value "float_no_unit"
  /\ parse_metadata key value "float" = parse_metadata key value "float_no_unit".
Proof.
  intro plain. unfold parse_metadata.
  cbv beta iota delta [String.eqb Ascii.eqb Bool.eqb]. split.
  - destruct (split_char_first " " value unit_text plain) as (back & E).
    cbn [append] in *. rewrite E, index_first. reflexivity.
  - rewrite (split_char_absent " " value plain), index_first. reflexivity.
Qed.

(** X8. Whatever the key, the raw value and the type tag, an exception
    raised by [parse_metadata] is a [ValueError], or else one that the
    timestamp conversion of pandas raised under [datetime]. *)
Theorem parse_metadata_raises_ValueError (key raw tag : string) (e : exn) :
  parse_metadata key raw tag = Raise e ->
  is_ValueError e = true
  \/ (tag = "datetime" /\ exists f, to_datetime f = Raise e).
Proof.
  unfold parse_metadata.
  destruct (String.eqb_spec tag "float") as [->|_].
  { destruct (first_token raw) as (token & rest & ->). rewrite index_first.
    cbn [and_then]. destruct (PyNum.float token) eqn:F; [discriminate|].
    intro E. injection E as <-. left. exact (float_raises_ValueError _ _ F). }
  destruct (String.eqb_spec tag "int") as [->|_].
  { destruct (PyNum.int raw) eqn:F; [discriminate|].
    intro E. injection E as <-. left. exact (int_raises_ValueError _ _ F). }
  destruct (String.eqb_spec tag "bool") as [->|_]; [discriminate|].
  destruct (String.eqb_spec tag "str") as [->|_]; [discriminate|].
  destruct (String.eqb_spec tag "datetime") as [->|_].
  { unfold unix_time_to_datetime.
    destruct (PyNum.float raw) as [f|e0] eqn:F; cbn [and_then].
    - destruct (to_datetime f) as [t|e1] eqn:T; [discriminate|].
      destruct (is_ValueError e1) eqn:V; cbn [and_then];
        intro E; injection E as <-; [now left|].
      right. split; [reflexivity|now exists f].
    - rewrite (float_raises_ValueError _ _ F). cbn [and_then].
      intro E. injection E as <-. now left. }
  destruct (String.eqb_spec tag "float_no_unit") as [->|_].
  { destruct (PyNum.float raw) eqn:F; [discriminate|].
    intro E. injection E as <-. left. exact (float_raises_ValueError _ _ F). }
  intro E. injection E as <-. now left.
Qed.

End CoercionMore.

Lemma parse_metadata_float_ignores_unit_witness :
  parse_metadata (pd := Sample.pandas) "Voltage" "36.5 mV rms" "float"
  = parse_metadata (pd := Sample.pandas) "Voltage" "36.5" "float_no_unit".
Proof.
  exact (proj1 (parse_metadata_float_ignores_unit
                  (pd := Sample.pandas) "Voltage" "36.5" "mV rms" eq_refl)).
Defined.

Lemma parse_metadata_raises_ValueError_witness :
  is_ValueError (ValueError "invalid literal for int() with base 10: 'many'") = true
  \/ ("int" = "datetime"
      /\ exists f, to_datetime (Pandas := Sample.pandas) f
                   = Raise (ValueError "invalid literal for int() with base 10: 'many'")).
Proof.
  exact (parse_metadata_raises_ValueError (pd := Sample.pandas)
           "Points" "many" "int" _ eq_refl).
Defined.

(** ** make_props_data *)

Lemma determine_procedure_run (w : world) (path a text : string) :
  path = a ++ ".csv" -> files w path = Ok text ->
  determine_procedure path w
  = match search_angle (strip (readline text)) with
    | Some content => (PyList.index (split "." None content) (-1), w)
    | None =>
        (Ok EmptyString,
         snd (emit (UserWarning "No content found between < and >") w))
    end.
Proof.
  intros is_csv readable.
  assert (E : endswith ".csv" path = true)
    by (apply endswith_suffix; now exists a).
  unfold determine_procedure. rewrite E. cbn [negb].
  unfold bind, open_text. rewrite readable.
  destruct (search_angle (strip (readline text))); reflexivity.
Qed.

(** [determine_procedure] touches nothing but the list of warnings, to
    which it adds at most one. *)
Lemma determine_procedure_state (path : string) (w : world) :
  snd (determine_procedure path w) = w
  \/ snd (determine_procedure path w)
     = snd (emit (UserWarning "No content found between < and >") w).
Proof.
  unfold determine_procedure. destruct (endswith ".csv" path); cbn [negb].
  - unfold bind, open_text. destruct (files w path) as [text|e]; [|now left].
    destruct (search_angle (strip (readline text))); [now left|now right].
  - now left.
Qed.

Section ParsingMore.

Context {pd : Pandas}.

(** The loop over the header, when the header has no key twice: one
    property per header entry, in header order. *)
Lemma coerce_properties_rows (schema_keys : list string)
      (procedure_dict : dict string) (procedure : string)
      (found : list (string * string)) :
  forall acc props,
    coerce_properties found schema_keys procedure_dict procedure acc = Ok props ->
    NoDup (keys acc ++ keys found)%list ->
    exists vs,
      props = (acc ++ vs)%list
      /\ Forall2 (fun entry row =>
                    fst row = fst entry
                    /\ In (fst entry) schema_keys
                    /\ exists how, get procedure_dict (fst entry) = Some how
                                   /\ parse_metadata (fst entry) (snd entry) how
                                      = Ok (snd row))
                 found vs.
Proof.
  induction found as [|[k raw] found IH]; intros acc props; simpl.
  - intros E _. injection E as <-. exists []. now rewrite app_nil_r.
  - destruct (list_contains schema_keys k) eqn:known; [|discriminate].
    unfold getitem. destruct (get procedure_dict k) as [how|] eqn:typed;
      [|discriminate]. cbn [and_then].
    destruct (parse_metadata k raw how) as [v|] eqn:coerced; [|discriminate].
    cbn [and_then]. intros run nd. unfold keys in *. simpl in nd.
    assert (fresh : ~ In k (map fst acc)).
    { apply NoDup_remove_2 in nd. intro ink. apply nd. apply in_or_app. now left. }
    rewrite (keys_set_fresh acc k v fresh) in run.
    destruct (IH _ _ run) as (vs & -> & rows).
    { rewrite map_app. simpl. rewrite <- app_assoc. exact nd. }
    exists ((k, v) :: vs). split; [now rewrite <- app_assoc|].
    constructor; [|exact rows]. simpl. split; [reflexivity|].
    split; [now apply list_contains_In|]. now exists how.
Qed.

(** X9. Over a header without repeated keys (as [read_comment_lines]
    returns it), the loop of [make_props_data] that succeeds yields exactly
    one property per header entry, in header order, each under the key of
    its entry, a key of the schema, and holding the coercion of the raw
    value under the type tag that the schema has for that key. *)
Theorem coerce_properties_in_header_order (schema_keys : list string)
        (procedure_dict : dict string) (procedure : string)
        (found : dict string) (props : dict typed_value) :
  NoDup (keys found) ->
  coerce_properties found schema_keys procedure_dict procedure empty = Ok props ->
  keys props = keys found
  /\ Forall2 (fun entry row =>
                fst row = fst entry
                /\ In (fst entry) schema_keys
                /\ exists how, get procedure_dict (fst entry) = Some how
                               /\ parse_metadata (fst entry) (snd entry) how
                                  = Ok (snd row))
             found props.
Proof.
  intros nd run.
  destruct (coerce_properties_rows schema_keys procedure_dict procedure found
              empty props run nd) as (vs & -> & rows).
  split; [|exact rows]. simpl. clear - rows. unfold keys.
  induction rows as [|entry row found vs (same & _) _ IH]; simpl; congruence.
Qed.

(** What [make_props_data] does once the header is read, the procedure
    found and the schema resolved. *)
Lemma make_props_data_steps (path : string) (w w1 w2 w3 : world)
      (found : dict string) (header : nat) (procedure : string)
      (reg : registry) (definition : procedure_definition) :
  read_comment_lines path w = (Ok (found, header), w1) ->
  determine_procedure path w1 = (Ok procedure, w2) ->
  get_procedures w2 = (Ok (Some reg), w3) ->
  get reg procedure = Some definition ->
  make_props_data path w
  = match coerce_properties found
            (keys (Parameters definition) ++ keys (Metadata definition))%list
            (union (Parameters definition) (Metadata definition))
            procedure empty with
    | Raise e => (Raise e, w3)
    | Ok props =>
        match get_data_key path with
        | Raise e => (Raise e, w3)
        | Ok data_key =>
            match read_csv (files w3) path header (Data definition) with
            | Ok data =>
                (Ok (set (set props "data_key" (VStr data_key))
                         "Procedure type" (VStr procedure), data), w3)
            | Raise e =>
                (Raise (if is_ValueError e
                        then ValueError ("Error in reading " ++ path
                                         ++ " with dtype mapping: "
                                         ++ dict_str (Data definition))
                        else e), w3)
            end
        end
    end.
Proof.
  intros read determined loaded resolved.
  pose proof (get_procedures_returns_cache w2 w3 (Some reg) loaded) as hit.
  unfold make_props_data, bind. rewrite read, determined, loaded.
  unfold get_keys, bind. rewrite (get_procedures_cached w3 reg hit).
  unfold contains, lift, lookup_procedure, getitem. rewrite resolved. simpl.
  destruct (coerce_properties found _ _ procedure empty) as [props|e];
    [|reflexivity].
  destruct (get_data_key path) as [data_key|e]; [|reflexivity].
  unfold gets. simpl.
  destruct (read_csv (files w3) path header (Data definition)) as [data|e];
    [reflexivity|].
  destruct (is_ValueError e); reflexivity.
Qed.

(** X10. When every step succeeds, [make_props_data] returns the coerced
    header with two more entries, "data_key" holding [get_data_key] of the
    path and "Procedure type" holding the procedure; these two are written
    last, so a header entry of one of these names is replaced, and every
    other property keeps its coerced value. *)
Theorem make_props_data_adds_fields (path : string) (w w1 w2 w3 : world)
        (found : dict string) (header : nat) (procedure : string)
        (reg : registry) (definition : procedure_definition)
        (props : dict typed_value) (data_key : string) (data : DataFrame) :
  read_comment_lines path w = (Ok (found, header), w1) ->
  determine_procedure path w1 = (Ok procedure, w2) ->
  get_procedures w2 = (Ok (Some reg), w3) ->
  get reg procedure = Some definition ->
  coerce_properties found
    (keys (Parameters definition) ++ keys (Metadata definition))%list
    (union (Parameters definition) (Metadata definition)) procedure empty
  = Ok props ->
  get_data_key path = Ok data_key ->
  read_csv (files w3) path header (Data definition) = Ok data ->
  exists series,
    make_props_data path w = (Ok (series, data), w3)
    /\ get series "data_key" = Some (VStr data_key)
    /\ get series "Procedure type" = Some (VStr procedure)
    /\ forall k, k <> "data_key" -> k <> "Procedure type" ->
                 get series k = get props k.
Proof.
  intros read determined loaded resolved coerced keyed table.
  eexists. split.
  - rewrite (make_props_data_steps path w w1 w2 w3 found header procedure reg
               definition read determined loaded resolved).
    rewrite coerced, keyed, table. reflexivity.
  - split; [|split].
    + rewrite get_set_other by discriminate. apply get_set_same.
    + apply get_set_same.
    + intros k n1 n2. now rewrite !get_set_other by congruence.
Qed.

(** X11. When the reader of the table raises a [ValueError] (a cell that
    does not fit the type of its column), [make_props_data] raises a
    [ValueError] whose message names the path and shows the column types
    of the schema; any other exception of the reader goes through as it
    is. *)
Theorem make_props_data_table_error (path : string) (w w1 w2 w3 : world)
        (found : dict string) (header : nat) (procedure : string)
        (reg : registry) (definition : procedure_definition)
        (props : dict typed_value) (data_key : string) (e : exn) :
  read_comment_lines path w = (Ok (found, header), w1) ->
  determine_procedure path w1 = (Ok procedure, w2) ->
  get_procedures w2 = (Ok (Some reg), w3) ->
  get reg procedure = Some definition ->
  coerce_properties found
    (keys (Parameters definition) ++ keys (Metadata definition))%list
    (union (Parameters definition) (Metadata definition)) procedure empty
  = Ok props ->
  get_data_key path = Ok data_key ->
  read_csv (files w3) path header (Data definition) = Raise e ->
  make_props_data path w
  = (Raise (if is_ValueError e
            then ValueError ("Error in reading " ++ path ++ " with dtype mapping: "
                             ++ dict_str (Data definition))
            else e), w3).
Proof.
  intros read determined loaded resolved coerced keyed table.
  rewrite (make_props_data_steps path w w1 w2 w3 found header procedure reg
             definition read determined loaded resolved).
  now rewrite coerced, keyed, table.
Qed.

(** X12. A file given by its bare name, without any "/" in the path, is
    never parsed: even when its header, its procedure and its schema are
    in order, [make_props_data] raises the [IndexError] of [get_data_key],
    before the table is read. *)
Theorem make_props_data_bare_file_name (path : string) (w w1 w2 w3 : world)
        (found : dict string) (header : nat) (procedure : string)
        (reg : registry) (definition : procedure_definition)
        (props : dict typed_value) :
  read_comment_lines path w = (Ok (found, header), w1) ->
  determine_procedure path w1 = (Ok procedure, w2) ->
  get_procedures w2 = (Ok (Some reg), w3) ->
  get reg procedure = Some definition ->
  coerce_properties found
    (keys (Parameters definition) ++ keys (Metadata definition))%list
    (union (Parameters definition) (Metadata definition)) procedure empty
  = Ok props ->
  occurs "/" path = false ->
  make_props_data path w = (Raise (IndexError "list index out of range"), w3).
Proof.
  intros read determined loaded resolved coerced bare.
  rewrite (make_props_data_steps path w w1 w2 w3 found header procedure reg
             definition read determined loaded resolved).
  now rewrite coerced, (get_data_key_one_segment path bare).
Qed.

(** X13. A ".csv" file whose first line holds no "<...>" is not parsed:
    with a header in order and a registry without an entry for the empty
    name, [make_props_data] emits the warning of [determine_procedure] and
    then raises the [KeyError] of [get_keys] for the procedure ''. *)
Theorem make_props_data_without_procedure (path a text : string) (w w3 : world)
        (found : dict string) (header : nat) (reg : registry) :
  path = a ++ ".csv" -> files w path = Ok text ->
  (forall pre body post,
      strip (readline text) <> pre ++ String "<" (body ++ String ">" post)) ->
  fst (read_comment_lines path w) = Ok (found, header) ->
  get_procedures (snd (emit (UserWarning "No content found between < and >") w))
  = (Ok (Some reg), w3) ->
  get reg "" = None ->
  make_props_data path w
  = (Raise (KeyError "Procedure '' not found in procedures."), w3)
  /\ In (UserWarning "No content found between < and >") (emitted w3).
Proof.
  intros is_csv readable none read loaded absent.
  assert (read' : read_comment_lines path w = (Ok (found, header), w)).
  { pose proof (read_comment_lines_state path w) as same.
    destruct (read_comment_lines path w) as [r w']. simpl in *. congruence. }
  assert (determined :
            determine_procedure path w
            = (Ok EmptyString,
               snd (emit (UserWarning "No content found between < and >") w))).
  { rewrite (determine_procedure_run w path a text is_csv readable).
    destruct (search_angle (strip (readline text))) as [content|] eqn:S;
      [|reflexivity].
    destruct (search_angle_sound _ content (first_line_no_LF text) S)
      as (pre & post & shape & _).
    now elim (none pre content post). }
  pose proof (get_procedures_returns_cache _ w3 (Some reg) loaded) as hit.
  split.
  - unfold make_props_data, bind. rewrite read', determined, loaded.
    unfold get_keys, bind. rewrite (get_procedures_cached w3 reg hit).
    unfold contains. rewrite absent. reflexivity.
  - clear - loaded.
    set (w0 := snd (emit (UserWarning "No content found between < and >") w)) in *.
    assert (warned : In (UserWarning "No content found between < and >")
                        (emitted w0)).
    { unfold w0. destruct w. simpl. apply in_or_app. right. now left. }
    revert loaded. destruct w0 as [fs k c n ev]. simpl in warned.
    unfold get_procedures, bind, gets, load_catalog_item, bind,
      next_kedro_outcome; simpl.
    destruct c as [reg0|]; simpl.
    + intro E. injection E as _ <-. exact warned.
    + destruct (k n "params:procedures") as [e|d|e]; simpl.
      * discriminate.
      * intro E. injection E as _ <-. simpl. apply in_or_app. now left.
      * destruct (is_KeyError e); discriminate.
Qed.

End ParsingMore.

Lemma coerce_properties_in_header_order_witness :
  keys [("Voltage", VFloat (pd := Sample.pandas)
                           (S754_finite false 5136918324969472 (-47)));
        ("Points", VInt 42)]
  = ["Voltage"; "Points"].
Proof.
  refine (proj1 (coerce_properties_in_header_order
                   (pd := Sample.pandas)
                   (keys (Parameters Sample.ITt) ++ keys (Metadata Sample.ITt))%list
                   (union (Parameters Sample.ITt) (Metadata Sample.ITt)) "ITt"
                   [("Voltage", "36.5 V"); ("Points", "42")] _ _ eq_refl)).
  repeat constructor; simpl; intuition discriminate.
Defined.

Lemma make_props_data_adds_fields_witness :
  exists series,
    make_props_data (pd := Sample.pandas) "raw/2024-11-29/good.csv" Cases.loaded
    = (Ok (series, Sample.good_csv), Cases.loaded)
    /\ get series "data_key" = Some (VStr "2024-11-29/good")
    /\ get series "Procedure type" = Some (VStr "ITt")
    /\ forall k, k <> "data_key" -> k <> "Procedure type" ->
                 get series k
                 = get [("Voltage", VFloat (S754_finite false 5136918324969472 (-47)));
                        ("Points", VInt 42); ("Chip", VStr "A1")] k.
Proof.
  exact (make_props_data_adds_fields
           (pd := Sample.pandas) "raw/2024-11-29/good.csv"
           Cases.loaded Cases.loaded Cases.loaded Cases.loaded
           [("Voltage", "36.5 V"); ("Points", "42"); ("Chip", "A1")] 7 "ITt"
           Sample.procedures Sample.ITt _ "2024-11-29/good" Sample.good_csv
           eq_refl eq_refl eq_refl eq_refl eq_refl eq_refl eq_refl).
Defined.

Lemma make_props_data_table_error_witness :
  make_props_data (pd := Cases.strict_pandas) "raw/2024-11-29/table.csv" Cases.loaded
  = (Raise (ValueError ("Error in reading raw/2024-11-29/table.csv with dtype "
                        ++ "mapping: {'V': 'float64', 'I': 'float64'}")),
     Cases.loaded).
Proof.
  exact (make_props_data_table_error
           (pd := Cases.strict_pandas) "raw/2024-11-29/table.csv"
           Cases.loaded Cases.loaded Cases.loaded Cases.loaded
           [("Voltage", "36.5 V"); ("Points", "42"); ("Chip", "A1")] 7 "ITt"
           Sample.procedures Sample.ITt _ "2024-11-29/table"
           (ValueError "could not convert string to float: 'abc'")
           eq_refl eq_refl eq_refl eq_refl eq_refl eq_refl eq_refl).
Defined.

Lemma make_props_data_bare_file_name_witness :
  make_props_data (pd := Sample.pandas) "ITt.csv" Cases.loaded
  = (Raise (IndexError "list index out of range"), Cases.loaded).
Proof.
  exact (make_props_data_bare_file_name
           (pd := Sample.pandas) "ITt.csv"
           Cases.loaded Cases.loaded Cases.loaded Cases.loaded
           [("Voltage", "36.5 V"); ("Points", "42"); ("Chip", "A1")] 7 "ITt"
           Sample.procedures Sample.ITt _
           eq_refl eq_refl eq_refl eq_refl eq_refl eq_refl).
Defined.

Lemma make_props_data_without_procedure_witness :
  make_props_data (pd := Sample.pandas) "raw/2024-11-29/nobracket.csv" Cases.loaded
  = (Raise (KeyError "Procedure '' not found in procedures."),
     snd (emit (UserWarning "No content found between < and >") Cases.loaded))
  /\ In (UserWarning "No content found between < and >")
        (emitted (snd (emit (UserWarning "No content found between < and >")
                            Cases.loaded))).
Proof.
  refine (make_props_data_without_procedure
            (pd := Sample.pandas) "raw/2024-11-29/nobracket.csv"
            "raw/2024-11-29/nobracket" Sample.no_bracket_csv Cases.loaded _
            [] 0 Sample.procedures eq_refl eq_refl _ eq_refl eq_refl eq_refl).
  intros pre body post E.
  assert (hit : occurs "<" (strip (readline Sample.no_bracket_csv)) = true).
  { rewrite E, occurs_app. simpl. apply orb_true_r. }
  discriminate hit.
Defined.

(** ** The registry across a batch of files *)

Lemma determine_procedure_fields (path : string) (w : world) :
  let w' := snd (determine_procedure path w) in
  files w' = files w /\ kedro w' = kedro w
  /\ cached_procedures w' = cached_procedures w
  /\ catalog_loads w' = catalog_loads w.
Proof.
  destruct (determine_procedure_state path w) as [->| ->]; destruct w; simpl; auto.
Qed.

Section Registry.

Context {pd : Pandas}.

(** With the registry in the cache, [make_props_data] ends, whatever its
    outcome, in the state that [determine_procedure] left, or in the one
    it started from. *)
Lemma make_props_data_state (path : string) (w : world) (reg : registry) :
  cached_procedures w = Some reg ->
  snd (make_props_data path w) = w
  \/ snd (make_props_data path w) = snd (determine_procedure path w).
Proof.
  intro hit. unfold make_props_data, bind.
  pose proof (read_comment_lines_state path w) as same.
  destruct (read_comment_lines path w) as [[[found header]|e] w1];
    simpl in same; subst w1; [|now left].
  pose proof (determine_procedure_fields path w) as (_ & _ & cache & _).
  destruct (determine_procedure path w) as [[procedure|e] w2]; [|now right].
  simpl in cache. rewrite hit in cache. right. simpl.
  rewrite (get_procedures_cached w2 reg cache).
  unfold get_keys, bind. rewrite (get_procedures_cached w2 reg cache).
  destruct (negb (contains reg procedure)); [reflexivity|].
  unfold lift, gets.
  destruct (lookup_procedure (Some reg) procedure) as [definition|e];
    [|reflexivity].
  unfold ret. cbv beta iota.
  match goal with
  | |- context [coerce_properties ?f ?ks ?pdict ?proc ?acc] =>
      destruct (coerce_properties f ks pdict proc acc) as [props|e];
        [|reflexivity]
  end.
  destruct (get_data_key path) as [data_key|e]; [|reflexivity].
  cbv beta iota.
  match goal with
  | |- context [read_csv ?fs ?p ?h ?dt] =>
      destruct (read_csv fs p h dt) as [data|e]; [reflexivity|]
  end.
  destruct (is_ValueError e); reflexivity.
Qed.

Lemma make_props_data_fields (path : string) (w : world) (reg : registry) :
  cached_procedures w = Some reg ->
  let w' := snd (make_props_data path w) in
  files w' = files w /\ kedro w' = kedro w
  /\ cached_procedures w' = Some reg
  /\ catalog_loads w' = catalog_loads w.
Proof.
  intro hit. cbv zeta.
  destruct (make_props_data_state path w reg hit) as [->| ->].
  - auto.
  - destruct (determine_procedure_fields path w) as (f & k & c & n).
    rewrite f, k, c, n. auto.
Qed.

(** X14. Once the registry is cached, parsing a file never touches it:
    whatever the file and the outcome, after [make_props_data] the cache
    holds the same registry, the loader was not run, and at most one
    warning was added to what the process has emitted. *)
Theorem make_props_data_keeps_registry (path : string) (w : world)
        (reg : registry) :
  cached_procedures w = Some reg ->
  let w' := snd (make_props_data path w) in
  cached_procedures w' = Some reg
  /\ catalog_loads w' = catalog_loads w
  /\ (emitted w' = emitted w
      \/ emitted w'
         = (emitted w ++ [UserWarning "No content found between < and >"])%list).
Proof.
  intro hit. cbv zeta.
  destruct (make_props_data_fields path w reg hit) as (_ & _ & c & n).
  split; [exact c|]. split; [exact n|].
  destruct (make_props_data_state path w reg hit) as [->| ->]; [now left|].
  destruct (determine_procedure_state path w) as [->| ->]; [now left|].
  right. now destruct w.
Qed.

(** A producer made by [loader] leaves a cached registry alone. *)
Lemma loader_cached (path : string) (w : world) (reg : registry) :
  cached_procedures w = Some reg ->
  let w' := snd (Dataset.loader path w) in
  kedro w' = kedro w /\ cached_procedures w' = Some reg
  /\ catalog_loads w' = catalog_loads w.
Proof.
  intro hit. cbv zeta. unfold Dataset.loader, Dataset._load, bind.
  rewrite (get_procedures_cached w reg hit). cbn [Dataset.filepath Dataset.init].
  destruct (make_props_data_fields path w reg hit) as (_ & k & c & n).
  destruct (make_props_data path w) as [[[p d]|e] w1]; simpl in *; auto.
Qed.

(** With an empty cache and a catalog that serves a registry, a producer
    made by [loader] runs the loader once and caches the registry. *)
Lemma loader_first (path : string) (w : world) (reg : registry) :
  cached_procedures w = None ->
  kedro w (catalog_loads w) "params:procedures" = CatalogLoaded (Some reg) ->
  let w' := snd (Dataset.loader path w) in
  kedro w' = kedro w /\ cached_procedures w' = Some reg
  /\ catalog_loads w' = S (catalog_loads w).
Proof.
  intros miss served. cbv zeta.
  pose proof (get_procedures_empty w miss) as step. cbv zeta in step.
  rewrite served in step. destruct step as (k1 & n1 & c1).
  unfold Dataset.loader, Dataset._load, bind.
  destruct (get_procedures w) as [[r|e] w1] eqn:G; simpl in *.
  - cbn [Dataset.filepath Dataset.init].
    destruct (make_props_data_fields path w1 reg c1) as (_ & k & c & n).
    destruct (make_props_data path w1) as [[[p d]|e] w2]; simpl in *;
      repeat split; congruence.
  - auto.
Qed.

Lemma after_all_loaders_cached
      (experiments : dict (producer world Series DataFrame)) :
  Forall (fun kp => exists path, snd kp = Dataset.loader path) experiments ->
  forall (w : world) (reg : registry),
    cached_procedures w = Some reg ->
    let w' := after_all experiments w in
    kedro w' = kedro w /\ cached_procedures w' = Some reg
    /\ catalog_loads w' = catalog_loads w.
Proof.
  induction 1 as [|[key p] experiments (path & E) _ IH]; intros w reg hit; simpl.
  - auto.
  - simpl in E. subst p.
    destruct (loader_cached path w reg hit) as (k & c & n).
    destruct (IH _ reg c) as (k' & c' & n'). repeat split; congruence.
Qed.

(** X15. A batch of files is parsed with one load of the registry: when
    [separate_nanolab_dataset] is given producers that load files through
    [NanoLabDataSet._load], the cache is empty and the catalog serves a
    registry, then after the batch the loader has run exactly once and
    that registry is cached, however many files there are and whichever of
    them fail. *)
Theorem separate_loads_registry_once {frames : Frames Series}
        (experiments : dict (producer world Series DataFrame))
        (s : state world) (reg : registry) :
  experiments <> [] ->
  Forall (fun kp => exists path, snd kp = Dataset.loader path) experiments ->
  cached_procedures (outside s) = None ->
  kedro (outside s) (catalog_loads (outside s)) "params:procedures"
  = CatalogLoaded (Some reg) ->
  let s' := snd (separate_nanolab_dataset experiments s) in
  catalog_loads (outside s') = S (catalog_loads (outside s))
  /\ cached_procedures (outside s') = Some reg.
Proof.
  intros some loaders miss served. cbv zeta.
  assert (called : outside (snd (separate_nanolab_dataset experiments s))
                   = after_all experiments (outside s)).
  { rewrite separate_run. now destruct (frame_error _). }
  rewrite called.
  destruct experiments as [|[key p] experiments]; [contradiction|].
  inversion loaders as [|x l (path & E) rest]; subst. simpl in E. subst p.
  simpl.
  destruct (loader_first path (outside s) reg miss served) as (k & c & n).
  destruct (after_all_loaders_cached experiments rest _ reg c) as (_ & c' & n').
  split; congruence.
Qed.

End Registry.

Lemma make_props_data_keeps_registry_witness :
  let w' := snd (make_props_data (pd := Sample.pandas)
                                 "raw/2024-11-29/nobracket.csv" Cases.loaded) in
  cached_procedures w' = Some Sample.procedures
  /\ catalog_loads w' = 1
  /\ (emitted w' = emitted Cases.loaded
      \/ emitted w'
         = (emitted Cases.loaded
            ++ [UserWarning "No content found between < and >"])%list).
Proof.
  exact (make_props_data_keeps_registry
           (pd := Sample.pandas) "raw/2024-11-29/nobracket.csv" Cases.loaded
           Sample.procedures eq_refl).
Defined.

Lemma separate_loads_registry_once_witness :
  let s' := snd (separate_nanolab_dataset
                   (frames := Cases.series_frames) Cases.batch
                   {| outside := Cases.fresh Sample.steady_kedro; log := [] |}) in
  catalog_loads (outside s') = 1
  /\ cached_procedures (outside s') = Some Sample.procedures.
Proof.
  refine (separate_loads_registry_once
            (pd := Sample.pandas) (frames := Cases.series_frames) Cases.batch
            {| outside := Cases.fresh Sample.steady_kedro; log := [] |}
            Sample.procedures _ _ eq_refl eq_refl).
  - discriminate.
  - repeat constructor; eexists; reflexivity.
Defined.

(** ** separate_nanolab_dataset: rows, tables and records *)

Section SeparationMore.

Context {W Props Table : Type} {frames : Frames Props}.

Implicit Types (experiments : list (string * producer W Props Table)).
Implicit Types (t : list (string * result (Props * Table))).

Lemma successes_failures_length t :
  (List.length (successes t) + List.length (failures t))%nat = List.length t.
Proof.
  induction t as [|[k [x|e]] t IH]; simpl; lia.
Qed.

Lemma error_records_length t :
  List.length (filter Hooks.is_error (map record_of t)) = List.length (failures t).
Proof.
  induction t as [|[k [x|e]] t IH]; simpl; congruence.
Qed.

(** X16. Every entry is accounted for once.  Whether or not the table
    can be built, [separate_nanolab_dataset] writes one error record for
    each failed entry and no other, and the successful and the failed
    entries together are the entries given; when it returns, the number
    of rows of the properties table plus the number of failed entries is
    the number of entries given. *)
Theorem separate_accounts_for_every_entry experiments (s : state W) :
  let t := outcomes experiments (outside s) in
  let r := separate_nanolab_dataset experiments s in
  List.length (filter Hooks.is_error (log (snd r)))
  = (List.length (filter Hooks.is_error (log s)) + List.length (failures t))%nat
  /\ (List.length (successes t) + List.length (failures t))%nat
     = List.length experiments
  /\ forall table indexed_data,
      fst r = Ok (table, indexed_data) ->
      (List.length table + List.length (failures t))%nat
      = List.length experiments.
Proof.
  intros t r.
  assert (all : (List.length (successes t) + List.length (failures t))%nat
                = List.length experiments).
  { rewrite successes_failures_length. unfold t.
    rewrite <- (length_map fst), outcomes_keys. unfold keys. apply length_map. }
  pose proof (separate_run experiments s) as run. cbv zeta in run.
  fold t in run. fold r in run.
  split; [|split; [exact all|]].
  - rewrite run. destruct (frame_error _); cbn [snd log outside];
      rewrite !filter_app, !length_app, error_records_length;
      cbn [filter Hooks.is_error List.length]; lia.
  - intros table indexed_data returned. rewrite run in returned.
    destruct (frame_error _); [discriminate returned|].
    injection returned as <- _. now rewrite length_map.
Qed.

Lemma stored_NoDup (done : list (string * (Props * Table))) :
  forall d : dict Table, NoDup (keys d) -> NoDup (keys (stored done d)).
Proof.
  unfold stored. induction done as [|x done IH]; intros d nd; simpl.
  - exact nd.
  - apply IH. now apply set_NoDup.
Qed.

Lemma stored_get_other (done : list (string * (Props * Table))) (k : string) :
  ~ In k (map fst done) ->
  forall d : dict Table, get (stored done d) k = get d k.
Proof.
  unfold stored. induction done as [|x done IH]; intros absent d; simpl.
  - reflexivity.
  - simpl in absent. rewrite IH by tauto. apply get_set_other. intuition.
Qed.

Lemma stored_get (done : list (string * (Props * Table))) (k : string)
      (p : Props) (data : Table) :
  NoDup (map fst done) -> In (k, (p, data)) done ->
  forall d : dict Table, get (stored done d) k = Some data.
Proof.
  induction done as [|x done IH]; intros nd ink d; [contradiction|].
  inversion nd as [|y l fresh nd']; subst. destruct ink as [->|later].
  - change (stored ((k, (p, data)) :: done) d)
      with (stored done (set d k data)).
    rewrite (stored_get_other done k fresh). apply get_set_same.
  - change (stored (x :: done) d) with (stored done (set d (fst x) (snd (snd x)))).
    now apply IH.
Qed.

Lemma successes_In t (k : string) (x : Props * Table) :
  In (k, x) (successes t) <-> In (k, Ok x) t.
Proof.
  induction t as [|[k0 [y|e]] t IH]; simpl.
  - tauto.
  - rewrite IH. split; intros [E|later]; auto; left; congruence.
  - rewrite IH. split; [auto|]. intros [E|later]; [discriminate E|exact later].
Qed.

Lemma successes_NoDup t :
  NoDup (map fst t) -> NoDup (map fst (successes t)).
Proof.
  induction t as [|[k [x|e]] t IH]; simpl; intro nd.
  - constructor.
  - inversion nd as [|y l fresh nd']; subst. constructor; [|now apply IH].
    intro ink. apply fresh. now apply successes_incl.
  - inversion nd; subst. now apply IH.
Qed.

(** X17. Whenever [separate_nanolab_dataset] returns, the table-map has
    no key twice.  When the entries given have distinct keys, as the items
    of a dict have, it holds under the key of every successfully processed
    entry the table that the producer of that entry returned, and it has
    no entry under the key of a failed one. *)
Theorem separate_tables_by_key experiments (s : state W)
        (table : properties_table Props) (indexed_data : dict Table)
        (s' : state W) :
  let t := outcomes experiments (outside s) in
  separate_nanolab_dataset experiments s = (Ok (table, indexed_data), s') ->
  NoDup (keys indexed_data)
  /\ (NoDup (keys experiments) ->
      (forall k p data, In (k, Ok (p, data)) t -> get indexed_data k = Some data)
      /\ (forall k e, In (k, Raise e) t -> get indexed_data k = None)).
Proof.
  intros t run. rewrite separate_run in run. fold t in run.
  destruct (frame_error _); [discriminate run|].
  injection run as _ <- _. split.
  - apply stored_NoDup. constructor.
  - intro nd.
    assert (ndt : NoDup (map fst t)) by (unfold t; now rewrite outcomes_keys).
    split.
    + intros k p data ink.
      apply (stored_get (successes t) k p data (successes_NoDup t ndt)).
      now apply successes_In.
    + intros k e ink. rewrite stored_get_other; [reflexivity|].
      intro among. apply in_map_iff in among as ([k' x] & E & inx).
      simpl in E. subst k'. apply successes_In in inx.
      clear - ndt ink inx. induction t as [|[k0 r] t IH]; [contradiction|].
      simpl in ndt. inversion ndt as [|y l fresh nd']; subst.
      destruct ink as [E1|l1], inx as [E2|l2].
      * congruence.
      * injection E1 as -> _. apply fresh. apply in_map_iff.
        now exists (k, Ok x).
      * injection E2 as -> _. apply fresh. apply in_map_iff.
        now exists (k, Raise e).
      * now apply IH.
Qed.

End SeparationMore.

Lemma separate_accounts_for_every_entry_witness :
  List.length (filter Hooks.is_error
                 (log (snd (separate_nanolab_dataset
                              (frames := Cases.series_frames)
                              Cases.unaligned_experiments Sample.start)))) = 1
  /\ (List.length ["props of 1"; "props of 3"] + 1)%nat
     = List.length Sample.three_experiments.
Proof.
  split.
  - exact (proj1 (separate_accounts_for_every_entry
                    (frames := Cases.series_frames)
                    Cases.unaligned_experiments Sample.start)).
  - exact (proj2 (proj2 (separate_accounts_for_every_entry
                           (frames := Sample.text_frames)
                           Sample.three_experiments Sample.start))
                 ["props of 1"; "props of 3"]
                 [("run/1", "table of 1"); ("run/3", "table of 3")] eq_refl).
Defined.

Lemma separate_tables_by_key_witness :
  get [("run/1", "table of 1"); ("run/3", "table of 3")] "run/3"
  = Some "table of 3"
  /\ get [("run/1", "table of 1"); ("run/3", "table of 3")] "run/2" = None.
Proof.
  assert (run : separate_nanolab_dataset (frames := Sample.text_frames)
                  Sample.three_experiments Sample.start
                = (Ok (["props of 1"; "props of 3"],
                       [("run/1", "table of 1"); ("run/3", "table of 3")]),
                   {| outside := 3;
                      log := [Info "Starting separation of NanoLab dataset with 3 experiments.";
                              Info "Processed experiment: run/1";
                              Error "Error processing experiment run/2: bad header";
                              Info "Processed experiment: run/3";
                              Info "Finished dataset separation."] |}))
    by reflexivity.
  destruct (separate_tables_by_key _ _ _ _ _ run) as (_ & by_key).
  destruct by_key as (held & dropped).
  { repeat constructor; simpl; intuition discriminate. }
  split.
  - apply (held "run/3" "props of 3" "table of 3"). simpl. tauto.
  - apply (dropped "run/2" (ValueError "bad header")). simpl. tauto.
Defined.

(** ** hooks.py: DynamicDatasetHook.after_catalog_created *)

(** A relation between states that holds along each step holds along
    their sequence. *)
Lemma bind_keeps {S A B : Type} (P : S -> S -> Prop) (m : M S A) (k : A -> M S B) :
  (forall s, P s s) -> (forall a b c, P a b -> P b c -> P a c) ->
  (forall s, P s (snd (m s))) -> (forall a s, P s (snd (k a s))) ->
  forall s, P s (snd (bind m k s)).
Proof.
  intros refl trans first second s. unfold bind.
  specialize (first s). destruct (m s) as [[a|e] s']; simpl in *.
  - exact (trans _ _ _ first (second a s')).
  - exact first.
Qed.

Section HookProperties.

Context {W Props Table : Type} {frames : Frames Props}
        {catalog : Hooks.DataCatalog W Props Table}.

Implicit Types (st : Hooks.hook_state W).

Lemma quiet_refl st : Hooks.quiet st st.
Proof. split; [reflexivity|]. exists []. now rewrite app_nil_r. Qed.

Lemma quiet_trans st1 st2 st3 :
  Hooks.quiet st1 st2 -> Hooks.quiet st2 st3 -> Hooks.quiet st1 st3.
Proof.
  intros (s12 & i12 & r12 & f12) (s23 & i23 & r23 & f23).
  split; [congruence|]. exists (i12 ++ i23)%list.
  rewrite r23, r12, <- app_assoc, forallb_app, f12, f23. auto.
Qed.

Lemma in_hooks_utils_quiet {A : Type} (m : M (state W) A) st :
  Hooks.quiet st (snd (Hooks.in_hooks_utils m st)).
Proof.
  unfold Hooks.in_hooks_utils. destruct (m (Hooks.separation st)) as [r sep].
  simpl. split; [reflexivity|]. exists []. now rewrite app_nil_r.
Qed.

Lemma on_catalog_quiet {A : Type} (op : W -> result A * W) st :
  Hooks.quiet st (snd (Hooks.on_catalog op st)).
Proof. apply in_hooks_utils_quiet. Qed.

Lemma info_quiet (msg : string) st :
  Hooks.quiet st (snd (Hooks.hook_logger (Info msg) st)).
Proof. split; [reflexivity|]. now exists [Info msg]. Qed.

Ltac quiet_step :=
  apply (bind_keeps Hooks.quiet); [exact quiet_refl|exact quiet_trans| |].

Lemma register_all_quiet (projects : list string) st :
  Hooks.quiet st (snd (Hooks.register_all projects st)).
Proof.
  revert st. induction projects as [|p projects IH]; intro st.
  - apply quiet_refl.
  - cbn [Hooks.register_all]. revert st. quiet_step; [|intros _; exact IH].
    unfold Hooks.register. quiet_step; intros; apply on_catalog_quiet.
Qed.

Lemma process_quiet (project : string) st :
  Hooks.quiet st (snd (Hooks.process project st)).
Proof.
  revert st. unfold Hooks.process.
  quiet_step; [intro; apply info_quiet|intros _].
  quiet_step; [intro; apply on_catalog_quiet|intros dataset].
  quiet_step; [intro; apply in_hooks_utils_quiet|].
  intros [consolidated_props indexed_data].
  quiet_step; [intro; apply on_catalog_quiet|intros _].
  quiet_step; [intro; apply info_quiet|intros _].
  quiet_step; [intro; apply on_catalog_quiet|intros _ st; apply info_quiet].
Qed.

Lemma process_all_quiet (projects : list string) st :
  Hooks.quiet st (snd (Hooks.process_all projects st)).
Proof.
  revert st. induction projects as [|p projects IH]; intro st.
  - apply quiet_refl.
  - cbn [Hooks.process_all]. revert st. quiet_step; [|intros _; exact IH].
    intro st. apply process_quiet.
Qed.

(** The hook, step by step. *)
Lemma after_catalog_created_run st :
  let found := filter (startswith "project_")
                      (Hooks.catalog_list (outside (Hooks.separation st))) in
  Hooks.after_catalog_created st
  = match Hooks.register_all found (snd (Hooks.set_projects found st)) with
    | (Raise e, st1) => (Raise e, st1)
    | (Ok _, st1) =>
        if Hooks.is_processing (Hooks.self st1)
        then Hooks.hook_logger
               (Info "Already processing datasets. Skipping this execution.") st1
        else
          match Hooks.process_all found (snd (Hooks.set_is_processing true st1)) with
          | (Ok _, st2) => (Ok tt, snd (Hooks.set_is_processing false st2))
          | (Raise e, st2) =>
              (Ok tt,
               snd (Hooks.set_is_processing
                      false
                      (snd (Hooks.hook_logger
                              (Error ("Error processing datasets: "
                                      ++ exn_message e)) st2))))
          end
    end.
Proof.
  cbv zeta. unfold Hooks.after_catalog_created, bind, gets. cbn [fst snd].
  unfold Hooks.set_projects at 1, modify. cbn [fst snd].
  destruct (Hooks.register_all _ _) as [[u|e] st1]; [|reflexivity].
  destruct (Hooks.is_processing (Hooks.self st1)); [reflexivity|].
  unfold Hooks.try_finally, try_except. cbn [Hooks.set_is_processing modify].
  destruct (Hooks.process_all _ _) as [[u'|e] st2]; destruct u; try destruct u';
    reflexivity.
Qed.

(** X18. [after_catalog_created] gives the flag [is_processing] back as it
    found it, whatever happens in between, and leaves in [projects] the
    names listed by the catalog that start with "project_", in the order
    of the catalog; and what it raises, if anything, was raised while the
    datasets were registered: nothing that loading, separating or saving
    raises comes out of it. *)
Theorem after_catalog_created_restores_flag st :
  let found := filter (startswith "project_")
                      (Hooks.catalog_list (outside (Hooks.separation st))) in
  let r := Hooks.after_catalog_created st in
  Hooks.is_processing (Hooks.self (snd r)) = Hooks.is_processing (Hooks.self st)
  /\ Hooks.projects (Hooks.self (snd r)) = Some found
  /\ forall e, fst r = Raise e ->
               fst (Hooks.register_all found (snd (Hooks.set_projects found st)))
               = Raise e.
Proof.
  cbv zeta. rewrite after_catalog_created_run. cbv zeta.
  set (found := filter _ _).
  pose proof (register_all_quiet found (snd (Hooks.set_projects found st)))
    as (same1 & _).
  destruct (Hooks.register_all found _) as [[u|e] st1]; simpl in same1.
  - destruct (Hooks.is_processing (Hooks.self st1)) eqn:busy.
    + simpl. rewrite same1. simpl. split; [reflexivity|].
      split; [reflexivity|discriminate].
    + pose proof (process_all_quiet found (snd (Hooks.set_is_processing true st1)))
        as (same2 & _).
      rewrite same1 in busy. simpl in busy.
      destruct (Hooks.process_all found _) as [[u'|e] st2]; simpl in *;
        rewrite same2, same1; simpl;
        (split; [now rewrite busy|]; split; [reflexivity|discriminate]).
  - simpl. rewrite same1. simpl. split; [reflexivity|].
    split; [reflexivity|]. intros e' E. congruence.
Qed.

(** X19. Whenever the datasets are registered without an exception,
    [after_catalog_created] returns normally, and what it adds to its log
    is a run of info records followed by at most one error record, the one
    of the exception that stopped the processing. *)
Theorem after_catalog_created_logs_one_error st :
  let found := filter (startswith "project_")
                      (Hooks.catalog_list (outside (Hooks.separation st))) in
  let r := Hooks.after_catalog_created st in
  (exists st1, Hooks.register_all found (snd (Hooks.set_projects found st))
               = (Ok tt, st1)) ->
  fst r = Ok tt
  /\ exists infos tail,
      Hooks.records (snd r) = (Hooks.records st ++ infos ++ tail)%list
      /\ forallb (fun x => negb (Hooks.is_error x)) infos = true
      /\ (tail = []
          \/ exists e, tail = [Error ("Error processing datasets: "
                                      ++ exn_message e)]).
Proof.
  cbv zeta. rewrite after_catalog_created_run. cbv zeta.
  set (found := filter _ _). intros (st1 & registered).
  pose proof (register_all_quiet found (snd (Hooks.set_projects found st)))
    as (_ & i1 & r1 & f1).
  rewrite registered in *. simpl in r1.
  destruct (Hooks.is_processing (Hooks.self st1)).
  - simpl. split; [reflexivity|].
    exists (i1 ++ [Info "Already processing datasets. Skipping this execution."])%list,
      [].
    rewrite r1, app_nil_r, <- app_assoc, forallb_app, f1. auto.
  - pose proof (process_all_quiet found (snd (Hooks.set_is_processing true st1)))
      as (_ & i2 & r2 & f2). simpl in r2.
    destruct (Hooks.process_all found _) as [[u'|e] st2]; simpl in *;
      (split; [reflexivity|]).
    + exists (i1 ++ i2)%list, [].
      rewrite r2, r1, app_nil_r, <- app_assoc, forallb_app, f1, f2. auto.
    + exists (i1 ++ i2)%list, [Error ("Error processing datasets: " ++ exn_message e)].
      rewrite r2, r1, <- !app_assoc, forallb_app, f1, f2.
      split; [reflexivity|]. split; [reflexivity|]. right. now exists e.
Qed.

Lemma process_all_app (before after : list string) st :
  Hooks.process_all (before ++ after)%list st
  = match Hooks.process_all before st with
    | (Ok _, st') => Hooks.process_all after st'
    | (Raise e, st') => (Raise e, st')
    end.
Proof.
  revert st. induction before as [|p before IH]; intro st; simpl.
  - reflexivity.
  - unfold bind. destruct (Hooks.process p st) as [[u|e] st']; [apply IH|reflexivity].
Qed.

(** X20. One project that fails stops the whole run: when the processing
    of a project raises ([catalog.load], a [catalog.save]), the projects
    that come after it are neither loaded nor saved; the hook ends in the
    state that the failing project left, with one error record added and
    the flag down, and returns normally. *)
Theorem after_catalog_created_stops_at_first_failure
        st st1 st2 st3 (before after : list string) (project : string) (e : exn) :
  filter (startswith "project_") (Hooks.catalog_list (outside (Hooks.separation st)))
  = (before ++ project :: after)%list ->
  Hooks.is_processing (Hooks.self st) = false ->
  Hooks.register_all (before ++ project :: after)%list
                     (snd (Hooks.set_projects (before ++ project :: after)%list st))
  = (Ok tt, st1) ->
  Hooks.process_all before (snd (Hooks.set_is_processing true st1)) = (Ok tt, st2) ->
  Hooks.process project st2 = (Raise e, st3) ->
  Hooks.after_catalog_created st
  = (Ok tt,
     snd (Hooks.set_is_processing
            false
            (snd (Hooks.hook_logger
                    (Error ("Error processing datasets: " ++ exn_message e)) st3)))).
Proof.
  intros listed idle registered done failed.
  rewrite after_catalog_created_run. cbv zeta. rewrite listed, registered.
  pose proof (register_all_quiet
                (before ++ project :: after)%list
                (snd (Hooks.set_projects (before ++ project :: after)%list st)))
    as (same & _).
  rewrite registered in same. simpl in same.
  replace (Hooks.is_processing (Hooks.self st1)) with false
    by (rewrite same; simpl; now rewrite idle).
  rewrite process_all_app, done. cbn [Hooks.process_all]. unfold bind.
  now rewrite failed.
Qed.

End HookProperties.

Section TwoCatalogs.

Context {W Props Table : Type} {frames : Frames Props}.

Lemma register_all_same (c1 c2 : Hooks.DataCatalog W Props Table) :
  (forall name spec w,
      Hooks.catalog_add (DataCatalog := c1) name spec w
      = Hooks.catalog_add (DataCatalog := c2) name spec w) ->
  forall projects st,
    Hooks.register_all (catalog := c1) projects st
    = Hooks.register_all (catalog := c2) projects st.
Proof.
  intros same projects. induction projects as [|p projects IH]; intro st; simpl.
  - reflexivity.
  - unfold bind, Hooks.register, bind, Hooks.on_catalog, Hooks.in_hooks_utils.
    rewrite !same.
    destruct (Hooks.catalog_add _ _ _) as [[u|e] w1]; simpl; [|reflexivity].
    rewrite !same.
    destruct (Hooks.catalog_add _ _ _) as [[u'|e] w2]; simpl; [apply IH|reflexivity].
Qed.

(** X21. A hook that is entered while it is processing registers the
    datasets and does nothing else: what it returns and the state it
    leaves do not depend on what [catalog.load] and [catalog.save] would
    do, so neither is called. *)
Theorem after_catalog_created_skips_when_busy
        (c1 c2 : Hooks.DataCatalog W Props Table) (st : Hooks.hook_state W) :
  (forall w, Hooks.catalog_list (DataCatalog := c1) w
             = Hooks.catalog_list (DataCatalog := c2) w) ->
  (forall name spec w,
      Hooks.catalog_add (DataCatalog := c1) name spec w
      = Hooks.catalog_add (DataCatalog := c2) name spec w) ->
  Hooks.is_processing (Hooks.self st) = true ->
  Hooks.after_catalog_created (catalog := c1) st
  = Hooks.after_catalog_created (catalog := c2) st.
Proof.
  intros same_list same_add busy.
  rewrite !after_catalog_created_run. cbv zeta.
  rewrite same_list, (register_all_same c1 c2 same_add).
  set (found := filter _ _).
  pose proof (register_all_quiet (catalog := c2) found
                (snd (Hooks.set_projects found st))) as (same & _).
  destruct (Hooks.register_all found _) as [[u|e] st1]; [|reflexivity].
  simpl in same. rewrite same. simpl. now rewrite busy.
Qed.

End TwoCatalogs.

Lemma after_catalog_created_restores_flag_witness :
  fst (Hooks.register_all
         (catalog := Cases.strict_catalog) ["project_a"; "project_b"]
         (snd (Hooks.set_projects ["project_a"; "project_b"] Cases.entered_again)))
  = Raise (Exception "Dataset 'properties_project_a' has already been registered").
Proof.
  apply (proj2 (proj2 (after_catalog_created_restores_flag
                         (frames := Sample.text_frames)
                         (catalog := Cases.strict_catalog) Cases.entered_again))).
  reflexivity.
Defined.

Lemma after_catalog_created_logs_one_error_witness :
  fst (Hooks.after_catalog_created (frames := Sample.text_frames)
                                   (catalog := Cases.journal_catalog) Cases.idle)
  = Ok tt
  /\ exists infos tail,
      Hooks.records
        (snd (Hooks.after_catalog_created (frames := Sample.text_frames)
                                          (catalog := Cases.journal_catalog)
                                          Cases.idle))
      = (Hooks.records Cases.idle ++ infos ++ tail)%list
      /\ forallb (fun x => negb (Hooks.is_error x)) infos = true
      /\ (tail = []
          \/ exists e, tail = [Error ("Error processing datasets: "
                                      ++ exn_message e)]).
Proof.
  apply (after_catalog_created_logs_one_error
           (frames := Sample.text_frames) (catalog := Cases.journal_catalog)
           Cases.idle).
  eexists. reflexivity.
Defined.

Lemma after_catalog_created_stops_at_first_failure_witness :
  fst (Hooks.after_catalog_created (frames := Sample.text_frames)
                                   (catalog := Cases.journal_catalog) Cases.idle)
  = Ok tt
  /\ outside (Hooks.separation
                (snd (Hooks.after_catalog_created
                        (frames := Sample.text_frames)
                        (catalog := Cases.journal_catalog) Cases.idle)))
     = ["add properties_project_a"; "add data_project_a";
        "add properties_project_b"; "add data_project_b";
        "load project_a"; "call"; "call"; "call";
        "save properties_project_a"; "save data_project_a";
        "load project_b"].
Proof.
  rewrite (after_catalog_created_stops_at_first_failure
             (frames := Sample.text_frames) (catalog := Cases.journal_catalog)
             Cases.idle
             (snd (Hooks.register_all
                     (catalog := Cases.journal_catalog) ["project_a"; "project_b"]
                     (snd (Hooks.set_projects ["project_a"; "project_b"] Cases.idle))))
             (snd (Hooks.process
                     (frames := Sample.text_frames)
                     (catalog := Cases.journal_catalog) "project_a"
                     (snd (Hooks.set_is_processing
                             true
                             (snd (Hooks.register_all
                                     (catalog := Cases.journal_catalog)
                                     ["project_a"; "project_b"]
                                     (snd (Hooks.set_projects
                                             ["project_a"; "project_b"]
                                             Cases.idle))))))))
             _ ["project_a"] [] "project_b"
             (Exception "Failed while loading data from dataset project_b")
             eq_refl eq_refl eq_refl eq_refl eq_refl).
  split; reflexivity.
Defined.

Lemma after_catalog_created_skips_when_busy_witness :
  Hooks.after_catalog_created (frames := Sample.text_frames)
                              (catalog := Cases.journal_catalog) Cases.busy
  = Hooks.after_catalog_created (frames := Sample.text_frames)
                                (catalog := Cases.closed_catalog) Cases.busy.
Proof.
  apply after_catalog_created_skips_when_busy; reflexivity.
Defined.

(** ** nanolab_dataframe_backup.py: the earlier make_props_data *)

Lemma get_In {V : Type} (d : dict V) (k : string) (v : V) :
  get d k = Some v -> In (k, v) d.
Proof.
  induction d as [|[k0 v0] d IH]; simpl; [discriminate|].
  destruct (String.eqb_spec k0 k) as [->|_].
  - intro E. injection E as ->. now left.
  - intro E. right. now apply IH.
Qed.

Lemma In_get {V : Type} (d : dict V) (k : string) (v : V) :
  NoDup (keys d) -> In (k, v) d -> get d k = Some v.
Proof.
  unfold keys. induction d as [|[k0 v0] d IH]; simpl; intros nd ink;
    [contradiction|].
  inversion nd as [|x l fresh nd']; subst.
  destruct ink as [E|later].
  - injection E as -> ->. now rewrite String.eqb_refl.
  - destruct (String.eqb_spec k0 k) as [->|_]; [|now apply IH].
    elim fresh. apply in_map_iff. now exists (k, v).
Qed.

Section BackupProperties.

Context {pd : Pandas}.

(** The backup loop returns only when every key of the schema is in the
    header and coerces; what it returns holds, under each key of the
    schema, the coercion of the header value of that key, and nothing
    else is touched. *)
Lemma coerce_keys_sound (found : dict string) (procedure_dict : dict string)
      (schema_keys : list string) :
  forall acc props,
    Backup.coerce_keys schema_keys found procedure_dict acc = Ok props ->
    (forall k, In k schema_keys ->
               exists raw how v,
                 get found k = Some raw /\ get procedure_dict k = Some how
                 /\ Backup.parse_metadata k raw how = Ok v
                 /\ get props k = Some v)
    /\ (forall k, ~ In k schema_keys -> get props k = get acc k).
Proof.
  induction schema_keys as [|k0 rest IH]; intros acc props; simpl.
  - intro E. injection E as <-. split; [contradiction|reflexivity].
  - unfold contains, getitem.
    destruct (get found k0) as [raw|] eqn:F; [|discriminate]. cbn [and_then].
    destruct (get procedure_dict k0) as [how|] eqn:T; [|discriminate].
    cbn [and_then].
    destruct (Backup.parse_metadata k0 raw how) as [v|] eqn:C; [|discriminate].
    cbn [and_then]. intro run. destruct (IH _ _ run) as (inside & outsiders).
    split.
    + intros k [<-|later]; [|now apply inside].
      destruct (in_dec string_dec k0 rest) as [again|once]; [now apply inside|].
      exists raw, how, v. repeat split; try assumption.
      rewrite (outsiders k0 once). apply get_set_same.
    + intros k absent. rewrite outsiders by tauto.
      apply get_set_other. intuition.
Qed.

Lemma coerce_keys_complete (found : dict string) (procedure_dict : dict string)
      (schema_keys : list string) :
  (forall k, In k schema_keys ->
             exists raw how v,
               get found k = Some raw /\ get procedure_dict k = Some how
               /\ Backup.parse_metadata k raw how = Ok v) ->
  forall acc, exists props,
      Backup.coerce_keys schema_keys found procedure_dict acc = Ok props.
Proof.
  induction schema_keys as [|k0 rest IH]; intros good acc; simpl.
  - eauto.
  - destruct (good k0 (or_introl eq_refl)) as (raw & how & v & F & T & C).
    unfold contains, getitem. rewrite F, T. cbn [and_then]. rewrite C.
    cbn [and_then]. apply IH. intros k ink. apply good. now right.
Qed.

(** A key of the schema that the header lacks stops the backup loop. *)
Lemma coerce_keys_missing (found : dict string) (procedure_dict : dict string)
      (schema_keys : list string) (key : string) :
  In key schema_keys -> ~ In key (keys found) ->
  forall acc, exists e,
      Backup.coerce_keys schema_keys found procedure_dict acc = Raise e.
Proof.
  intros needed absent acc.
  destruct (Backup.coerce_keys schema_keys found procedure_dict acc)
    as [props|e] eqn:run; [|eauto].
  destruct (coerce_keys_sound found procedure_dict schema_keys acc props run)
    as (inside & _).
  destruct (inside key needed) as (raw & how & v & F & _).
  elim absent. apply get_In_keys. eauto.
Qed.

Lemma coerce_keys_first_missing (found : dict string) (procedure_dict : dict string)
      (before after : list string) (key : string) :
  ~ In key (keys found) ->
  (forall k, In k before ->
             exists raw how v,
               get found k = Some raw /\ get procedure_dict k = Some how
               /\ Backup.parse_metadata k raw how = Ok v) ->
  forall acc,
    Backup.coerce_keys (before ++ key :: after)%list found procedure_dict acc
    = Raise (KeyError ("Key '" ++ key
                       ++ "' is missing in the parsed properties from the file.")).
Proof.
  intros absent. induction before as [|k0 before IH]; intros good acc; simpl.
  - unfold contains. destruct (get found key) as [raw|] eqn:F; [|reflexivity].
    elim absent. apply get_In_keys. eauto.
  - destruct (good k0 (or_introl eq_refl)) as (raw & how & v & F & T & C).
    unfold contains, getitem. rewrite F, T. cbn [and_then]. rewrite C.
    cbn [and_then]. apply IH. intros k ink. apply good. now right.
Qed.

Lemma backup_make_props_data_steps (path : string) (w w1 w2 : world)
      (found : dict string) (header : nat) (procedure : string)
      (reg : registry) (definition : procedure_definition) :
  read_comment_lines path w = (Ok (found, header), w1) ->
  determine_procedure path w1 = (Ok procedure, w2) ->
  get reg procedure = Some definition ->
  Backup.make_props_data (Some reg) path w
  = match Backup.coerce_keys
            (keys (Parameters definition) ++ keys (Metadata definition))%list
            found (union (Parameters definition) (Metadata definition)) empty with
    | Raise e => (Raise e, w2)
    | Ok props =>
        match read_csv (files w2) path header (Data definition) with
        | Ok data => (Ok (set props "file_path" (VStr path), data), w2)
        | Raise e =>
            (Raise (if is_ValueError e
                    then ValueError ("Error in reading " ++ path
                                     ++ " with dtype mapping: "
                                     ++ dict_str (Data definition))
                    else e), w2)
        end
    end.
Proof.
  intros read determined resolved.
  unfold Backup.make_props_data, bind. rewrite read, determined.
  unfold lift, Backup.get_keys, contains, lookup_procedure, getitem.
  rewrite resolved. cbn [negb and_then].
  destruct (Backup.coerce_keys _ found _ empty) as [props|e]; [|reflexivity].
  unfold gets. cbv beta iota.
  destruct (read_csv (files w2) path header (Data definition)) as [data|e];
    [reflexivity|].
  destruct (is_ValueError e); reflexivity.
Qed.

(** X22. The backup [make_props_data] validates the other way round: it
    raises as soon as a key of the schema is not in the header of the
    file, and when the keys of the schema before the first such key are in
    the header and coerce, what it raises is the [KeyError] that names
    that key. *)
Theorem backup_make_props_data_missing_key (path : string) (w w1 w2 : world)
        (found : dict string) (header : nat) (procedure : string)
        (reg : registry) (definition : procedure_definition) :
  read_comment_lines path w = (Ok (found, header), w1) ->
  determine_procedure path w1 = (Ok procedure, w2) ->
  get reg procedure = Some definition ->
  let schema_keys :=
    (keys (Parameters definition) ++ keys (Metadata definition))%list in
  let procedure_dict := union (Parameters definition) (Metadata definition) in
  (forall key, In key schema_keys -> ~ In key (keys found) ->
               exists e, Backup.make_props_data (Some reg) path w = (Raise e, w2))
  /\ (forall before key after,
         schema_keys = (before ++ key :: after)%list ->
         ~ In key (keys found) ->
         (forall k, In k before ->
                    exists raw how v,
                      get found k = Some raw /\ get procedure_dict k = Some how
                      /\ Backup.parse_metadata k raw how = Ok v) ->
         Backup.make_props_data (Some reg) path w
         = (Raise (KeyError ("Key '" ++ key ++ "' is missing in the parsed "
                             ++ "properties from the file.")), w2)).
Proof.
  intros read determined resolved schema_keys procedure_dict.
  rewrite (backup_make_props_data_steps path w w1 w2 found header procedure reg
             definition read determined resolved).
  fold schema_keys procedure_dict. split.
  - intros key needed absent.
    destruct (coerce_keys_missing found procedure_dict schema_keys key
                needed absent empty) as (e & ->).
    now exists e.
  - intros before key after E absent good. rewrite E.
    now rewrite (coerce_keys_first_missing found procedure_dict before after key
                   absent good empty).
Qed.

(** X23. The backup loop does not look at header entries whose key is not
    in the schema: two headers that hold the same value under every key of
    the schema give the same outcome, whatever else they hold. *)
Theorem backup_ignores_other_header_keys (schema_keys : list string)
        (found found' : dict string) (procedure_dict : dict string)
        (props_dict : dict typed_value) :
  (forall k, In k schema_keys -> get found k = get found' k) ->
  Backup.coerce_keys schema_keys found procedure_dict props_dict
  = Backup.coerce_keys schema_keys found' procedure_dict props_dict.
Proof.
  revert props_dict.
  induction schema_keys as [|k0 rest IH]; intros acc same; simpl.
  - reflexivity.
  - unfold contains, getitem. rewrite <- (same k0 (or_introl eq_refl)).
    destruct (get found k0) as [raw|]; [|reflexivity]. cbn [and_then].
    destruct (get procedure_dict k0) as [how|]; [|reflexivity]. cbn [and_then].
    destruct (Backup.parse_metadata k0 raw how) as [v|]; [|reflexivity].
    cbn [and_then]. apply IH. intros k ink. apply same. now right.
Qed.

Lemma backup_parse_metadata_same (key raw how : string) :
  how <> "float_no_unit" ->
  Backup.parse_metadata key raw how = parse_metadata key raw how.
Proof.
  intro other. unfold Backup.parse_metadata, parse_metadata.
  destruct (how =? "float"); [reflexivity|].
  destruct (how =? "int"); [reflexivity|].
  destruct (how =? "bool"); [reflexivity|].
  destruct (how =? "str"); [reflexivity|].
  destruct (how =? "datetime"); [reflexivity|].
  destruct (String.eqb_spec how "float_no_unit"); [contradiction|reflexivity].
Qed.

Lemma coerce_properties_complete (schema_keys : list string)
      (procedure_dict : dict string) (procedure : string)
      (found : list (string * string)) :
  (forall k raw, In (k, raw) found ->
                 In k schema_keys
                 /\ exists how v, get procedure_dict k = Some how
                                  /\ parse_metadata k raw how = Ok v) ->
  forall acc, exists props,
      coerce_properties found schema_keys procedure_dict procedure acc = Ok props.
Proof.
  induction found as [|[k raw] found IH]; intros good acc; simpl.
  - eauto.
  - destruct (good k raw (or_introl eq_refl)) as (known & how & v & T & C).
    apply list_contains_In in known. rewrite known.
    unfold getitem. rewrite T. cbn [and_then]. rewrite C. cbn [and_then].
    apply IH. intros k' raw' ink. apply good. now right.
Qed.

Lemma Forall2_In_left {A B : Type} (R : A -> B -> Prop) (l : list A) (m : list B)
      (a : A) :
  Forall2 R l m -> In a l -> exists b, In b m /\ R a b.
Proof.
  induction 1 as [|x y l m rxy _ IH]; intros ina; [contradiction|].
  destruct ina as [->|later].
  - exists y. split; [now left|exact rxy].
  - destruct (IH later) as (b & inb & rab). exists b. split; [now right|exact rab].
Qed.

(** X24. On a header that holds exactly the keys of the schema, each once,
    and a schema that does not use the tag [float_no_unit] (which only the
    current code knows), the current loop of [make_props_data] and the
    backup one accept the same headers and give every key the same
    value. *)
Theorem current_and_backup_agree (schema_keys : list string)
        (procedure_dict : dict string) (procedure : string) (found : dict string) :
  NoDup (keys found) ->
  (forall k, In k (keys found) <-> In k schema_keys) ->
  (forall k, get procedure_dict k <> Some "float_no_unit") ->
  ((exists props, coerce_properties found schema_keys procedure_dict procedure empty
                  = Ok props)
   <-> (exists props, Backup.coerce_keys schema_keys found procedure_dict empty
                      = Ok props))
  /\ forall props props',
      coerce_properties found schema_keys procedure_dict procedure empty = Ok props ->
      Backup.coerce_keys schema_keys found procedure_dict empty = Ok props' ->
      forall k, get props k = get props' k.
Proof.
  intros nd same_keys plain.
  assert (tag : forall k raw how, get procedure_dict k = Some how ->
                                  Backup.parse_metadata k raw how
                                  = parse_metadata k raw how).
  { intros k raw how T. apply backup_parse_metadata_same. intros ->.
    exact (plain k T). }
  assert (current_good :
            forall props,
              coerce_properties found schema_keys procedure_dict procedure empty
              = Ok props ->
              keys props = keys found
              /\ forall k raw, In (k, raw) found ->
                               exists how v,
                                 get procedure_dict k = Some how
                                 /\ parse_metadata k raw how = Ok v
                                 /\ In (k, v) props).
  { intros props run.
    destruct (coerce_properties_rows schema_keys procedure_dict procedure found
                empty props run nd) as (vs & -> & rows).
    split.
    - simpl. clear - rows. unfold keys.
      induction rows as [|entry row l m (E & _) _ IH]; simpl; congruence.
    - intros k raw ink.
      destruct (Forall2_In_left _ _ _ _ rows ink)
        as ([k' v] & inv & E & _ & how & T & C). simpl in *. subst k'.
      now exists how, v. }
  split.
  - split.
    + intros (props & run). destruct (current_good props run) as (_ & good).
      apply coerce_keys_complete. intros k needed.
      apply same_keys, get_In_keys in needed as (raw & F).
      destruct (good k raw (get_In _ _ _ F)) as (how & v & T & C & _).
      exists raw, how, v. rewrite (tag k raw how T). auto.
    + intros (props' & run).
      destruct (coerce_keys_sound found procedure_dict schema_keys empty props' run)
        as (inside & _).
      apply coerce_properties_complete. intros k raw ink.
      assert (needed : In k schema_keys).
      { apply same_keys. apply in_map_iff. now exists (k, raw). }
      split; [exact needed|].
      destruct (inside k needed) as (raw' & how & v & F & T & C & _).
      rewrite (In_get found k raw nd ink) in F. injection F as <-.
      exists how, v. rewrite <- (tag k raw how T). auto.
  - intros props props' run run' k.
    destruct (current_good props run) as (same & good).
    destruct (coerce_keys_sound found procedure_dict schema_keys empty props' run')
      as (inside & outsiders).
    destruct (in_dec string_dec k (keys found)) as [present|absent].
    + pose proof present as needed. apply same_keys in needed.
      apply get_In_keys in present as (raw & F).
      destruct (good k raw (get_In _ _ _ F)) as (how & v & T & C & inv).
      destruct (inside k needed) as (raw' & how' & v' & F' & T' & C' & G').
      rewrite F in F'. injection F' as <-. rewrite T in T'. injection T' as <-.
      rewrite (tag k raw how T), C in C'. injection C' as <-.
      rewrite G'. apply In_get; [now rewrite same|exact inv].
    + rewrite outsiders by (intro needed; apply absent; now apply same_keys).
      simpl. destruct (get props k) as [v|] eqn:G; [|reflexivity].
      elim absent. rewrite <- same. apply get_In_keys. eauto.
Qed.

End BackupProperties.

Lemma backup_make_props_data_missing_key_witness :
  Backup.make_props_data (pd := Sample.pandas) (Some Sample.procedures)
                         "raw/2024-11-29/good.csv" Cases.loaded
  = (Raise (KeyError ("Key 'Start time' is missing in the parsed "
                      ++ "properties from the file.")), Cases.loaded).
Proof.
  refine (proj2 (backup_make_props_data_missing_key
                   (pd := Sample.pandas) "raw/2024-11-29/good.csv"
                   Cases.loaded Cases.loaded Cases.loaded
                   [("Voltage", "36.5 V"); ("Points", "42"); ("Chip", "A1")] 7 "ITt"
                   Sample.procedures Sample.ITt eq_refl eq_refl eq_refl)
                ["Voltage"; "Points"] "Start time" ["Chip"] eq_refl _ _).
  - simpl. intuition discriminate.
  - intros k [<-|[<-|[]]].
    + exists "36.5 V", "float", (VFloat (S754_finite false 5136918324969472 (-47))).
      repeat split.
    + exists "42", "int", (VInt 42). repeat split.
Defined.

Lemma backup_ignores_other_header_keys_witness :
  Backup.coerce_keys (pd := Sample.pandas) ["Voltage"] [("Voltage", "1 V")]
                     [("Voltage", "float")] empty
  = Backup.coerce_keys (pd := Sample.pandas) ["Voltage"]
                       [("Operator", "Ana"); ("Voltage", "1 V")]
                       [("Voltage", "float")] empty.
Proof.
  apply backup_ignores_other_header_keys.
  intros k [<-|[]]. reflexivity.
Defined.

Lemma current_and_backup_agree_witness :
  get [("Points", VInt (pd := Sample.pandas) 42);
       ("Voltage", VFloat (S754_finite false 5136918324969472 (-47)))] "Voltage"
  = get [("Voltage", VFloat (pd := Sample.pandas)
                            (S754_finite false 5136918324969472 (-47)));
         ("Points", VInt 42)] "Voltage".
Proof.
  refine (proj2 (current_and_backup_agree
                   (pd := Sample.pandas) ["Voltage"; "Points"]
                   [("Voltage", "float"); ("Points", "int")] "ITt"
                   [("Points", "42"); ("Voltage", "36.5 V")] _ _ _)
                _ _ eq_refl eq_refl "Voltage").
  - repeat constructor; simpl; intuition discriminate.
  - intro k. simpl. tauto.
  - intros k E. cbn [get] in E.
    destruct ("Voltage" =? k); [discriminate E|].
    destruct ("Points" =? k); discriminate E.
Defined.

(** ** parse_metadata under [int]: decimal numerals *)

Lemma digits_acc_decimal (d : Decimal.uint) :
  forall acc cnt,
    PyNum.digits_acc (N.of_nat acc) cnt (NilEmpty.string_of_uint d)
    = (N.of_nat (Nat.of_uint_acc d acc),
       (cnt + String.length (NilEmpty.string_of_uint d))%nat, EmptyString).
Proof.
  induction d as [|d IH|d IH|d IH|d IH|d IH|d IH|d IH|d IH|d IH|d IH];
    intros acc cnt;
    cbn [NilEmpty.string_of_uint Nat.of_uint_acc String.length];
    [now rewrite Nat.add_0_r|..];
    cbn [PyNum.digits_acc];
    lazymatch goal with
    | |- context [PyNum.digit_of ?c] =>
        let v := eval vm_compute in (PyNum.digit_of c) in
        change (PyNum.digit_of c) with v
    end;
    cbv iota;
    rewrite <- Nat.add_succ_comm;
    lazymatch goal with
    | |- context [Nat.of_uint_acc d ?a] => rewrite <- (IH a (S cnt))
    end;
    f_equal; rewrite Nat.tail_mul_spec; lia.
Qed.

Lemma skip_right_decimal (d : Decimal.uint) :
  PyNum.skip_right (NilEmpty.string_of_uint d) = NilEmpty.string_of_uint d.
Proof.
  induction d as [|d IH|d IH|d IH|d IH|d IH|d IH|d IH|d IH|d IH|d IH];
    cbn [NilEmpty.string_of_uint PyNum.skip_right]; [reflexivity|..];
    rewrite IH; destruct (NilEmpty.string_of_uint d); reflexivity.
Qed.

(** [int()] on a run of decimal digits: the number it denotes, unless
    there are more digits than the limit allows. *)
Lemma int_decimal (d : Decimal.uint) :
  d <> Decimal.Nil ->
  PyNum.int (NilEmpty.string_of_uint d)
  = if (PyNum.max_str_digits
        <? N.of_nat (String.length (NilEmpty.string_of_uint d)))%N
    then Raise (PyNum.exceeds_limit (String.length (NilEmpty.string_of_uint d)))
    else Ok (Z.of_nat (Nat.of_uint d)).
Proof.
  intro some. unfold PyNum.int, PyNum.trim. rewrite skip_right_decimal.
  unfold Nat.of_uint.
  destruct d as [|d|d|d|d|d|d|d|d|d|d]; [contradiction|..];
    cbn [NilEmpty.string_of_uint Nat.of_uint_acc PyNum.skip_left String.length];
    lazymatch goal with
    | |- context [PyNum.is_blank ?c] =>
        let v := eval vm_compute in (PyNum.is_blank c) in
        change (PyNum.is_blank c) with v
    end;
    cbv iota; cbn [PyNum.sign PyNum.digitpart];
    lazymatch goal with
    | |- context [PyNum.digit_of ?c] =>
        let v := eval vm_compute in (PyNum.digit_of c) in
        change (PyNum.digit_of c) with v
    end;
    cbv iota;
    lazymatch goal with
    | |- context [Nat.of_uint_acc d ?a] =>
        let a' := eval vm_compute in a in
        change a with a';
        pose proof (digits_acc_decimal d a' 1) as E;
        let n := eval vm_compute in (N.of_nat a') in
        change (N.of_nat a') with n in E at 1
    end;
    rewrite E; cbv iota beta; cbn [prefix Nat.add];
    (destruct (PyNum.max_str_digits
               <? N.of_nat (S (String.length (NilEmpty.string_of_uint d))))%N;
     [reflexivity|now rewrite nat_N_Z]).
Qed.

(** X25. A run of decimal digits, as [str(n)] writes a natural number,
    coerces under [int] to the number it denotes when it has at most 4300
    digits, whatever the key; with more digits than that limit of [int()]
    the coercion raises the [ValueError] that tells the number of
    digits. *)
Theorem parse_metadata_int_of_decimal {pd : Pandas} (key : string)
        (d : Decimal.uint) :
  d <> Decimal.Nil ->
  let value := NilEmpty.string_of_uint d in
  ((String.length value <= 4300)%nat ->
   parse_metadata key value "int" = Ok (VInt (Z.of_nat (Nat.of_uint d))))
  /\ ((4300 < String.length value)%nat ->
      parse_metadata key value "int"
      = Raise (PyNum.exceeds_limit (String.length value))).
Proof.
  intros some value.
  assert (run : parse_metadata key value "int"
                = and_then (PyNum.int value) (fun z => Ok (VInt z))).
  { unfold parse_metadata.
    cbv beta iota delta [String.eqb Ascii.eqb Bool.eqb]. reflexivity. }
  rewrite run. unfold value. rewrite (int_decimal d some).
  unfold PyNum.max_str_digits.
  split; intro size.
  - replace (4300 <? _)%N with false; [reflexivity|].
    symmetry. apply N.ltb_ge. lia.
  - replace (4300 <? _)%N with true; [reflexivity|].
    symmetry. apply N.ltb_lt. lia.
Qed.

Lemma parse_metadata_int_of_decimal_witness :
  parse_metadata (pd := Sample.pandas) "Points" "0042" "int" = Ok (VInt 42)
  /\ parse_metadata (pd := Sample.pandas) "Points"
       (NilEmpty.string_of_uint Cases.long_numeral) "int"
     = Raise (ValueError
                ("Exceeds the limit (4300 digits) for integer string conversion: "
                 ++ "value has 4301 digits; "
                 ++ "use sys.set_int_max_str_digits() to increase the limit")).
Proof.
  split.
  - refine (proj1 (parse_metadata_int_of_decimal
                     (pd := Sample.pandas) "Points"
                     (Decimal.D0 (Decimal.D0 (Decimal.D4 (Decimal.D2 Decimal.Nil))))
                     _) _).
    + discriminate.
    + cbn [NilEmpty.string_of_uint String.length]. lia.
  - refine (proj2 (parse_metadata_int_of_decimal
                     (pd := Sample.pandas) "Points" Cases.long_numeral _) _).
    + discriminate.
    + vm_compute. apply le_n.
Defined.
